(** * Obsidian tools: notes, resource links and resource relocation

  A shallow embedding of the Python packages [obsidian_sorter] and
  [obsidian_tools]: the markdown parser (front-matter year, resource
  links and their rewriting), the resource locator, the file hasher, the
  resource manager and the file sorter of the year sort, the analyzer /
  optimizer that relocates resources next to the notes that use them,
  and the sort of the script [sort_md_by_year.py].

  Conventions.
  - A Python [str] is a [string]; a character stands for the code point
    of the same number (0..255), so [\d] is the ten ASCII digits and [\s]
    the white space code points below 256.
  - A [pathlib.Path] is the list of its [parts], as a POSIX path has
    them: the root ["/"] is the first part of an absolute path and the
    only part that holds a separator.
  - The file system is a tree of named entries, listed in the order a
    directory scan returns them, and read from the empty path: an
    absolute path goes through the entry ["/"]. [rename] is that of
    POSIX. A part [..] is a name like any other: paths are not
    resolved.
  - Library code ([re], [fnmatch], [pathlib]) behaves as in CPython 3.11.
  - Code that raises or mutates runs in a state-and-exception monad over
    that tree. Console output is not part of the model.
  - [obsidian_sorter] imports its file hasher and [obsidian_tools] its
    markdown parser from modules the other package holds; each is
    embedded once.

  Limits.
  - [Path.exists], [is_file] and [is_dir] answer; the [OSError] they
    raise on a path the operating system refuses (a name that is too
    long) is not modelled.
  - A regular file that can be read can be written: a note that is
    read-only is not modelled, so statements about the answer [True]
    of a rewrite are stated for the runs that give it.
  - [rglob] is modelled for patterns of one part without [**].
  - In a replacement template, [\g<...>] is modelled for decimal
    numerals only. *)

From Stdlib Require Import String Ascii List Bool Arith Lia.
From Stdlib Require Import DecimalString DecimalNat DecimalFacts.
Import ListNotations.
Local Open Scope string_scope.
Local Open Scope list_scope.
Set Warnings "-register-all".

(** String concatenation, kept apart from that of lists. *)
Infix "+++" := String.append (right associativity, at level 60).

(** ** Python strings *)

Module Str.

Fixpoint mem (c : ascii) (s : string) : bool :=
  match s with
  | EmptyString => false
  | String d r => Ascii.eqb c d || mem c r
  end.

(** [s.startswith(p)], with the rest of [s] when it does. *)
Fixpoint strip_prefix (p s : string) : option string :=
  match p with
  | EmptyString => Some s
  | String a p' =>
      match s with
      | String b s' => if Ascii.eqb a b then strip_prefix p' s' else None
      | EmptyString => None
      end
  end.

Fixpoint drop (n : nat) (s : string) : string :=
  match n, s with
  | S k, String _ r => drop k r
  | _, _ => s
  end.

Fixpoint take (n : nat) (s : string) : string :=
  match n, s with
  | S k, String c r => String c (take k r)
  | _, _ => EmptyString
  end.

(** The longest prefix whose characters all satisfy [f], and the rest. *)
Fixpoint span (f : ascii -> bool) (s : string) : string * string :=
  match s with
  | String c r =>
      if f c then let (a, b) := span f r in (String c a, b)
      else (EmptyString, s)
  | EmptyString => (EmptyString, EmptyString)
  end.

Fixpoint forallb (f : ascii -> bool) (s : string) : bool :=
  match s with
  | EmptyString => true
  | String c r => f c && forallb f r
  end.

(** [s.replace(a, b)] for single characters. *)
Fixpoint replace_char (a b : ascii) (s : string) : string :=
  match s with
  | EmptyString => EmptyString
  | String c r => String (if Ascii.eqb c a then b else c) (replace_char a b r)
  end.

(** [sep.join(l)]. *)
Fixpoint join (sep : string) (l : list string) : string :=
  match l with
  | [] => EmptyString
  | [x] => x
  | x :: r => x +++ sep +++ join sep r
  end.

(** [s.split(c)]. *)
Fixpoint split (c : ascii) (s : string) : list string :=
  match s with
  | EmptyString => [EmptyString]
  | String d r =>
      if Ascii.eqb c d then EmptyString :: split c r
      else match split c r with
           | w :: ws => String d w :: ws
           | [] => [String d EmptyString]
           end
  end.

(** [s.rfind(c)]: the index of the last [c], if any. *)
Fixpoint rfind (c : ascii) (s : string) : option nat :=
  match s with
  | EmptyString => None
  | String d r =>
      match rfind c r with
      | Some i => Some (S i)
      | None => if Ascii.eqb c d then Some 0 else None
      end
  end.

(** [str(n)] for a natural number. *)
Definition of_nat (n : nat) : string :=
  NilEmpty.string_of_uint (Nat.to_uint n).

Definition is_digit (c : ascii) : bool :=
  let n := nat_of_ascii c in ((48 <=? n) && (n <=? 57))%nat.

Definition is_octdigit (c : ascii) : bool :=
  let n := nat_of_ascii c in ((48 <=? n) && (n <=? 55))%nat.

Definition is_ascii_letter (c : ascii) : bool :=
  let n := nat_of_ascii c in
  (((65 <=? n) && (n <=? 90)) || ((97 <=? n) && (n <=? 122)))%nat.

(** [\s] on code points below 256: TAB..CR, FS..US, space, NEL, NBSP. *)
Definition is_space (c : ascii) : bool :=
  let n := nat_of_ascii c in
  (((9 <=? n) && (n <=? 13)) || ((28 <=? n) && (n <=? 32))
   || (n =? 133) || (n =? 160))%nat.

Definition digit_val (c : ascii) : nat := nat_of_ascii c - 48.

(** [int(s)] for a string of ASCII digits. *)
Definition int_of (s : string) : nat :=
  (fix go (acc : nat) (s : string) : nat :=
     match s with
     | EmptyString => acc
     | String c r => go (10 * acc + digit_val c) r
     end) 0 s.

Definition nl : ascii := ascii_of_nat 10.

Definition cr : ascii := ascii_of_nat 13.

(** What text mode makes of the characters of a file ([newline=None]):
    [\r\n] and a lone [\r] are read as [\n]. *)
Fixpoint universal_newlines (s : string) : string :=
  match s with
  | EmptyString => EmptyString
  | String c r =>
      if Ascii.eqb c cr then
        String nl
               match r with
               | String d r' =>
                   if Ascii.eqb d nl then universal_newlines r'
                   else universal_newlines r
               | EmptyString => EmptyString
               end
      else String c (universal_newlines r)
  end.

End Str.

(** ** pathlib.PurePath *)

Module PurePath.

Definition path : Type := list string.

Definition path_eq_dec : forall p q : path, {p = q} + {p <> q} :=
  list_eq_dec string_dec.

Definition eqb (p q : path) : bool :=
  if path_eq_dec p q then true else false.

(** A path has an anchor when its first part holds the separator: of
    all parts only the root ["/"] does. *)
Definition anchored (p : path) : bool :=
  match p with
  | a :: _ => Str.mem "/"%char a
  | [] => false
  end.

(** The anchor alone, or the empty relative path [Path('.')]. *)
Definition is_top (p : path) : bool :=
  match p with
  | [] => true
  | [_] => anchored p
  | _ => false
  end.

(** [p.name] *)
Definition name (p : path) : string :=
  if is_top p then "" else last p "".

(** [p.parent] *)
Definition parent (p : path) : path :=
  if is_top p then p else removelast p.

(** [list(p.parents)]: the proper prefixes of [p], nearest first; the
    empty path is among them only for a relative path. *)
Definition parents (p : path) : list path :=
  let lo := if anchored p then 1 else 0 in
  map (fun k => firstn k p) (rev (seq lo (length p - lo))).

(** [p.suffix] and [p.stem]: split at the last dot of the name unless it
    is the first or the last character. *)
Definition split_at_dot (n : string) : option nat :=
  match Str.rfind "." n with
  | Some i =>
      if ((0 <? i) && (i <? String.length n - 1))%nat then Some i else None
  | None => None
  end.

Definition suffix (p : path) : string :=
  match split_at_dot (name p) with
  | Some i => Str.drop i (name p)
  | None => ""
  end.

Definition stem (p : path) : string :=
  match split_at_dot (name p) with
  | Some i => Str.take i (name p)
  | None => name p
  end.

(** [p / s] for a single component [s]. *)
Definition joinpath (p : path) (s : string) : path :=
  if String.eqb s "" then p else p ++ [s].

(** [Path(s)] on a POSIX string: empty and ["."] components vanish. *)
Definition of_string (s : string) : path :=
  let comps :=
    filter (fun c => negb (String.eqb c "" || String.eqb c "."))
           (Str.split "/" s) in
  match s with
  | String "/" _ => "/" :: comps
  | _ => comps
  end.

(** [str(p)] with forward slashes. *)
Definition to_string (p : path) : string :=
  match p with
  | [] => "."
  | a :: r => if anchored p then a +++ Str.join "/" r else Str.join "/" p
  end.

Fixpoint strip_parts (p d : path) : option path :=
  match d with
  | [] => Some p
  | x :: d' =>
      match p with
      | y :: p' => if String.eqb x y then strip_parts p' d' else None
      | [] => None
      end
  end.

(** [p.relative_to(d)]: [None] stands for [ValueError], also raised for
    an anchored path against a relative one. *)
Definition relative_to (p d : path) : option path :=
  match d with
  | [] => if anchored p then None else Some p
  | _ => strip_parts p d
  end.

End PurePath.
Definition path : Type := PurePath.path.

(** ** The file system *)

Module Store.

(** What a regular file holds: nothing that can be read (opening it
    raises [OSError]), bytes that are not UTF-8, or UTF-8 text. *)
Inductive file_data : Type :=
| Unreadable
| Binary (b : string)
| Utf8 (t : string).

(** [Faulty] is a directory whose scan raises an [OSError] other than
    [PermissionError]. *)
Inductive node : Type :=
| File (d : file_data)
| Dir (entries : list (string * node))
| Faulty.

Definition entries : Type := list (string * node).

Fixpoint get_child (n : string) (es : entries) : option node :=
  match es with
  | [] => None
  | (m, c) :: r => if String.eqb m n then Some c else get_child n r
  end.

Fixpoint set_child (n : string) (c : node) (es : entries) : entries :=
  match es with
  | [] => [(n, c)]
  | (m, d) :: r =>
      if String.eqb m n then (n, c) :: r else (m, d) :: set_child n c r
  end.

Fixpoint del_child (n : string) (es : entries) : entries :=
  match es with
  | [] => []
  | (m, d) :: r =>
      if String.eqb m n then del_child n r else (m, d) :: del_child n r
  end.

Fixpoint lookup (p : path) (t : node) : option node :=
  match p with
  | [] => Some t
  | n :: q =>
      match t with
      | Dir es =>
          match get_child n es with
          | Some c => lookup q c
          | None => None
          end
      | _ => None
      end
  end.

(** [p.exists()], [p.is_file()], [p.is_dir()] *)
Definition exists_ (t : node) (p : path) : bool :=
  match lookup p t with Some _ => true | None => false end.

Definition is_file (t : node) (p : path) : bool :=
  match lookup p t with Some (File _) => true | _ => false end.

Definition is_dir (t : node) (p : path) : bool :=
  match lookup p t with Some (Dir _) | Some Faulty => true | _ => false end.

(** The bytes [open(p, "rb")] delivers. *)
Definition read_bytes (t : node) (p : path) : option string :=
  match lookup p t with
  | Some (File (Binary b)) => Some b
  | Some (File (Utf8 s)) => Some s
  | _ => None
  end.

(** Rewrite the entries of the directory at [d]. *)
Fixpoint alter_dir (d : path) (f : entries -> option entries) (t : node)
  : option node :=
  match t with
  | Dir es =>
      match d with
      | [] => option_map Dir (f es)
      | n :: q =>
          match get_child n es with
          | Some c =>
              option_map (fun c' => Dir (set_child n c' es)) (alter_dir q f c)
          | None => None
          end
      end
  | _ => None
  end.

(** [p.mkdir(parents=True, exist_ok=True)]: [None] is an [OSError]. *)
Fixpoint mkdirs (p : path) (t : node) : option node :=
  match t with
  | Dir es =>
      match p with
      | [] => Some t
      | n :: q =>
          let sub := match get_child n es with
                     | Some c => c
                     | None => Dir []
                     end in
          option_map (fun c' => Dir (set_child n c' es)) (mkdirs q sub)
      end
  | Faulty => match p with [] => Some t | _ => None end
  | File _ => None
  end.

(** [p.mkdir(exist_ok=True)]: a directory that is there is left as it
    is; a new one needs its parent. *)
Definition mkdir (p : path) (t : node) : option node :=
  match lookup p t with
  | Some (Dir _) | Some Faulty => Some t
  | Some (File _) => None
  | None =>
      alter_dir (removelast p)
                (fun es => Some (set_child (last p "") (Dir []) es)) t
  end.

(** [a] is a proper prefix of [b]. *)
Fixpoint strictly_above (a b : path) : bool :=
  match a, b with
  | [], _ :: _ => true
  | x :: a', y :: b' => String.eqb x y && strictly_above a' b'
  | _, _ => false
  end.

(** Whether POSIX [rename] may put [src] where [old] is. *)
Definition may_replace (src old : node) : bool :=
  match src, old with
  | File _, File _ => true
  | Dir _, Dir [] => true
  | _, _ => false
  end.

(** [src.rename(dst)] as POSIX [rename(2)]: [None] is an [OSError]. *)
Definition rename (src dst : path) (t : node) : option node :=
  match lookup src t with
  | None => None
  | Some n =>
      if PurePath.eqb src dst then Some t
      else if PurePath.is_top src || PurePath.is_top dst
              || strictly_above src dst then None
      else
        let ok := match lookup dst t with
                  | Some old => may_replace n old
                  | None => true
                  end in
        if negb ok then None
        else
          match alter_dir (removelast src)
                          (fun es => Some (del_child (last src "") es)) t with
          | Some t1 =>
              alter_dir (removelast dst)
                        (fun es => Some (set_child (last dst "") n es)) t1
          | None => None
          end
  end.

(** [p.write_text(s)] on an existing or new regular file. *)
Definition write (p : path) (s : string) (t : node) : option node :=
  match lookup p t with
  | Some (File Unreadable) | Some (Dir _) | Some Faulty => None
  | _ =>
      if PurePath.is_top p then None
      else alter_dir (removelast p)
                     (fun es => Some (set_child (last p "") (File (Utf8 s)) es)) t
  end.

End Store.

(** ** Exceptions and state *)

Module Py.

Inductive exn : Type :=
| OSError
| UnicodeDecodeError
| ReError.

Inductive outcome (A : Type) : Type :=
| Ok (a : A)
| Raise (e : exn).
Arguments Ok {A} a.
Arguments Raise {A} e.

(** A computation over the file system; what was written before an
    exception stays written. *)
Definition M (A : Type) : Type := Store.node -> outcome A * Store.node.

Definition ret {A} (a : A) : M A := fun t => (Ok a, t).

Definition raise {A} (e : exn) : M A := fun t => (Raise e, t).

Definition bind {A B} (m : M A) (k : A -> M B) : M B :=
  fun t =>
    match m t with
    | (Ok a, t') => k a t'
    | (Raise e, t') => (Raise e, t')
    end.

(** [try: m except <the exceptions h answers>: h e] *)
Definition try_except {A} (m : M A) (h : exn -> option (M A)) : M A :=
  fun t =>
    match m t with
    | (Ok a, t') => (Ok a, t')
    | (Raise e, t') =>
        match h e with
        | Some k => k t'
        | None => (Raise e, t')
        end
    end.

Definition on_oserror {A} (k : M A) (e : exn) : option (M A) :=
  match e with OSError => Some k | _ => None end.

Definition on_read_error {A} (k : M A) (e : exn) : option (M A) :=
  match e with OSError | UnicodeDecodeError => Some k | ReError => None end.

(** A file-system operation that fails with [OSError]. *)
Definition os_op (f : Store.node -> option Store.node) : M unit :=
  fun t =>
    match f t with
    | Some t' => (Ok tt, t')
    | None => (Raise OSError, t)
    end.

(** [p.read_text(encoding='utf-8')]: the text of the file with its
    line ends read as [\n]. *)
Definition read_text (p : path) : M string :=
  fun t =>
    match Store.lookup p t with
    | Some (Store.File (Store.Utf8 s)) => (Ok (Str.universal_newlines s), t)
    | Some (Store.File (Store.Binary _)) => (Raise UnicodeDecodeError, t)
    | _ => (Raise OSError, t)
    end.

Definition write_text (p : path) (s : string) : M unit :=
  os_op (Store.write p s).

Definition mkdir_parents (p : path) : M unit := os_op (Store.mkdirs p).

Definition mkdir (p : path) : M unit := os_op (Store.mkdir p).

Definition rename (src dst : path) : M unit := os_op (Store.rename src dst).

(** [for x in l: body x] *)
Fixpoint for_each {A} (l : list A) (body : A -> M unit) : M unit :=
  match l with
  | [] => ret tt
  | x :: r => bind (body x) (fun _ => for_each r body)
  end.

End Py.

Declare Scope py_scope.
Delimit Scope py_scope with py.
Notation "x <- m ;; k" := (Py.bind m (fun x => k))
  (at level 61, m at next level, right associativity) : py_scope.
Notation "m ;;; k" := (Py.bind m (fun _ => k))
  (at level 61, right associativity) : py_scope.
Local Open Scope py_scope.

(** ** The parts of [re] the programs use *)

Module Re.

(** A replacement template, parsed: literal text and group references. *)
Inductive item : Type :=
| Lit (s : string)
| Group (n : nat).

Definition chr (n : nat) : string := String (ascii_of_nat n) EmptyString.

Definition group_ref (ngroups n consumed : nat) : option (item * nat) :=
  if (n <=? ngroups)%nat then Some (Group n, consumed) else None.

(** The escape whose backslash has just been read, [r] being what
    follows it: the item it stands for and how many characters of [r]
    it takes; [None] where [re] raises (bad escape, invalid or unknown
    group). As [re._parser.parse_template]; of the names in [\g<...>]
    only decimal numerals are modelled as valid. *)
Definition escape_at (ngroups : nat) (r : string) : option (item * nat) :=
  match r with
  | EmptyString => None
  | String c r1 =>
      if Ascii.eqb c "g"%char then
        match r1 with
        | String "<"%char r2 =>
            let (nm, rest) := Str.span (fun x => negb (Ascii.eqb x ">"%char)) r2 in
            match rest with
            | EmptyString => None
            | String _ _ =>
                if String.eqb nm "" then None
                else if Str.forallb Str.is_digit nm then
                  group_ref ngroups (Str.int_of nm) (String.length nm + 3)
                else None
            end
        | _ => None
        end
      else if Ascii.eqb c "0"%char then
        match r1 with
        | String x1 r2 =>
            if Str.is_octdigit x1 then
              match r2 with
              | String x2 _ =>
                  if Str.is_octdigit x2
                  then Some (Lit (chr (8 * Str.digit_val x1 + Str.digit_val x2)), 3)
                  else Some (Lit (chr (Str.digit_val x1)), 2)
              | EmptyString => Some (Lit (chr (Str.digit_val x1)), 2)
              end
            else Some (Lit (chr 0), 1)
        | EmptyString => Some (Lit (chr 0), 1)
        end
      else if Str.is_digit c then
        match r1 with
        | String x1 r2 =>
            if Str.is_digit x1 then
              let third_octal :=
                match r2 with
                | String x2 _ => Str.is_octdigit x2
                | EmptyString => false
                end in
              if Str.is_octdigit c && Str.is_octdigit x1 && third_octal then
                match r2 with
                | String x2 _ =>
                    let v := 64 * Str.digit_val c + 8 * Str.digit_val x1
                             + Str.digit_val x2 in
                    if (v <=? 255)%nat then Some (Lit (chr v), 3) else None
                | EmptyString => None
                end
              else group_ref ngroups (10 * Str.digit_val c + Str.digit_val x1) 2
            else group_ref ngroups (Str.digit_val c) 1
        | EmptyString => group_ref ngroups (Str.digit_val c) 1
        end
      else if Ascii.eqb c "a"%char then Some (Lit (chr 7), 1)
      else if Ascii.eqb c "b"%char then Some (Lit (chr 8), 1)
      else if Ascii.eqb c "f"%char then Some (Lit (chr 12), 1)
      else if Ascii.eqb c "n"%char then Some (Lit (chr 10), 1)
      else if Ascii.eqb c "r"%char then Some (Lit (chr 13), 1)
      else if Ascii.eqb c "t"%char then Some (Lit (chr 9), 1)
      else if Ascii.eqb c "v"%char then Some (Lit (chr 11), 1)
      else if Ascii.eqb c "\"%char then Some (Lit "\", 1)
      else if Str.is_ascii_letter c then None
      else Some (Lit (String "\" (String c EmptyString)), 1)
  end.

(** [skip] characters are still part of the escape read last. *)
Fixpoint parse_template_from (ngroups skip : nat) (s : string)
  : option (list item) :=
  match s with
  | EmptyString => Some []
  | String c r =>
      match skip with
      | S k => parse_template_from ngroups k r
      | O =>
          if Ascii.eqb c "\"%char then
            match escape_at ngroups r with
            | Some (it, n) =>
                option_map (cons it) (parse_template_from ngroups n r)
            | None => None
            end
          else
            option_map (cons (Lit (String c EmptyString)))
                       (parse_template_from ngroups 0 r)
      end
  end.

Definition parse_template (ngroups : nat) (s : string) : option (list item) :=
  parse_template_from ngroups 0 s.

(** The text a parsed template gives for the groups of one match;
    [groups] starts with group 0, the whole match. *)
Fixpoint expand (items : list item) (groups : list string) : string :=
  match items with
  | [] => EmptyString
  | Lit s :: r => s +++ expand r groups
  | Group n :: r => nth n groups EmptyString +++ expand r groups
  end.

(** A pattern, as the function that tries it at the start of a string
    and answers the groups of the match and its length (never 0 for the
    patterns here). *)
Definition matcher : Type := string -> option (list string * nat).

Fixpoint sub_from (m : matcher) (items : list item) (skip : nat) (s : string)
  : string :=
  match s with
  | EmptyString => EmptyString
  | String c r =>
      match skip with
      | S k => sub_from m items k r
      | O =>
          match m s with
          | Some (groups, len) => expand items groups +++ sub_from m items (len - 1) r
          | None => String c (sub_from m items 0 r)
          end
      end
  end.

(** [re.sub(pattern, template, s)] for a template that holds a
    backslash: the template is parsed before anything is matched, and
    [None] is the exception of a template that does not parse. *)
Definition sub (m : matcher) (ngroups : nat) (template s : string)
  : option string :=
  match parse_template ngroups template with
  | Some items => Some (sub_from m items 0 s)
  | None => None
  end.

(** [re.findall] for a pattern with one group. *)
Fixpoint findall_from (m : matcher) (skip : nat) (s : string) : list string :=
  match s with
  | EmptyString => []
  | String c r =>
      match skip with
      | S k => findall_from m k r
      | O =>
          match m s with
          | Some (groups, len) => nth 1 groups EmptyString :: findall_from m (len - 1) r
          | None => findall_from m 0 r
          end
      end
  end.

Definition findall (m : matcher) (s : string) : list string :=
  findall_from m 0 s.

End Re.

(** ** obsidian_sorter/markdown_parser.py *)

Module MarkdownParser.

(** [\d{n}] at the start of [s]: the digits and what follows. *)
Definition digits (n : nat) (s : string) : option (string * string) :=
  let d := Str.take n s in
  if (String.length d =? n)%nat && Str.forallb Str.is_digit d
  then Some (d, Str.drop n s) else None.

(** [re.match(r'^(\d{4})(\d{2})(\d{2})_', filename)]: the three groups. *)
Definition filename_date (filename : string)
  : option (string * string * string) :=
  match digits 4 filename with
  | Some (y, r1) =>
      match digits 2 r1 with
      | Some (m, r2) =>
          match digits 2 r2 with
          | Some (d, String "_"%char _) => Some (y, m, d)
          | _ => None
          end
      | None => None
      end
  | None => None
  end.

Definition extract_year_from_filename (file_path : path) : option nat :=
  let filename := PurePath.name file_path in
  match filename_date filename with
  | None => None
  | Some (y, m, d) =>
      let year := Str.int_of y in
      let month := Str.int_of m in
      let day := Str.int_of d in
      if ((1900 <=? year) && (year <=? 2100)
          && (1 <=? month) && (month <=? 12)
          && (1 <=? day) && (day <=? 31))%nat
      then Some year
      else None
  end.

Definition fence : string := String Str.nl "---".

(** [(.*?)\n---] under [re.DOTALL]: the shortest text before a fence. *)
Fixpoint until_fence (s : string) : option string :=
  match Str.strip_prefix fence s with
  | Some _ => Some EmptyString
  | None =>
      match s with
      | String c r => option_map (String c) (until_fence r)
      | EmptyString => None
      end
  end.

(** [\s*\n(.*?)\n---] with [\s*] taking [k] characters, then fewer:
    the greedy star gives characters back one at a time. *)
Fixpoint after_dashes (k : nat) (r : string) : option string :=
  let attempt :=
    match Str.drop k r with
    | String c rest => if Ascii.eqb c Str.nl then until_fence rest else None
    | EmptyString => None
    end in
  match attempt with
  | Some g => Some g
  | None =>
      match k with
      | S k' => after_dashes k' r
      | O => None
      end
  end.

(** [re.match(r'^---\s*\n(.*?)\n---', content, re.DOTALL)]: group 1. *)
Definition frontmatter_match (content : string) : option string :=
  match Str.strip_prefix "---" content with
  | Some r => after_dashes (String.length (fst (Str.span Str.is_space r))) r
  | None => None
  end.

(** [Created at:\s*(\d{4})-\d{2}-\d{2}] at the start of [s]: group 1. *)
Definition created_at (s : string) : option string :=
  match Str.strip_prefix "Created at:" s with
  | Some r =>
      match digits 4 (snd (Str.span Str.is_space r)) with
      | Some (y, String "-"%char r1) =>
          match digits 2 r1 with
          | Some (_, String "-"%char r2) =>
              match digits 2 r2 with
              | Some _ => Some y
              | None => None
              end
          | _ => None
          end
      | _ => None
      end
  | None => None
  end.

(** [re.search] of that pattern with [^] under [re.MULTILINE]: tried at
    the start of the text and after every newline, leftmost first. *)
Fixpoint created_search (line_start : bool) (s : string) : option string :=
  match (if line_start then created_at s else None) with
  | Some y => Some y
  | None =>
      match s with
      | String c r => created_search (Ascii.eqb c Str.nl) r
      | EmptyString => None
      end
  end.

(** The year the front matter of [content] gives, if any. *)
Definition frontmatter_year (content : string) : option nat :=
  match frontmatter_match content with
  | Some frontmatter =>
      match created_search true frontmatter with
      | Some y => Some (Str.int_of y)
      | None => None
      end
  | None => None
  end.

Definition extract_year_from_frontmatter (file_path : path) (t : Store.node)
  : option nat :=
  match Py.read_text file_path t with
  | (Py.Ok content, _) =>
      match frontmatter_year content with
      | Some year => Some year
      | None => extract_year_from_filename file_path
      end
  | (Py.Raise _, _) => None
  end.

Definition not_bracket_or_bar (c : ascii) : bool :=
  negb (Ascii.eqb c "]"%char || Ascii.eqb c "|"%char).

Definition not_bracket (c : ascii) : bool := negb (Ascii.eqb c "]"%char).

(** [\[\[(_resources/[^\]|]+)] at the start of [s]: group 1. *)
Definition bare_link (s : string) : option string :=
  match Str.strip_prefix "[[_resources/" s with
  | Some r =>
      let run := fst (Str.span not_bracket_or_bar r) in
      if String.eqb run "" then None else Some ("_resources/" +++ run)
  | None => None
  end.

(** The pattern [!?\[\[(_resources/[^\]|]+)]. *)
Definition resource_link : Re.matcher :=
  fun s =>
    let without_mark :=
      match bare_link s with
      | Some g => Some (["[[" +++ g; g], 2 + String.length g)
      | None => None
      end in
    match s with
    | String "!"%char r =>
        match bare_link r with
        | Some g => Some (["![[" +++ g; g], 3 + String.length g)
        | None => without_mark
        end
    | _ => without_mark
    end.

Definition links_of (content : string) : list string :=
  Re.findall resource_link content.

Definition extract_resource_links (file_path : path) (t : Store.node)
  : list string :=
  match Py.read_text file_path t with
  | (Py.Ok content, _) => links_of content
  | (Py.Raise _, _) => []
  end.

(** [(\|[^\]]+\]\]|\]\])] at the start of [s]: group 2 of the update
    pattern. *)
Definition link_end (s : string) : option string :=
  let plain :=
    match Str.strip_prefix "]]" s with
    | Some _ => Some "]]"
    | None => None
    end in
  match s with
  | String "|"%char r =>
      let (text, rest) := Str.span not_bracket r in
      if String.eqb text "" then plain
      else match Str.strip_prefix "]]" rest with
           | Some _ => Some ("|" +++ text +++ "]]")
           | None => plain
           end
  | _ => plain
  end.

(** The pattern [(!\[\[_resources/)] + [re.escape(old_name)] +
    [(\|[^\]]+\]\]|\]\])]. *)
Definition link_to (old_name : string) : Re.matcher :=
  fun s =>
    match Str.strip_prefix "![[_resources/" s with
    | Some r =>
        match Str.strip_prefix old_name r with
        | Some r' =>
            match link_end r' with
            | Some e =>
                let whole := "![[_resources/" +++ old_name +++ e in
                Some ([whole; "![[_resources/"; e], String.length whole)
            | None => None
            end
        | None => None
        end
    | None => None
    end.

(** [re.sub(pattern, r'\1' + new_name + r'\2', content)] *)
Definition rewrite_link (old_name new_name content : string) : option string :=
  Re.sub (link_to old_name) 2 ("\1" +++ new_name +++ "\2") content.

Definition update_resource_link (md_file : path) (old_name new_name : string)
  : Py.M bool :=
  Py.try_except
    (content <- Py.read_text md_file ;;
     match rewrite_link old_name new_name content with
     | Some new_content =>
         Py.write_text md_file new_content ;;; Py.ret true
     | None => Py.raise Py.ReError
     end)
    (Py.on_read_error (Py.ret false)).

End MarkdownParser.

(** ** fnmatch, as [pathlib] of Python 3.11 compiles a pattern part *)

Module Fnmatch.

Inductive tok : Type :=
| Star
| AnyChar
| Class (negated : bool) (stuff : string)
| Char (c : ascii).

(** The index of the bracket that closes a class opened just before
    [s]: a leading [!] and a [\]] right after it do not close. *)
Fixpoint find_close (s : string) : option nat :=
  match s with
  | EmptyString => None
  | String c r =>
      if Ascii.eqb c "]"%char then Some 0
      else option_map S (find_close r)
  end.

Definition class_end (s : string) : option nat :=
  let (a, s1) := match s with
                 | String "!"%char r => (1, r)
                 | _ => (0, s)
                 end in
  let (b, s2) := match s1 with
                 | String "]"%char r => (1, r)
                 | _ => (0, s1)
                 end in
  option_map (fun j => a + b + j) (find_close s2).

Fixpoint tokens_from (skip : nat) (pat : string) : list tok :=
  match pat with
  | EmptyString => []
  | String c r =>
      match skip with
      | S k => tokens_from k r
      | O =>
          if Ascii.eqb c "*"%char then Star :: tokens_from 0 r
          else if Ascii.eqb c "?"%char then AnyChar :: tokens_from 0 r
          else if Ascii.eqb c "["%char then
            match class_end r with
            | Some j =>
                let stuff := Str.take j r in
                let t := match stuff with
                         | String "!"%char inner => Class true inner
                         | _ => Class false stuff
                         end in
                t :: tokens_from (S j) r
            | None => Char c :: tokens_from 0 r
            end
          else Char c :: tokens_from 0 r
      end
  end.

Definition ascii_leb (a b : ascii) : bool :=
  (nat_of_ascii a <=? nat_of_ascii b)%nat.

(** Membership in the text of a class: [x-y] is a range (empty when
    [x > y]), anything else stands for itself. *)
Fixpoint in_class (c : ascii) (stuff : string) (skip : nat) : bool :=
  match stuff with
  | EmptyString => false
  | String x r =>
      match skip with
      | S k => in_class c r k
      | O =>
          match r with
          | String "-"%char (String y _) =>
              (ascii_leb x c && ascii_leb c y) || in_class c r 2
          | _ => Ascii.eqb c x || in_class c r 0
          end
      end
  end.

Definition tok_accepts (t : tok) (c : ascii) : bool :=
  match t with
  | Star | AnyChar => true
  | Class neg stuff => xorb neg (in_class c stuff 0)
  | Char d => Ascii.eqb c d
  end.

(** Whether the tokens match the whole of [s]. *)
Fixpoint matches (ts : list tok) (s : string) : bool :=
  match ts with
  | [] => match s with EmptyString => true | _ => false end
  | Star :: ts' =>
      (fix star (s : string) : bool :=
         matches ts' s
         || match s with
            | String _ r => star r
            | EmptyString => false
            end) s
  | t :: ts' =>
      match s with
      | String c r => tok_accepts t c && matches ts' r
      | EmptyString => false
      end
  end.

Definition fnmatch (pat name : string) : bool := matches (tokens_from 0 pat) name.

(** [pathlib._is_wildcard_pattern] *)
Definition is_wildcard_pattern (pat : string) : bool :=
  Str.mem "*"%char pat || Str.mem "?"%char pat || Str.mem "["%char pat.

End Fnmatch.

(** ** pathlib.Path.rglob *)

Module Glob.

(** The names a one-part pattern selects in a directory: the entry of
    that name if the pattern has no wildcard, else every entry whose
    name matches. *)
Definition select (pat : string) (es : Store.entries) : list string :=
  if Fnmatch.is_wildcard_pattern pat then
    filter (Fnmatch.fnmatch pat) (map fst es)
  else
    match Store.get_child pat es with
    | Some _ => [pat]
    | None => []
    end.

(** The walk of [**/pat] below the directory [t] at [here]: what it
    yields, directory by directory, parents first, and whether an
    [OSError] ended it. *)
Fixpoint walk (pat : string) (here : path) (t : Store.node)
  : list path * bool :=
  match t with
  | Store.File _ => ([], false)
  | Store.Faulty => ([], true)
  | Store.Dir es =>
      let below :=
        (fix go (es : Store.entries) : list path * bool :=
           match es with
           | [] => ([], false)
           | (n, c) :: r =>
               let (f1, a1) := walk pat (here ++ [n]) c in
               if a1 then (f1, true)
               else let (f2, a2) := go r in (f1 ++ f2, a2)
           end) es in
      (map (fun n => here ++ [n]) (select pat es) ++ fst below, snd below)
  end.

(** [root.rglob(pat)] for a pattern of one part: the paths yielded and
    whether the generator raised [OSError]. A root that is not a directory
    yields nothing. Patterns of several parts and patterns that hold [**]
    are not modelled; [Path(link).name] has one part. *)
Definition rglob (pat : string) (root : path) (t : Store.node)
  : list path * bool :=
  match Store.lookup root t with
  | Some d => walk pat root d
  | None => ([], false)
  end.

(** [root.glob(pat)] for a pattern of one part: the entries of the
    directory [root] the pattern selects, in the order of the scan, and
    whether the scan raised [OSError]; only a pattern with a wildcard
    scans. *)
Definition glob (pat : string) (root : path) (t : Store.node)
  : list path * bool :=
  match Store.lookup root t with
  | Some (Store.Dir es) => (map (fun n => root ++ [n]) (select pat es), false)
  | Some Store.Faulty => ([], Fnmatch.is_wildcard_pattern pat)
  | _ => ([], false)
  end.

End Glob.

(** ** obsidian_tools/resource_locator.py *)

Module ResourceLocator.

Definition find_resource (resource_name : string) (search_root : path)
           (t : Store.node) : list path :=
  filter (Store.is_file t) (fst (Glob.rglob resource_name search_root t)).

Definition find_all_resources (resource_names : list string)
           (search_root : path) (t : Store.node)
  : list (string * list path) :=
  fold_left
    (fun results resource_name =>
       let v := find_resource resource_name search_root t in
       if existsb (fun kv => String.eqb (fst kv) resource_name) results
       then map (fun kv => if String.eqb (fst kv) resource_name
                           then (resource_name, v) else kv) results
       else results ++ [(resource_name, v)])
    resource_names [].

End ResourceLocator.

(** ** obsidian_tools/utils/file_hasher.py *)

(** [hashlib] is not part of the program: the digest is any function to
    hexadecimal text of the length SHA-256 gives. *)
Class Hashlib : Type := {
  hexdigest : string -> string;
  hexdigest_length : forall b, String.length (hexdigest b) = 64
}.

Module FileHasher.
Section WithHashlib.
Context {H : Hashlib}.

Definition compute_hash (t : Store.node) (file_path : path) : option string :=
  match Store.read_bytes t file_path with
  | Some b => Some (hexdigest b)
  | None => None
  end.

Definition files_are_identical (t : Store.node) (file1 file2 : path) : bool :=
  let hash1 := compute_hash t file1 in
  let hash2 := compute_hash t file2 in
  match hash1, hash2 with
  | Some h1, Some h2 => String.eqb h1 h2
  | _, _ => false
  end.

End WithHashlib.
End FileHasher.

(** ** obsidian_sorter/resource_manager.py *)

Module ResourceManager.
Section WithHashlib.
Context {H : Hashlib}.

(** The candidate [parent / f"{stem}_{counter}{suffix}"]. *)
Definition candidate (target_path : path) (counter : nat) : path :=
  PurePath.joinpath (PurePath.parent target_path)
    (PurePath.stem target_path +++ "_" +++ Str.of_nat counter
     +++ PurePath.suffix target_path).

(** The [while True] loop, for at most [fuel] rounds. *)
Fixpoint first_free (fuel counter : nat) (target_path : path) (t : Store.node)
  : option path :=
  match fuel with
  | O => None
  | S fuel' =>
      let new_path := candidate target_path counter in
      if negb (Store.exists_ t new_path) then Some new_path
      else first_free fuel' (S counter) target_path t
  end.

(** How many entries the directory at [d] has. *)
Definition dir_size (t : Store.node) (d : path) : nat :=
  match Store.lookup d t with
  | Some (Store.Dir es) => length es
  | _ => 0
  end.

(** More rounds than the directory of the target has entries are never
    needed ([first_free_total] below), so the default is never used. *)
Definition get_unique_filename (target_path : path) (t : Store.node) : path :=
  if negb (Store.exists_ t target_path) then target_path
  else
    match first_free (S (dir_size t (PurePath.parent target_path))) 1
                     target_path t with
    | Some new_path => new_path
    | None => target_path
    end.

Definition result : Type := bool * option string * string.

Definition move_resource_file (execute : bool)
           (source_resource target_resource md_file : path)
           (resource_name : string) : Py.M result :=
  fun t =>
    if negb (Store.exists_ t source_resource) then
      (Py.Ok (true, None, "missing"), t)
    else if Store.exists_ t target_resource then
      if FileHasher.files_are_identical t source_resource target_resource then
        (Py.Ok (true, None, "identical"), t)
      else
        let unique_target := get_unique_filename target_resource t in
        let new_filename := PurePath.name unique_target in
        if execute then
          Py.try_except
            (Py.rename source_resource unique_target ;;;
             MarkdownParser.update_resource_link md_file resource_name
                                                 new_filename ;;;
             Py.ret (true, Some new_filename, "renamed"))
            (Py.on_oserror (Py.ret (false, None, "error"))) t
        else
          (Py.Ok (true, Some new_filename, "renamed"), t)
    else if execute then
      Py.try_except
        (Py.mkdir_parents (PurePath.parent target_resource) ;;;
         Py.rename source_resource target_resource ;;;
         Py.ret (true, None, "moved"))
        (Py.on_oserror (Py.ret (false, None, "error"))) t
    else
      (Py.Ok (true, None, "moved"), t).

Record stats : Type := {
  moved : nat;
  renamed : nat;
  missing : nat;
  errors : nat
}.

Definition count (st : stats) (r : result) : stats :=
  let '(success, _, status) := r in
  if success then
    if String.eqb status "moved" then
      {| moved := S (moved st); renamed := renamed st;
         missing := missing st; errors := errors st |}
    else if String.eqb status "renamed" then
      {| moved := moved st; renamed := S (renamed st);
         missing := missing st; errors := errors st |}
    else if String.eqb status "missing" then
      {| moved := moved st; renamed := renamed st;
         missing := S (missing st); errors := errors st |}
    else st
  else
    {| moved := moved st; renamed := renamed st;
       missing := missing st; errors := S (errors st) |}.

Fixpoint move_each (execute : bool) (md_file : path)
         (resource_links : list string) (resources_path year_dir : path)
         (st : stats) : Py.M stats :=
  match resource_links with
  | [] => Py.ret st
  | resource_link :: rest =>
      let resource_filename := PurePath.name (PurePath.of_string resource_link) in
      let source_resource := PurePath.joinpath resources_path resource_filename in
      let target_resource :=
        PurePath.joinpath (PurePath.joinpath year_dir "_resources")
                          resource_filename in
      r <- move_resource_file execute source_resource target_resource
                              md_file resource_filename ;;
      move_each execute md_file rest resources_path year_dir (count st r)
  end.

Definition move_resources_for_markdown (execute : bool) (md_file : path)
           (resource_links : list string) (resources_path year_dir : path)
  : Py.M stats :=
  move_each execute md_file resource_links resources_path year_dir
            {| moved := 0; renamed := 0; missing := 0; errors := 0 |}.

End WithHashlib.
End ResourceManager.

(** ** sort_md_by_year.py, the script the packages grew out of *)

Module SortMdByYear.
Section WithHashlib.
Context {H : Hashlib}.

Definition truthy (s : string) : bool := negb (String.eqb s "").

Definition update_resource_link_in_markdown
           (md_file : path) (old_name new_name : string) (execute : bool)
  : Py.M bool :=
  Py.try_except
    (content <- Py.read_text md_file ;;
     match MarkdownParser.rewrite_link old_name new_name content with
     | Some new_content =>
         (if execute then Py.write_text md_file new_content else Py.ret tt) ;;;
         Py.ret true
     | None => Py.raise Py.ReError
     end)
    (Py.on_read_error (Py.ret false)).

Definition move_resource_file
           (source_resource target_resource md_file : path)
           (resource_name : string) (execute : bool)
  : Py.M ResourceManager.result :=
  fun t =>
    if negb (Store.exists_ t source_resource) then
      (Py.Ok (true, None, "missing"), t)
    else if Store.exists_ t target_resource then
      let source_hash := FileHasher.compute_hash t source_resource in
      let target_hash := FileHasher.compute_hash t target_resource in
      let same :=
        match source_hash, target_hash with
        | Some hs, Some ht => truthy hs && truthy ht && String.eqb hs ht
        | _, _ => false
        end in
      if same then (Py.Ok (true, None, "identical"), t)
      else
        let unique_target :=
          ResourceManager.get_unique_filename target_resource t in
        let new_filename := PurePath.name unique_target in
        if execute then
          Py.try_except
            (Py.rename source_resource unique_target ;;;
             update_resource_link_in_markdown md_file resource_name
                                              new_filename true ;;;
             Py.ret (true, Some new_filename, "renamed"))
            (Py.on_oserror (Py.ret (false, None, "error"))) t
        else
          (Py.Ok (true, Some new_filename, "renamed"), t)
    else if execute then
      Py.try_except
        (Py.mkdir_parents (PurePath.parent target_resource) ;;;
         Py.rename source_resource target_resource ;;;
         Py.ret (true, None, "moved"))
        (Py.on_oserror (Py.ret (false, None, "error"))) t
    else
      (Py.Ok (true, None, "moved"), t).

End WithHashlib.
End SortMdByYear.

(** ** The counters of a sort by year

    The dictionary [stats] that [FileSorter._initialize_stats] and the
    script's [sort_markdown_files] start from, and its updates. *)

Module SortStats.

Record t : Type := {
  moved : nat;
  skipped_no_date : nat;
  skipped_exists : nat;
  resources_moved : nat;
  resources_renamed : nat;
  resources_missing : nat;
  errors : nat
}.

Definition zero : t :=
  {| moved := 0; skipped_no_date := 0; skipped_exists := 0;
     resources_moved := 0; resources_renamed := 0; resources_missing := 0;
     errors := 0 |}.

(** [stats['moved'] += 1] and the like. *)
Definition count_moved (st : t) : t :=
  {| moved := S (moved st); skipped_no_date := skipped_no_date st;
     skipped_exists := skipped_exists st;
     resources_moved := resources_moved st;
     resources_renamed := resources_renamed st;
     resources_missing := resources_missing st; errors := errors st |}.

Definition count_no_date (st : t) : t :=
  {| moved := moved st; skipped_no_date := S (skipped_no_date st);
     skipped_exists := skipped_exists st;
     resources_moved := resources_moved st;
     resources_renamed := resources_renamed st;
     resources_missing := resources_missing st; errors := errors st |}.

Definition count_exists (st : t) : t :=
  {| moved := moved st; skipped_no_date := skipped_no_date st;
     skipped_exists := S (skipped_exists st);
     resources_moved := resources_moved st;
     resources_renamed := resources_renamed st;
     resources_missing := resources_missing st; errors := errors st |}.

Definition count_error (st : t) : t :=
  {| moved := moved st; skipped_no_date := skipped_no_date st;
     skipped_exists := skipped_exists st;
     resources_moved := resources_moved st;
     resources_renamed := resources_renamed st;
     resources_missing := resources_missing st; errors := S (errors st) |}.

End SortStats.

(** ** obsidian_sorter/file_sorter.py *)

Module FileSorter.
Section WithHashlib.
Context {H : Hashlib}.

Definition _initialize_stats : SortStats.t := SortStats.zero.

(** The four [+=] that add the counters of the resources of one note. *)
Definition add_resource_stats (st : SortStats.t)
           (resource_stats : ResourceManager.stats) : SortStats.t :=
  {| SortStats.moved := SortStats.moved st;
     SortStats.skipped_no_date := SortStats.skipped_no_date st;
     SortStats.skipped_exists := SortStats.skipped_exists st;
     SortStats.resources_moved :=
       SortStats.resources_moved st + ResourceManager.moved resource_stats;
     SortStats.resources_renamed :=
       SortStats.resources_renamed st + ResourceManager.renamed resource_stats;
     SortStats.resources_missing :=
       SortStats.resources_missing st + ResourceManager.missing resource_stats;
     SortStats.errors :=
       SortStats.errors st + ResourceManager.errors resource_stats |}.

(** The method updates [stats] in place and returns a flag; here it
    returns both. Its argument [year] is only printed. *)
Definition _move_markdown_file (execute : bool)
           (md_file year_dir target_path : path) (st : SortStats.t)
  : Py.M (bool * SortStats.t) :=
  if execute then
    Py.try_except
      (Py.mkdir year_dir ;;;
       Py.rename md_file target_path ;;;
       Py.ret (true, SortStats.count_moved st))
      (Py.on_oserror (Py.ret (false, SortStats.count_error st)))
  else
    Py.ret (true, SortStats.count_moved st).

Definition _process_file (execute : bool) (md_file base_path : path)
           (resources_path : option path) (st : SortStats.t)
  : Py.M SortStats.t :=
  fun t =>
    match MarkdownParser.extract_year_from_frontmatter md_file t with
    | None => (Py.Ok (SortStats.count_no_date st), t)
    | Some year =>
        let year_dir := PurePath.joinpath base_path (Str.of_nat year) in
        let target_path := PurePath.joinpath year_dir (PurePath.name md_file) in
        if Store.exists_ t target_path then
          (Py.Ok (SortStats.count_exists st), t)
        else
          let resource_links :=
            match resources_path with
            | Some _ => MarkdownParser.extract_resource_links md_file t
            | None => []
            end in
          (r <- _move_markdown_file execute md_file year_dir target_path st ;;
           if negb (fst r) then Py.ret (snd r)
           else
             match resources_path, resource_links with
             | Some rp, _ :: _ =>
                 let md_file_for_update :=
                   if execute then target_path else md_file in
                 resource_stats <-
                   ResourceManager.move_resources_for_markdown
                     execute md_file_for_update resource_links rp year_dir ;;
                 Py.ret (add_resource_stats (snd r) resource_stats)
             | _, _ => Py.ret (snd r)
             end) t
    end.

(** [for md_file in md_files: self._process_file(...)] *)
Fixpoint process_files (execute : bool) (md_files : list path)
         (base_path : path) (resources_path : option path) (st : SortStats.t)
  : Py.M SortStats.t :=
  match md_files with
  | [] => Py.ret st
  | md_file :: rest =>
      st1 <- _process_file execute md_file base_path resources_path st ;;
      process_files execute rest base_path resources_path st1
  end.

(** The method prints its summary; here it returns the counters, or
    [None] where it returns before it has any. Its argument [path] is
    [dir] here. *)
Definition sort_files (execute : bool) (dir : path)
           (resources_path : option path) : Py.M (option SortStats.t) :=
  fun t =>
    if negb (Store.exists_ t dir) then (Py.Ok None, t)
    else if negb (Store.is_dir t dir) then (Py.Ok None, t)
    else
      let resources_path :=
        match resources_path with
        | Some rp => if Store.exists_ t rp then Some rp else None
        | None => None
        end in
      let (md_files, raised) := Glob.glob "*.md" dir t in
      if raised then (Py.Raise Py.OSError, t)
      else
        match md_files with
        | [] => (Py.Ok None, t)
        | _ :: _ =>
            (st <- process_files execute md_files dir resources_path
                                 _initialize_stats ;;
             Py.ret (Some st)) t
        end.

End WithHashlib.
End FileSorter.

(** ** sort_md_by_year.py: the loop of [sort_markdown_files]

    The script has its own [extract_year_from_frontmatter] and
    [extract_resource_links], whose bodies are those of the parser of
    the package; they are embedded once, in [MarkdownParser]. *)

Module SortScript.
Section WithHashlib.
Context {H : Hashlib}.

(** What one resource adds to the counters of the script. *)
Definition count_resource (st : SortStats.t) (r : ResourceManager.result)
  : SortStats.t :=
  let '(success, _, status) := r in
  if success then
    if String.eqb status "moved" then
      {| SortStats.moved := SortStats.moved st;
         SortStats.skipped_no_date := SortStats.skipped_no_date st;
         SortStats.skipped_exists := SortStats.skipped_exists st;
         SortStats.resources_moved := S (SortStats.resources_moved st);
         SortStats.resources_renamed := SortStats.resources_renamed st;
         SortStats.resources_missing := SortStats.resources_missing st;
         SortStats.errors := SortStats.errors st |}
    else if String.eqb status "renamed" then
      {| SortStats.moved := SortStats.moved st;
         SortStats.skipped_no_date := SortStats.skipped_no_date st;
         SortStats.skipped_exists := SortStats.skipped_exists st;
         SortStats.resources_moved := SortStats.resources_moved st;
         SortStats.resources_renamed := S (SortStats.resources_renamed st);
         SortStats.resources_missing := SortStats.resources_missing st;
         SortStats.errors := SortStats.errors st |}
    else if String.eqb status "missing" then
      {| SortStats.moved := SortStats.moved st;
         SortStats.skipped_no_date := SortStats.skipped_no_date st;
         SortStats.skipped_exists := SortStats.skipped_exists st;
         SortStats.resources_moved := SortStats.resources_moved st;
         SortStats.resources_renamed := SortStats.resources_renamed st;
         SortStats.resources_missing := S (SortStats.resources_missing st);
         SortStats.errors := SortStats.errors st |}
    else st
  else SortStats.count_error st.

(** The inner loop over the links of one note. *)
Fixpoint move_links (execute : bool) (md_file_for_update : path)
         (resource_links : list string)
         (resources_path year_resources_dir : path) (st : SortStats.t)
  : Py.M SortStats.t :=
  match resource_links with
  | [] => Py.ret st
  | resource_link :: rest =>
      let resource_filename :=
        PurePath.name (PurePath.of_string resource_link) in
      let source_resource :=
        PurePath.joinpath resources_path resource_filename in
      let target_resource :=
        PurePath.joinpath year_resources_dir resource_filename in
      r <- SortMdByYear.move_resource_file
             source_resource target_resource md_file_for_update
             resource_filename execute ;;
      move_links execute md_file_for_update rest resources_path
                 year_resources_dir (count_resource st r)
  end.

(** The outer loop; [continue] is the call on the rest of the notes. *)
Fixpoint sort_each (execute : bool) (md_files : list path) (dir : path)
         (resources_path : option path) (st : SortStats.t)
  : Py.M SortStats.t :=
  match md_files with
  | [] => Py.ret st
  | md_file :: rest =>
      fun t =>
        match MarkdownParser.extract_year_from_frontmatter md_file t with
        | None =>
            sort_each execute rest dir resources_path
                      (SortStats.count_no_date st) t
        | Some year =>
            let year_dir := PurePath.joinpath dir (Str.of_nat year) in
            let target_path :=
              PurePath.joinpath year_dir (PurePath.name md_file) in
            if Store.exists_ t target_path then
              sort_each execute rest dir resources_path
                        (SortStats.count_exists st) t
            else
              let resource_links :=
                match resources_path with
                | Some _ => MarkdownParser.extract_resource_links md_file t
                | None => []
                end in
              (was_moved <-
                 (if execute then
                    Py.try_except
                      (Py.mkdir year_dir ;;;
                       Py.rename md_file target_path ;;;
                       Py.ret true)
                      (Py.on_oserror (Py.ret false))
                  else Py.ret true) ;;
               if negb was_moved then
                 sort_each execute rest dir resources_path
                           (SortStats.count_error st)
               else
                 match resources_path, resource_links with
                 | Some rp, _ :: _ =>
                     let year_resources_dir :=
                       PurePath.joinpath year_dir "_resources" in
                     let md_file_for_update :=
                       if execute then target_path else md_file in
                     st1 <- move_links execute md_file_for_update
                                       resource_links rp year_resources_dir
                                       (SortStats.count_moved st) ;;
                     sort_each execute rest dir resources_path st1
                 | _, _ =>
                     sort_each execute rest dir resources_path
                               (SortStats.count_moved st)
                 end) t
        end
  end.

(** The function prints its summary; here it returns the counters, or
    [None] where it returns before it has any. Its argument [path] is
    [dir] here. *)
Definition sort_markdown_files (dir : path) (resources_path : option path)
           (execute : bool) : Py.M (option SortStats.t) :=
  fun t =>
    if negb (Store.exists_ t dir) then (Py.Ok None, t)
    else if negb (Store.is_dir t dir) then (Py.Ok None, t)
    else
      let resources_path :=
        match resources_path with
        | Some rp => if Store.exists_ t rp then Some rp else None
        | None => None
        end in
      let (md_files, raised) := Glob.glob "*.md" dir t in
      if raised then (Py.Raise Py.OSError, t)
      else
        match md_files with
        | [] => (Py.Ok None, t)
        | _ :: _ =>
            (st <- sort_each execute md_files dir resources_path
                             SortStats.zero ;;
             Py.ret (Some st)) t
        end.

End WithHashlib.
End SortScript.

(** ** Insertion-ordered dictionaries of lists ([defaultdict(list)]) *)

Module Dict.
Section Dict.
Context {K V : Type} (keq : K -> K -> bool).

Definition t : Type := list (K * list V).

Fixpoint get (k : K) (d : t) : option (list V) :=
  match d with
  | [] => None
  | (k', vs) :: r => if keq k' k then Some vs else get k r
  end.

(** [d[k].append(v)] *)
Fixpoint append (k : K) (v : V) (d : t) : t :=
  match d with
  | [] => [(k, [v])]
  | (k', vs) :: r =>
      if keq k' k then (k', vs ++ [v]) :: r else (k', vs) :: append k v r
  end.

End Dict.
End Dict.

(** ** obsidian_tools/resource_analyzer.py *)

Module ResourceAnalyzer.

Record ResourceReference : Type := {
  md_file_path : path;
  resource_name : string;
  resource_actual_path : option path;
  resource_hash : option string
}.

Definition CONFLICT : string := "CONFLICT".

(** The values that are not [None]. *)
Fixpoint somes {A} (l : list (option A)) : list A :=
  match l with
  | [] => []
  | Some a :: r => a :: somes r
  | None :: r => somes r
  end.

(** [len(set(l))] *)
Definition count_distinct (l : list string) : nat :=
  length (nodup string_dec l).

(** [if h] for an optional string. *)
Definition truthy (h : option string) : bool :=
  match h with
  | Some s => negb (String.eqb s "")
  | None => false
  end.

Definition is_conflict (h : option string) : bool :=
  match h with
  | Some s => String.eqb s CONFLICT
  | None => false
  end.

Section WithHashlib.
Context {H : Hashlib}.

(** The body of the inner loop of [build_reference_array]. *)
Definition reference_for (base_path : path) (t : Store.node)
           (md_file : path) (resource_link : string) : ResourceReference :=
  let resource_name := PurePath.name (PurePath.of_string resource_link) in
  let found_paths := ResourceLocator.find_resource resource_name base_path t in
  match found_paths with
  | [] =>
      {| md_file_path := md_file; resource_name := resource_name;
         resource_actual_path := None; resource_hash := None |}
  | [resource_path] =>
      {| md_file_path := md_file; resource_name := resource_name;
         resource_actual_path := Some resource_path;
         resource_hash := FileHasher.compute_hash t resource_path |}
  | first :: _ =>
      let hashes := map (FileHasher.compute_hash t) found_paths in
      let unique_hashes := somes hashes in
      if (count_distinct unique_hashes =? 1)%nat then
        {| md_file_path := md_file; resource_name := resource_name;
           resource_actual_path := Some first;
           resource_hash := hd None hashes |}
      else
        {| md_file_path := md_file; resource_name := resource_name;
           resource_actual_path := Some first;
           resource_hash := Some CONFLICT |}
  end.

(** The scan for notes is not guarded: an [OSError] of that walk leaves
    the method. *)
Definition build_reference_array (base_path : path) (t : Store.node)
  : Py.outcome (list ResourceReference) :=
  let (md_files, raised) := Glob.rglob "*.md" base_path t in
  if raised then Py.Raise Py.OSError
  else
    Py.Ok (flat_map
             (fun md_file =>
                map (reference_for base_path t md_file)
                    (MarkdownParser.extract_resource_links md_file t))
             md_files).

End WithHashlib.

Definition by_name (references : list ResourceReference)
  : Dict.t (K := string) (V := ResourceReference) :=
  fold_left
    (fun d ref =>
       if truthy (resource_hash ref) && negb (is_conflict (resource_hash ref))
       then Dict.append String.eqb (resource_name ref) ref d
       else d)
    references [].

Definition hashes_differ (refs : list ResourceReference) : bool :=
  let unique_hashes :=
    somes (filter truthy (map resource_hash refs)) in
  (1 <? count_distinct unique_hashes)%nat.

Definition detect_conflicts (references : list ResourceReference)
  : Dict.t (K := string) (V := ResourceReference) :=
  filter (fun kv => hashes_differ (snd kv)) (by_name references).

Definition group_by_resource (references : list ResourceReference)
  : Dict.t (K := path) (V := path) :=
  fold_left
    (fun grouped ref =>
       match resource_actual_path ref with
       | None => grouped
       | Some p =>
           if is_conflict (resource_hash ref) then grouped
           else Dict.append PurePath.eqb p (md_file_path ref) grouped
       end)
    references [].

Definition mem_path (p : path) (l : list path) : bool :=
  existsb (PurePath.eqb p) l.

(** [max(s, key=lambda p: len(p.parts))], the first of the longest. *)
Fixpoint deepest (best : path) (l : list path) : path :=
  match l with
  | [] => best
  | p :: r => deepest (if (length best <? length p)%nat then p else best) r
  end.

Definition find_lowest_common_ancestor (base_path : path) (paths : list path)
  : path :=
  match paths with
  | [] => base_path
  | [p] => PurePath.parent p
  | _ =>
      let all_parents := map PurePath.parents paths in
      let common_ancestors :=
        fold_left (fun common parents => filter (fun a => mem_path a parents) common)
                  (tl all_parents) (hd [] all_parents) in
      match common_ancestors with
      | [] => base_path
      | a :: r => deepest a r
      end
  end.

End ResourceAnalyzer.

(** ** obsidian_tools/resource_optimizer.py *)

Module ResourceOptimizer.

Record stats : Type := {
  moved : nat;
  skipped_conflict : nat;
  skipped_optimal : nat;
  errors : nat
}.

Definition no_stats : stats :=
  {| moved := 0; skipped_conflict := 0; skipped_optimal := 0; errors := 0 |}.

(** A queued move: the resource, where it goes, the notes that use it. *)
Definition move : Type := path * path * list path.

(** [(\|[^\]]+\]|\]\])] at the start of [s]: group 2 of the pattern of
    [_update_markdown_link]; its first branch ends in one bracket. *)
Definition link_end (s : string) : option string :=
  let plain :=
    match Str.strip_prefix "]]" s with
    | Some _ => Some "]]"
    | None => None
    end in
  match s with
  | String "|"%char r =>
      let (text, rest) := Str.span MarkdownParser.not_bracket r in
      if String.eqb text "" then plain
      else match rest with
           | String "]"%char _ => Some ("|" +++ text +++ "]")
           | _ => plain
           end
  | _ => plain
  end.

(** The name and the end of the link at the start of [s]: the length of
    both and group 2. *)
Definition name_and_end (resource_name s : string) : option (nat * string) :=
  match Str.strip_prefix resource_name s with
  | Some r =>
      match link_end r with
      | Some e => Some (String.length resource_name + String.length e, e)
      | None => None
      end
  | None => None
  end.

(** [.*?/] followed by the name and the end: the lazy star takes one
    more character, never a newline, until what follows fits. *)
Fixpoint after_some_dir (resource_name s : string) : option (nat * string) :=
  match s with
  | EmptyString => None
  | String c r =>
      let here := if Ascii.eqb c "/"%char
                  then name_and_end resource_name r else None in
      match here with
      | Some (n, e) => Some (S n, e)
      | None =>
          if Ascii.eqb c Str.nl then None
          else match after_some_dir resource_name r with
               | Some (n, e) => Some (S n, e)
               | None => None
               end
      end
  end.

(** The pattern [(!\[\[)(?:.*?/)?] + [re.escape(resource_name)] +
    [(\|[^\]]+\]|\]\])]. *)
Definition link_anywhere (resource_name : string) : Re.matcher :=
  fun s =>
    match Str.strip_prefix "![[" s with
    | Some r =>
        let found :=
          match after_some_dir resource_name r with
          | Some ne => Some ne
          | None => name_and_end resource_name r
          end in
        match found with
        | Some (n, e) => Some ([Str.take (3 + n) s; "![["; e], 3 + n)
        | None => None
        end
    | None => None
    end.

Definition _update_markdown_link (md_file : path) (resource_name : string)
           (new_resource_path : path) : Py.M bool :=
  Py.try_except
    (content <- Py.read_text md_file ;;
     let md_dir := PurePath.parent md_file in
     let relative_path :=
       match PurePath.relative_to new_resource_path md_dir with
       | Some rel => rel
       | None => PurePath.joinpath ["_resources"] resource_name
       end in
     let relative_str :=
       Str.replace_char "\"%char "/"%char (PurePath.to_string relative_path) in
     match Re.sub (link_anywhere resource_name) 2
                  ("\1" +++ relative_str +++ "\2") content with
     | Some new_content =>
         Py.write_text md_file new_content ;;; Py.ret true
     | None => Py.raise Py.ReError
     end)
    (Py.on_read_error (Py.ret false)).

Definition _move_resource (execute : bool) (source target : path)
           (md_files : list path) : Py.M bool :=
  let resource_name := PurePath.name source in
  if execute then
    Py.try_except
      (Py.mkdir_parents (PurePath.parent target) ;;;
       Py.rename source target ;;;
       Py.for_each md_files
         (fun md_file =>
            _update_markdown_link md_file resource_name target ;;; Py.ret tt) ;;;
       Py.ret true)
      (Py.on_oserror (Py.ret false))
  else
    Py.ret true.

(** The paths of the references Phase 2 found in conflict. *)
Definition conflict_paths
           (conflicts : Dict.t (K := string)
                               (V := ResourceAnalyzer.ResourceReference))
  : list path :=
  flat_map
    (fun kv => ResourceAnalyzer.somes
                 (map ResourceAnalyzer.resource_actual_path (snd kv)))
    conflicts.

Definition optimal_location (base_path resource_path : path)
           (md_files : list path) : path :=
  let ancestor :=
    ResourceAnalyzer.find_lowest_common_ancestor base_path md_files in
  PurePath.joinpath (PurePath.joinpath ancestor "_resources")
                    (PurePath.name resource_path).

(** One round of the Phase 3 loop over [grouped.items()]. *)
Definition plan_step (base_path : path) (conflicting : list path)
           (acc : list move * stats) (group : path * list path)
  : list move * stats :=
  let (moves, st) := acc in
  let (resource_path, md_files) := group in
  if ResourceAnalyzer.mem_path resource_path conflicting then
    (moves,
     {| moved := moved st; skipped_conflict := S (skipped_conflict st);
        skipped_optimal := skipped_optimal st; errors := errors st |})
  else
    let target := optimal_location base_path resource_path md_files in
    if PurePath.eqb resource_path target then
      (moves,
       {| moved := moved st; skipped_conflict := skipped_conflict st;
          skipped_optimal := S (skipped_optimal st); errors := errors st |})
    else
      (moves ++ [(resource_path, target, md_files)], st).

(** Phases 2 and 3: the queue of moves and the counters so far. *)
Definition plan (base_path : path)
           (references : list ResourceAnalyzer.ResourceReference)
  : list move * stats :=
  let conflicts := ResourceAnalyzer.detect_conflicts references in
  let grouped := ResourceAnalyzer.group_by_resource references in
  fold_left (plan_step base_path (conflict_paths conflicts))
            grouped ([], no_stats).

(** Phase 4. *)
Fixpoint run_moves (execute : bool) (moves : list move) (st : stats)
  : Py.M stats :=
  match moves with
  | [] => Py.ret st
  | (resource_path, target, md_files) :: rest =>
      success <- _move_resource execute resource_path target md_files ;;
      run_moves execute rest
        (if success : bool then
           {| moved := S (moved st); skipped_conflict := skipped_conflict st;
              skipped_optimal := skipped_optimal st; errors := errors st |}
         else
           {| moved := moved st; skipped_conflict := skipped_conflict st;
              skipped_optimal := skipped_optimal st; errors := S (errors st) |})
  end.

Section WithHashlib.
Context {H : Hashlib}.

(** The method prints its decisions; here it returns them: the queue of
    Phase 3 and the counters of the summary. *)
Definition optimize_resources (execute : bool) (base_path : path)
  : Py.M (list move * stats) :=
  fun t =>
    match ResourceAnalyzer.build_reference_array base_path t with
    | Py.Raise e => (Py.Raise e, t)
    | Py.Ok references =>
        let (moves, st) := plan base_path references in
        (st' <- run_moves execute moves st ;; Py.ret (moves, st')) t
    end.

End WithHashlib.
End ResourceOptimizer.

(** ** A digest and a vault to run the definitions on *)

Module Sample.

Definition hex_digit (n : nat) : ascii :=
  ascii_of_nat (if (n <? 10)%nat then 48 + n else 87 + n).

Fixpoint hex (b : string) : string :=
  match b with
  | EmptyString => EmptyString
  | String c r =>
      let n := nat_of_ascii c in
      String (hex_digit (n / 16)) (String (hex_digit (n mod 16)) (hex r))
  end.

Definition zeros : string :=
  "0000000000000000000000000000000000000000000000000000000000000000".

(** Not SHA-256: the first 64 hexadecimal digits of the content, padded
    with zeros. It tells short contents apart, which is all the examples
    need. *)
Definition digest (b : string) : string := Str.take 64 (hex b +++ zeros).

End Sample.

(** ** What the statements below speak of *)

Module Spec.
Import Store ResourceAnalyzer ResourceOptimizer.







(** What stands before the start of a line: nothing, or text that ends
    in a newline. *)
Definition line_start (before : string) : Prop :=
  before = "" \/ exists b, before = b +++ String Str.nl "".



(** One try of [after_dashes]: the white space takes [j] characters. *)
Definition attempt (j : nat) (r : string) : option string :=
  match Str.drop j r with
  | String c rest => if Ascii.eqb c Str.nl then MarkdownParser.until_fence rest else None
  | EmptyString => None
  end.


(** [d] is among the ancestors of every path of [paths]. *)
Definition common_ancestor (d : path) (paths : list path) : Prop :=
  forall p, In p paths -> In d (PurePath.parents p).

(** A status of the resource manager. *)
Definition known_status (s : string) : Prop :=
  In s ["moved"; "renamed"; "missing"; "identical"; "error"].

(** A reference has a digest, not [None], not empty, not the flag. *)
Definition real_hash (r : ResourceAnalyzer.ResourceReference) : bool :=
  ResourceAnalyzer.truthy (ResourceAnalyzer.resource_hash r)
  && negb (ResourceAnalyzer.is_conflict (ResourceAnalyzer.resource_hash r)).

(** A resource name that [rglob] reads as a plain name: one part, no
    wildcard. *)
Definition plain_name (n : string) : Prop :=
  Fnmatch.is_wildcard_pattern n = false /\ Str.mem "/"%char n = false
  /\ n <> "" /\ n <> "." /\ n <> "..".

(** [**] occurs in [s]. *)
Fixpoint double_star (s : string) : bool :=
  match s with
  | EmptyString => false
  | String c r =>
      (Ascii.eqb c "*"%char
       && match r with
          | String d _ => Ascii.eqb d "*"%char
          | EmptyString => false
          end)
      || double_star r
  end.

(** A resource name that [rglob] reads as a pattern of one part, with
    or without wildcards: no separator, no [**], not empty, and
    neither [.] nor [..]. *)
Definition one_part_pattern (n : string) : Prop :=
  Str.mem "/"%char n = false /\ double_star n = false
  /\ n <> "" /\ n <> "." /\ n <> "..".

(** No directory of the tree lists a name twice, and none is faulty. *)
Fixpoint sound_tree (t : Store.node) : Prop :=
  match t with
  | Store.File _ => True
  | Store.Faulty => False
  | Store.Dir es =>
      NoDup (map fst es)
      /\ (fix all (es : Store.entries) : Prop :=
            match es with
            | [] => True
            | (_, c) :: r => sound_tree c /\ all r
            end) es
  end.



(** The length of the shortest ancestor: the anchor, or nothing. *)
Definition floor (p : path) : nat := if PurePath.anchored p then 1 else 0.

(** The common ancestors the method computes for two paths or more. *)
Definition common_of (p q : path) (rest : list path) : list path :=
  fold_left (fun common parents => filter (fun a => mem_path a parents) common)
            (map PurePath.parents (q :: rest)) (PurePath.parents p).

(** The name of the [counter]-th candidate. *)
Definition numbered (target_path : path) (counter : nat) : string :=
  PurePath.stem target_path +++ "_" +++ Str.of_nat counter
  +++ PurePath.suffix target_path.

(** One round of the first loop of [detect_conflicts]. *)
Definition name_step (d : Dict.t (K := string) (V := ResourceReference))
           (ref : ResourceReference) :=
  if truthy (resource_hash ref) && negb (is_conflict (resource_hash ref))
  then Dict.append String.eqb (resource_name ref) ref d
  else d.

(** One round of the loop of [group_by_resource]. *)
Definition group_step (grouped : Dict.t (K := path) (V := path))
           (ref : ResourceReference) :=
  match resource_actual_path ref with
  | None => grouped
  | Some p =>
      if is_conflict (resource_hash ref) then grouped
      else Dict.append PurePath.eqb p (md_file_path ref) grouped
  end.

(** [stats['skipped_optimal'] += 1] *)
Definition skip_optimal (st : stats) : stats :=
  {| moved := moved st; skipped_conflict := skipped_conflict st;
     skipped_optimal := S (skipped_optimal st); errors := errors st |}.

(** Every value [m] returns is [x]. *)
Definition returns_only {A} (m : Py.M A) (x : A) : Prop :=
  forall t a t', m t = (Py.Ok a, t') -> a = x.

(** [stats['moved'] += 1], [n] times. *)
Definition add_moved (n : nat) (st : stats) : stats :=
  {| moved := n + moved st; skipped_conflict := skipped_conflict st;
     skipped_optimal := skipped_optimal st; errors := errors st |}.

(** A result of [move_resource_file] as its docstring describes it. *)
Definition well_formed (r : ResourceManager.result) : Prop :=
  let '(success, _, status) := r in
  known_status status /\ (success = true <-> status <> "error").

(** The part of the walk that visits the entries of a directory. *)
Fixpoint walk_entries (pat : string) (here : path) (es : entries)
  : list path * bool :=
  match es with
  | [] => ([], false)
  | (n, c) :: r =>
      let (f1, a1) := Glob.walk pat (here ++ [n]) c in
      if a1 then (f1, true)
      else let (f2, a2) := walk_entries pat here r in (f1 ++ f2, a2)
  end.

(** Notes made of running text and embedded links. *)

Definition one_of (cs : string) (c : ascii) : bool := Str.mem c cs.

(** Characters of running text: no link can start at them. *)
Definition text_char (c : ascii) : bool := negb (one_of "![" c).

(** Characters of a display text. *)
Definition display_char (c : ascii) : bool := negb (one_of "![]" c).

(** Characters of the name of a resource. *)
Definition name_char (c : ascii) : bool := negb (one_of "![]|" c).

(** A name that is not empty and has no character of the link syntax. *)
Definition safe_name (n : string) : Prop :=
  n <> "" /\ Str.forallb name_char n = true.

(** A new name that the replacement template takes as it is. *)
Definition template_safe (n : string) : Prop :=
  Str.mem "\"%char n = false
  /\ match n with
     | String c _ => Str.is_digit c = false
     | EmptyString => True
     end.

(** A piece of a note: text, or [![[_resources/name]]] with or without
    [|display]. *)
Inductive piece : Type :=
| Text (s : string)
| Embed (name : string) (display : option string).

Definition valid_piece (p : piece) : Prop :=
  match p with
  | Text s => Str.forallb text_char s = true
  | Embed n None => safe_name n
  | Embed n (Some d) =>
      safe_name n /\ d <> "" /\ Str.forallb display_char d = true
  end.

(** What closes a link. *)
Definition ending (display : option string) : string :=
  match display with
  | None => "]]"
  | Some d => "|" +++ d +++ "]]"
  end.

Definition render (p : piece) : string :=
  match p with
  | Text s => s
  | Embed n d => "![[_resources/" +++ n +++ ending d
  end.

Definition render_all (ps : list piece) : string :=
  fold_right (fun p rest => render p +++ rest) "" ps.

(** The references of a note, in order. *)
Fixpoint names (ps : list piece) : list string :=
  match ps with
  | [] => []
  | Text _ :: r => names r
  | Embed n _ :: r => n :: names r
  end.

(** The piece with [old_name] replaced by [new_name]. *)
Definition rename_piece (old_name new_name : string) (p : piece) : piece :=
  match p with
  | Embed n d => Embed (if String.eqb n old_name then new_name else n) d
  | Text s => Text s
  end.

(** Not an exclamation mark. *)
Definition no_mark (c : ascii) : bool := negb (Ascii.eqb "!" c).

(** The template items of a text without escapes. *)
Fixpoint literals (s : string) : list Re.item :=
  match s with
  | EmptyString => []
  | String c r => Re.Lit (String c EmptyString) :: literals r
  end.

(** [q] is [d] or below it. *)
Definition below (d q : path) : Prop := exists rel, q = d ++ rel.

(** The names the pattern [rglob] makes of [pat] selects: those that
    match where [pat] holds a wildcard, [pat] itself where it does
    not. *)
Definition selects (pat n : string) : Prop :=
  if Fnmatch.is_wildcard_pattern pat then Fnmatch.fnmatch pat n = true
  else n = pat.

(** The resources the four counters of the resource manager stand for. *)
Definition resources_counted (st : ResourceManager.stats) : nat :=
  ResourceManager.moved st + ResourceManager.renamed st
  + ResourceManager.missing st + ResourceManager.errors st.

(** A reference that was found at [p] and is not flagged as a conflict. *)
Definition grouped_at (p : path) (r : ResourceAnalyzer.ResourceReference) : bool :=
  match ResourceAnalyzer.resource_actual_path r with
  | Some q =>
      PurePath.eqb q p
      && negb (ResourceAnalyzer.is_conflict (ResourceAnalyzer.resource_hash r))
  | None => false
  end.

(** A reference to [name] that carries a digest. *)
Definition named (name : string) (r : ResourceAnalyzer.ResourceReference) : bool :=
  real_hash r && String.eqb (ResourceAnalyzer.resource_name r) name.

(** The list under a key after [l] was appended to it, one element at
    a time: a key without elements is no key. *)
Definition extend {V} (o : option (list V)) (l : list V) : option (list V) :=
  match o, l with
  | None, [] => None
  | None, _ => Some l
  | Some vs, _ => Some (vs ++ l)
  end.

(** [r] is a common ancestor of [paths] that every common ancestor is a
    prefix of. *)
Definition greatest_common_ancestor (r : path) (paths : list path) : Prop :=
  common_ancestor r paths
  /\ forall d, common_ancestor d paths -> d = firstn (length d) r.

(** The path [_update_markdown_link] writes into the links of
    [md_file]: the new location relative to the directory of the note,
    or [_resources/name] where the location is not below it, with
    backslashes turned into slashes. *)
Definition link_text (md_file : path) (resource_name : string)
           (new_resource_path : path) : string :=
  let relative_path :=
    match PurePath.relative_to new_resource_path (PurePath.parent md_file) with
    | Some rel => rel
    | None => PurePath.joinpath ["_resources"] resource_name
    end in
  Str.replace_char "\" "/" (PurePath.to_string relative_path).

(** The year directory of the sort and the place of a note in it. *)
Definition year_dir_of (base_path : path) (year : nat) : path :=
  PurePath.joinpath base_path (Str.of_nat year).

Definition target_of (base_path : path) (year : nat) (md_file : path) : path :=
  PurePath.joinpath (year_dir_of base_path year) (PurePath.name md_file).

(** The notes the sort counted as moved or skipped. *)
Definition notes_seen (st : SortStats.t) : nat :=
  SortStats.moved st + SortStats.skipped_no_date st + SortStats.skipped_exists st.

Section SortSteps.
Context {H : Hashlib}.

(** What [_process_file] does once the note is moved, from the tree
    [t2]: nothing more without a resources path or without links, else
    the move of the resources, whose counters it adds. *)
Definition after_note_move (execute : bool) (md_file base_path : path)
           (year : nat) (resources_path : option path) (links : list string)
           (st : SortStats.t) (t2 : Store.node)
           (r : Py.outcome SortStats.t) (t' : Store.node) : Prop :=
  ((resources_path = None \/ links = [])
   /\ r = Py.Ok (SortStats.count_moved st) /\ t' = t2)
  \/ exists rp,
       resources_path = Some rp /\ links <> []
       /\ match ResourceManager.move_resources_for_markdown
                  execute
                  (if execute then target_of base_path year md_file else md_file)
                  links rp (year_dir_of base_path year) t2 with
          | (Py.Ok rs, t3) =>
              r = Py.Ok (FileSorter.add_resource_stats
                           (SortStats.count_moved st) rs)
              /\ t' = t3
          | (Py.Raise e, t3) => r = Py.Raise e /\ t' = t3
          end.

(** The note is moved, or in a dry run counted as moved: the tree
    after that. *)
Definition note_moved (execute : bool) (md_file base_path : path)
           (year : nat) (t t2 : Store.node) : Prop :=
  (execute = false /\ t2 = t)
  \/ (execute = true
      /\ exists t1,
           Store.mkdir (year_dir_of base_path year) t = Some t1
           /\ Store.rename md_file (target_of base_path year md_file) t1
              = Some t2).

(** The move of the note fails: the year directory cannot be made, or
    the note cannot be renamed. *)
Definition note_move_fails (md_file base_path : path) (year : nat)
           (t t' : Store.node) : Prop :=
  (Store.mkdir (year_dir_of base_path year) t = None /\ t' = t)
  \/ (Store.mkdir (year_dir_of base_path year) t = Some t'
      /\ Store.rename md_file (target_of base_path year md_file) t' = None).

End SortSteps.

(** The end of a link up to the bracket the pattern of
    [_update_markdown_link] stops at, and what is left of it. *)
Definition short_ending (display : option string) : string :=
  match display with
  | None => "]]"
  | Some d => "|" +++ d +++ "]"
  end.

Definition closing (display : option string) : string :=
  match display with
  | None => ""
  | Some _ => "]"
  end.

(** A display text that is not empty and holds no closing bracket. *)
Definition plain_display (display : option string) : Prop :=
  match display with
  | None => True
  | Some d => d <> "" /\ Str.forallb MarkdownParser.not_bracket d = true
  end.

End Spec.

(** ** Notes and vaults to run the definitions on *)

Module Vaults.
Import Store MarkdownParser ResourceAnalyzer.

(** Notes with and without front matter, named after dates. *)
Definition dated_note : Store.node :=
  Store.Dir
    [("20190704_trip.md",
      Store.File (Store.Utf8
        ("---" +++ String Str.nl ("title: trip" +++ String Str.nl
         ("Created at: 2023-04-05" +++ String Str.nl
          ("tags: travel" +++ fence +++ String Str.nl "text"))))));
     ("20231205_plain.md", Store.File (Store.Utf8 "no front matter"));
     ("20231305_month.md", Store.File (Store.Utf8 "no front matter"));
     ("20231232_day.md", Store.File (Store.Utf8 "no front matter"));
     ("20231205_blob.md", Store.File (Store.Binary "no text"))].

(** A resource folder where [photo.png], [photo_1.png] and [photo_2.png]
    are taken. *)
Definition crowded : Store.node :=
  Store.Dir
    [("2023",
      Store.Dir
        [("_resources",
          Store.Dir [("photo.png", Store.File (Store.Binary "a"));
                     ("photo_1.png", Store.File (Store.Binary "b"));
                     ("photo_2.png", Store.File (Store.Binary "c"));
                     ("photo_4.png", Store.File (Store.Binary "d"))])])].

(** A vault: two notes in [a] and [b] use [a/_resources/p.png], one of
    them also [_resources/q.png]; [c/n3.md] uses a resource that is where
    it should be. *)
Definition vault : Store.node :=
  Store.Dir
    [("/",
      Store.Dir
        [("v",
          Store.Dir
            [("a",
              Store.Dir
                [("n1.md",
                  Store.File (Store.Utf8
                    "![[_resources/p.png]] and [[_resources/q.png|t]]"));
                 ("_resources",
                  Store.Dir [("p.png", Store.File (Store.Binary "PPP"))])]);
             ("b",
              Store.Dir
                [("n2.md", Store.File (Store.Utf8 "![[_resources/p.png]]"))]);
             ("c",
              Store.Dir
                [("n3.md", Store.File (Store.Utf8 "![[_resources/r.png]]"));
                 ("_resources",
                  Store.Dir [("r.png", Store.File (Store.Binary "RRR"))])]);
             ("_resources",
              Store.Dir [("q.png", Store.File (Store.Binary "QQQ"))])])])].

Definition vault_root : path := ["/"; "v"].

(** The reference of [c/n3.md] to the resource next to it. *)
Definition settled_reference : ResourceReference :=
  {| md_file_path := ["/"; "v"; "c"; "n3.md"];
     resource_name := "r.png";
     resource_actual_path := Some ["/"; "v"; "c"; "_resources"; "r.png"];
     resource_hash := Some (Sample.digest "RRR") |}.

(** A reference to a resource that was found and could not be hashed. *)
Definition unhashed_reference : ResourceReference :=
  {| md_file_path := ["/"; "v"; "a"; "n1.md"];
     resource_name := "locked.png";
     resource_actual_path := Some ["/"; "v"; "_resources"; "locked.png"];
     resource_hash := None |}.

(** A resource [5.png] whose place in the year folder is taken by other
    content. *)
Definition clash : Store.node :=
  Store.Dir
    [("/",
      Store.Dir
        [("v",
          Store.Dir
            [("n.md", Store.File (Store.Utf8 "![[_resources/5.png]]"));
             ("_resources",
              Store.Dir [("5.png", Store.File (Store.Binary "new"))]);
             ("2023",
              Store.Dir
                [("_resources",
                  Store.Dir [("5.png", Store.File (Store.Binary "old"))])])])])].

(** The same after [5.png] was renamed to [5_1.png] in the year folder. *)
Definition clash_after_rename : Store.node :=
  Store.Dir
    [("/",
      Store.Dir
        [("v",
          Store.Dir
            [("n.md", Store.File (Store.Utf8 "![[_resources/5.png]]"));
             ("_resources", Store.Dir []);
             ("2023",
              Store.Dir
                [("_resources",
                  Store.Dir [("5.png", Store.File (Store.Binary "old"));
                             ("5_1.png", Store.File (Store.Binary "new"))])])])])].

(** Two files called [photo.png]; the walk meets [first_copy] first. *)
Definition two_copies (first_copy : Store.file_data) : Store.node :=
  Store.Dir
    [("/",
      Store.Dir
        [("v",
          Store.Dir
            [("n.md", Store.File (Store.Utf8 "![[_resources/photo.png]]"));
             ("_resources", Store.Dir [("photo.png", Store.File first_copy)]);
             ("old",
              Store.Dir [("photo.png", Store.File (Store.Binary "PPP"))])])])].

(** A question mark in the name of a resource, and a directory that
    cannot be scanned. *)
Definition shots : node :=
  Dir
    [("/",
      Dir
        [("v",
          Dir
            [("n.md", File (Utf8 "![[_resources/shot?.png]]"));
             ("_resources",
              Dir [("shot?.png", File (Binary "asked"));
                   ("shot1.png", File (Binary "other"))]);
             ("broken", Faulty);
             ("late", Dir [("shot?.png", File (Binary "asked"))])])])].

(** A folder with one note of the given text. *)
Definition two_links (text : string) : Store.node :=
  Store.Dir [("note.md", Store.File (Store.Utf8 text))].

(** A note that uses two resources on one line: [r.png], which is next
    to the note, and [p.png], which is in the resource folder of the
    vault. *)
Definition crossed : Store.node :=
  Store.Dir
    [("/",
      Store.Dir
        [("v",
          Store.Dir
            [("c",
              Store.Dir
                [("n3.md",
                  Store.File (Store.Utf8
                    "![[_resources/r.png]] ![[_resources/p.png]]"));
                 ("_resources",
                  Store.Dir [("r.png", Store.File (Store.Binary "RRR"))])]);
             ("_resources",
              Store.Dir [("p.png", Store.File (Store.Binary "PPP"))])])])].

Definition crossed_references : list ResourceReference :=
  [{| md_file_path := ["/"; "v"; "c"; "n3.md"];
      resource_name := "r.png";
      resource_actual_path := Some ["/"; "v"; "c"; "_resources"; "r.png"];
      resource_hash := Some (Sample.digest "RRR") |};
   {| md_file_path := ["/"; "v"; "c"; "n3.md"];
      resource_name := "p.png";
      resource_actual_path := Some ["/"; "v"; "_resources"; "p.png"];
      resource_hash := Some (Sample.digest "PPP") |}].

(** That vault after [p.png] was moved next to the note. *)
Definition crossed_after : Store.node :=
  Store.Dir
    [("/",
      Store.Dir
        [("v",
          Store.Dir
            [("c",
              Store.Dir
                [("n3.md", Store.File (Store.Utf8 "![[_resources/p.png]]"));
                 ("_resources",
                  Store.Dir [("r.png", Store.File (Store.Binary "RRR"));
                             ("p.png", Store.File (Store.Binary "PPP"))])]);
             ("_resources", Store.Dir [])])])].

End Vaults.

(** * Properties *)

(** ** Strings *)

Arguments Ascii.eqb : simpl never.
Arguments Str.nl : simpl never.

Module StrFacts.

Lemma append_assoc (a b c : string) : (a +++ b) +++ c = a +++ b +++ c.
Proof. induction a as [|x a IH]; simpl; [reflexivity | now rewrite IH]. Qed.

Lemma append_nil_r (a : string) : a +++ "" = a.
Proof. induction a as [|x a IH]; simpl; [reflexivity | now rewrite IH]. Qed.

Lemma length_append (a b : string) :
  String.length (a +++ b) = String.length a + String.length b.
Proof. induction a as [|x a IH]; simpl; [reflexivity | now rewrite IH]. Qed.

Lemma length_take (n : nat) (s : string) :
  String.length (Str.take n s) = Nat.min n (String.length s).
Proof.
  revert s; induction n as [|n IH]; intros [|c s]; simpl; auto.
Qed.

Lemma take_drop (n : nat) (s : string) : Str.take n s +++ Str.drop n s = s.
Proof.
  revert s; induction n as [|n IH]; intros [|c s]; simpl; auto.
  now rewrite IH.
Qed.

Lemma take_append (a b : string) : Str.take (String.length a) (a +++ b) = a.
Proof. induction a as [|x a IH]; simpl; [now destruct b | now rewrite IH]. Qed.


Lemma strip_prefix_append (p s : string) : Str.strip_prefix p (p +++ s) = Some s.
Proof.
  induction p as [|x p IH]; simpl; [reflexivity|].
  now rewrite Ascii.eqb_refl.
Qed.

Lemma strip_prefix_cons (a : ascii) (p : string) (b : ascii) (s : string) :
  Str.strip_prefix (String a p) (String b s)
  = if Ascii.eqb a b then Str.strip_prefix p s else None.
Proof. reflexivity. Qed.

Lemma strip_prefix_inv (p s r : string) :
  Str.strip_prefix p s = Some r -> s = p +++ r.
Proof.
  revert s; induction p as [|x p IH]; intros s; simpl.
  - now intros [= ->].
  - destruct s as [|y s]; [discriminate|].
    destruct (Ascii.eqb x y) eqn:E; [|discriminate].
    apply Ascii.eqb_eq in E; subst y.
    intros Hs; now rewrite (IH _ Hs).
Qed.

Lemma append_inj_l (p a b : string) : p +++ a = p +++ b -> a = b.
Proof. induction p as [|x p IH]; simpl; [auto | intros [= E]; auto]. Qed.

Lemma append_inj_r (a b s : string) :
  a +++ s = b +++ s -> a = b.
Proof.
  revert b; induction a as [|x a IH]; intros [|y b]; simpl; intros E.
  - reflexivity.
  - apply (f_equal String.length) in E; simpl in E.
    rewrite length_append in E; lia.
  - apply (f_equal String.length) in E; simpl in E.
    rewrite length_append in E; lia.
  - injection E as -> E; f_equal; auto.
Qed.

Lemma forallb_append (f : ascii -> bool) (a b : string) :
  Str.forallb f (a +++ b) = Str.forallb f a && Str.forallb f b.
Proof.
  induction a as [|x a IH]; simpl; [reflexivity|].
  now rewrite IH, andb_assoc.
Qed.

(** [span] stops at the first character that fails the test. *)
Lemma span_stop (f : ascii -> bool) (a : string) (c : ascii) (r : string) :
  Str.forallb f a = true -> f c = false ->
  Str.span f (a +++ String c r) = (a, String c r).
Proof.
  intros Ha Hc; induction a as [|x a IH]; simpl in *.
  - now rewrite Hc.
  - apply andb_prop in Ha as [Hx Ha]; rewrite Hx, (IH Ha); reflexivity.
Qed.

Lemma span_spec (f : ascii -> bool) (s : string) :
  fst (Str.span f s) +++ snd (Str.span f s) = s
  /\ Str.forallb f (fst (Str.span f s)) = true.
Proof.
  induction s as [|c s [IH1 IH2]]; simpl; [auto|].
  destruct (f c) eqn:E; simpl; [|auto].
  destruct (Str.span f s) as [a b]; simpl in *.
  now rewrite IH1, E, IH2.
Qed.

End StrFacts.

(** ** The year of a note *)

Module YearFacts.
Import MarkdownParser StrFacts Spec Vaults.




Lemma read_text_state (p : path) (t : Store.node) : snd (Py.read_text p t) = t.
Proof.
  unfold Py.read_text.
  destruct (Store.lookup p t) as [[[]| |]|]; reflexivity.
Qed.




































(** Month 13, day 32 and an unreadable note give no year. *)
Example implausible_dates :
  extract_year_from_frontmatter ["20231305_month.md"] dated_note = None
  /\ extract_year_from_frontmatter ["20231232_day.md"] dated_note = None
  /\ extract_year_from_frontmatter ["20231205_blob.md"] dated_note = None
  /\ extract_year_from_frontmatter ["20231205_gone.md"] dated_note = None.
Proof. repeat split. Qed.

End YearFacts.

(** ** The lowest common ancestor *)

Module AncestorFacts.
Import ResourceAnalyzer Spec Vaults.

Lemma path_eqb_eq (p q : path) : PurePath.eqb p q = true <-> p = q.
Proof.
  unfold PurePath.eqb; destruct (PurePath.path_eq_dec p q); split;
    congruence.
Qed.

Lemma path_eqb_refl (p : path) : PurePath.eqb p p = true.
Proof. now apply path_eqb_eq. Qed.

Lemma path_eqb_neq (p q : path) : PurePath.eqb p q = false <-> p <> q.
Proof.
  unfold PurePath.eqb; destruct (PurePath.path_eq_dec p q); split;
    congruence.
Qed.

Lemma mem_path_In (p : path) (l : list path) : mem_path p l = true <-> In p l.
Proof.
  unfold mem_path; rewrite existsb_exists; split.
  - intros (x & Hx & E); apply path_eqb_eq in E; now subst.
  - intros Hp; exists p; split; [assumption | apply path_eqb_refl].
Qed.

(** The ancestors of [p] are its prefixes, down to its anchor. *)
Lemma In_parents (d p : path) :
  In d (PurePath.parents p)
  <-> exists k, floor p <= k < length p /\ d = firstn k p.
Proof.
  unfold PurePath.parents; fold (floor p).
  rewrite in_map_iff; split.
  - intros (k & <- & Hk). apply in_rev, in_seq in Hk. exists k; split; [lia | reflexivity].
  - intros (k & Hk & ->). exists k; split; [reflexivity|].
    apply in_rev; rewrite rev_involutive. apply in_seq; lia.
Qed.

Lemma In_common (d : path) (others : list (list path)) (first : list path) :
  In d (fold_left (fun common parents =>
                     filter (fun a => mem_path a parents) common)
                  others first)
  <-> In d first /\ forall ps, In ps others -> In d ps.
Proof.
  revert first; induction others as [|ps others IH]; intros first; simpl.
  - intuition.
  - rewrite IH, filter_In, mem_path_In. split.
    + intros [[H1 H2] H3]. split; [assumption|]. intros ps' [<-|H']; auto.
    + intros [H1 H2]. repeat split; auto.
Qed.

Lemma deepest_spec (l : list path) (best : path) :
  In (deepest best l) (best :: l)
  /\ forall x, In x (best :: l) -> length x <= length (deepest best l).
Proof.
  revert best; induction l as [|p l IH]; intros best; simpl.
  - split; [auto|]. intros x [<-|[]]; lia.
  - destruct (IH (if (length best <? length p)%nat then p else best)) as [I M].
    split.
    + destruct I as [E|I]; [|auto].
      rewrite <- E. destruct (length best <? length p)%nat; auto.
    + intros x Hx.
      assert (B : length best <= length (deepest (if (length best <? length p)%nat
                                                  then p else best) l)).
      { destruct (length best <? length p)%nat eqn:L.
        - apply Nat.ltb_lt in L. specialize (M p (or_introl eq_refl)). lia.
        - exact (M best (or_introl eq_refl)). }
      assert (P : length p <= length (deepest (if (length best <? length p)%nat
                                               then p else best) l)).
      { destruct (length best <? length p)%nat eqn:L.
        - exact (M p (or_introl eq_refl)).
        - apply Nat.ltb_ge in L. specialize (M best (or_introl eq_refl)). lia. }
      destruct Hx as [<-|[<-|Hx]]; auto.
      apply M; now right.
Qed.

Lemma In_common_of (d p q : path) (rest : list path) :
  In d (common_of p q rest) <-> Spec.common_ancestor d (p :: q :: rest).
Proof.
  unfold common_of, Spec.common_ancestor. rewrite In_common. split.
  - intros [H1 H2] x [<-|Hx]; [assumption|].
    apply H2, in_map, Hx.
  - intros Hc. split; [apply Hc; now left|].
    intros ps Hps. apply in_map_iff in Hps as (x & <- & Hx).
    apply Hc; now right.
Qed.

Lemma lca_unfold (base_path p q : path) (rest : list path) :
  find_lowest_common_ancestor base_path (p :: q :: rest)
  = match common_of p q rest with
    | [] => base_path
    | a :: r => deepest a r
    end.
Proof. reflexivity. Qed.

(** Two prefixes of one path, the shorter is a prefix of the longer. *)
Lemma firstn_chain {A} (p : list A) (j k : nat) :
  j <= k -> firstn j p = firstn j (firstn k p).
Proof. intros L. rewrite firstn_firstn. now rewrite Nat.min_l. Qed.

(** C4. [find_lowest_common_ancestor]: the base path for no path; the
    parent of the one path of a one-element list; for two paths or more
    with a common ancestor, a common ancestor that every common ancestor
    is a prefix of, hence the deepest; the base path when they have
    none; and for two notes in different directories [a] and [b] of a
    directory [x], that directory. *)
Theorem find_lowest_common_ancestor_spec (base_path : path) :
  find_lowest_common_ancestor base_path [] = base_path
  /\ (forall p, find_lowest_common_ancestor base_path [p] = PurePath.parent p)
  /\ (forall p q rest d,
        let paths := p :: q :: rest in
        Spec.common_ancestor d paths ->
        Spec.common_ancestor (find_lowest_common_ancestor base_path paths) paths
        /\ length d <= length (find_lowest_common_ancestor base_path paths)
        /\ d = firstn (length d) (find_lowest_common_ancestor base_path paths))
  /\ (forall p q rest,
        (forall d, ~ Spec.common_ancestor d (p :: q :: rest)) ->
        find_lowest_common_ancestor base_path (p :: q :: rest) = base_path)
  /\ (forall x a b n1 n2,
        x <> [] -> a <> b ->
        find_lowest_common_ancestor base_path [x ++ [a; n1]; x ++ [b; n2]] = x).
Proof.
  assert (General : forall p q rest d,
        let paths := p :: q :: rest in
        Spec.common_ancestor d paths ->
        Spec.common_ancestor (find_lowest_common_ancestor base_path paths) paths
        /\ length d <= length (find_lowest_common_ancestor base_path paths)
        /\ d = firstn (length d) (find_lowest_common_ancestor base_path paths)).
  { intros p q rest d paths Hd. unfold paths in *. rewrite lca_unfold.
    pose proof (proj2 (In_common_of d p q rest) Hd) as Hin.
    destruct (common_of p q rest) as [|a r] eqn:E; [destruct Hin|].
    destruct (deepest_spec r a) as [I M].
    assert (Hr : Spec.common_ancestor (deepest a r) (p :: q :: rest)).
    { apply In_common_of. now rewrite E. }
    split; [exact Hr|]. split; [now apply M|].
    pose proof (Hd p (or_introl eq_refl)) as Dp.
    pose proof (Hr p (or_introl eq_refl)) as Rp.
    apply In_parents in Dp as (j & Hj & Ej), Rp as (k & Hk & Ek).
    specialize (M d Hin).
    assert (Lj : length d = j) by (rewrite Ej, length_firstn; lia).
    assert (Lk : length (deepest a r) = k) by (rewrite Ek, length_firstn; lia).
    rewrite Lj, Ek, Ej. apply firstn_chain. lia. }
  split; [reflexivity|]. split; [reflexivity|]. split; [exact General|].
  split.
  - intros p q rest Hnone. rewrite lca_unfold.
    destruct (common_of p q rest) as [|a r] eqn:E; [reflexivity|].
    exfalso. apply (Hnone a), In_common_of. rewrite E; now left.
  - intros x a b n1 n2 Hx Hab.
    assert (An : forall c n, PurePath.anchored (x ++ [c; n]) = PurePath.anchored x).
    { intros c n. destruct x; [now elim Hx | reflexivity]. }
    assert (Hc : Spec.common_ancestor x [x ++ [a; n1]; x ++ [b; n2]]).
    { intros p [<-|[<-|[]]]; apply In_parents; exists (length x);
        unfold floor; rewrite An, List.length_app; simpl;
        (split; [destruct x; [now elim Hx|]; destruct (PurePath.anchored _); simpl; lia|]);
        now rewrite firstn_app, Nat.sub_diag, firstn_all, List.app_nil_r. }
    destruct (General _ _ [] x Hc) as (Hr & Hlen & Hpre).
    set (r := find_lowest_common_ancestor _ _) in *.
    pose proof (Hr _ (or_introl eq_refl)) as R1.
    pose proof (Hr _ (or_intror (or_introl eq_refl))) as R2.
    apply In_parents in R1 as (k1 & Hk1 & E1), R2 as (k2 & Hk2 & E2).
    rewrite List.length_app in Hk1, Hk2; simpl in Hk1, Hk2.
    assert (L1 : length r = k1) by (rewrite E1, length_firstn, List.length_app; simpl; lia).
    assert (L2 : length r = k2) by (rewrite E2, length_firstn, List.length_app; simpl; lia).
    destruct (Nat.eq_dec k1 (length x)) as [Ek|Nk].
    + rewrite E1, Ek. now rewrite firstn_app, Nat.sub_diag, firstn_all, List.app_nil_r.
    + exfalso. assert (K : k1 = S (length x)) by lia.
      assert (K2 : k2 = S (length x)) by lia.
      rewrite K in E1. rewrite K2 in E2.
      rewrite firstn_app, firstn_all2 in E1 by lia.
      rewrite firstn_app, firstn_all2 in E2 by lia.
      replace (S (length x) - length x) with 1 in E1, E2 by lia.
      simpl in E1, E2. rewrite E1 in E2.
      apply app_inv_head in E2. congruence.
Qed.

Lemma find_lowest_common_ancestor_spec_witness :
  find_lowest_common_ancestor ["/"; "vault"]
    [["/"; "vault"; "2023"; "trips"; "a.md"];
     ["/"; "vault"; "2023"; "work"; "b.md"]]
  = ["/"; "vault"; "2023"]
  /\ find_lowest_common_ancestor ["/"; "vault"]
       [["/"; "vault"; "n.md"]; ["elsewhere"; "m.md"]]
     = ["/"; "vault"].
Proof.
  split.
  - apply (proj2 (proj2 (proj2 (proj2
             (find_lowest_common_ancestor_spec ["/"; "vault"]))))
             ["/"; "vault"; "2023"] "trips" "work" "a.md" "b.md");
      discriminate.
  - apply (proj1 (proj2 (proj2 (proj2
             (find_lowest_common_ancestor_spec ["/"; "vault"]))))).
    intros d Hd.
    pose proof (Hd _ (or_introl eq_refl)) as H1.
    pose proof (Hd _ (or_intror (or_introl eq_refl))) as H2.
    simpl in H1, H2.
    destruct H1 as [<-|[<-|[]]]; destruct H2 as [E|[E|[]]]; discriminate E.
Defined.

End AncestorFacts.

(** ** The file system tree *)

Module StoreFacts.
Import Store.

Lemma lookup_app (p : path) (n : string) (t : node) :
  lookup (p ++ [n]) t
  = match lookup p t with
    | Some (Dir es) => get_child n es
    | _ => None
    end.
Proof.
  revert t; induction p as [|x p IH]; intros t; simpl.
  - destruct t as [d|es|]; try reflexivity.
    now destruct (get_child n es).
  - destruct t as [d|es|]; try reflexivity.
    destruct (get_child x es); [apply IH | reflexivity].
Qed.

Lemma get_child_In (n : string) (es : entries) (c : node) :
  get_child n es = Some c -> In (n, c) es.
Proof.
  induction es as [|[m d] es IH]; simpl; [discriminate|].
  destruct (String.eqb m n) eqn:E.
  - apply String.eqb_eq in E; subst m. intros [= ->]; now left.
  - intros Hc; right; auto.
Qed.

Lemma get_child_name (n : string) (es : entries) (c : node) :
  get_child n es = Some c -> In n (map fst es).
Proof.
  intros Hc. apply get_child_In in Hc.
  apply in_map_iff. now exists (n, c).
Qed.

(** A path that exists lies in a directory that lists its name. *)
Lemma exists_child (t : node) (p : path) (n : string) :
  exists_ t (p ++ [n]) = true ->
  exists es, lookup p t = Some (Dir es) /\ In n (map fst es).
Proof.
  unfold exists_. rewrite lookup_app.
  destruct (lookup p t) as [[d|es|]|]; try discriminate.
  destruct (get_child n es) as [c|] eqn:E; [|discriminate].
  intros _. exists es; split; [reflexivity | eapply get_child_name; eauto].
Qed.

End StoreFacts.

(** ** Unique file names *)

Module UniqueFacts.
Import ResourceManager StrFacts StoreFacts Spec Vaults.

Lemma of_nat_inj (n m : nat) : Str.of_nat n = Str.of_nat m -> n = m.
Proof.
  unfold Str.of_nat. intros E.
  apply (f_equal NilEmpty.uint_of_string) in E.
  rewrite !NilEmpty.usu in E. injection E as E.
  apply (f_equal Nat.of_uint) in E.
  now rewrite !DecimalNat.Unsigned.of_to in E.
Qed.

Lemma numbered_inj (target_path : path) (j k : nat) :
  numbered target_path j = numbered target_path k -> j = k.
Proof.
  unfold numbered. intros E.
  apply append_inj_l, append_inj_l, append_inj_r in E.
  now apply of_nat_inj.
Qed.

(** Candidates lie in the directory of the target. *)
Lemma candidate_child (target_path : path) (counter : nat) :
  candidate target_path counter
  = PurePath.parent target_path ++ [numbered target_path counter].
Proof.
  unfold candidate, PurePath.joinpath. fold (numbered target_path counter).
  destruct (String.eqb (numbered target_path counter) "") eqn:E; [|reflexivity].
  apply String.eqb_eq in E. apply (f_equal String.length) in E.
  unfold numbered in E. rewrite !length_append in E. simpl in E. lia.
Qed.

(** The stem and the suffix make up the name of the target. *)
Lemma stem_suffix (p : path) : PurePath.stem p +++ PurePath.suffix p = PurePath.name p.
Proof.
  unfold PurePath.stem, PurePath.suffix.
  destruct (PurePath.split_at_dot (PurePath.name p)).
  - apply take_drop.
  - apply append_nil_r.
Qed.

Lemma first_free_some (fuel counter : nat) (target_path q : path) (t : Store.node) :
  first_free fuel counter target_path t = Some q ->
  exists n, counter <= n < counter + fuel
            /\ q = candidate target_path n
            /\ Store.exists_ t q = false
            /\ forall k, counter <= k < n ->
                         Store.exists_ t (candidate target_path k) = true.
Proof.
  revert counter; induction fuel as [|fuel IH]; intros counter; simpl;
    [discriminate|].
  destruct (Store.exists_ t (candidate target_path counter)) eqn:E; simpl.
  - intros Hq. destruct (IH _ Hq) as (n & Hn & -> & Hfree & Hbelow).
    exists n. repeat split; try lia; auto.
    intros k Hk. destruct (Nat.eq_dec k counter) as [->|Nk]; [exact E|].
    apply Hbelow; lia.
  - intros [= <-]. exists counter. repeat split; try lia; auto.
Qed.

Lemma first_free_none (fuel counter : nat) (target_path : path) (t : Store.node) :
  first_free fuel counter target_path t = None ->
  forall k, counter <= k < counter + fuel ->
            Store.exists_ t (candidate target_path k) = true.
Proof.
  revert counter; induction fuel as [|fuel IH]; intros counter; simpl.
  - intros _ k Hk; lia.
  - destruct (Store.exists_ t (candidate target_path counter)) eqn:E; simpl;
      [|discriminate].
    intros Hn k Hk. destruct (Nat.eq_dec k counter) as [->|Nk]; [exact E|].
    apply (IH _ Hn); lia.
Qed.

Lemma NoDup_numbered (target_path : path) (l : list nat) :
  NoDup l -> NoDup (map (numbered target_path) l).
Proof.
  induction 1 as [|x l Hx Hl IH]; simpl; constructor; [|assumption].
  intros Hin. apply in_map_iff in Hin as (y & E & Hy).
  apply numbered_inj in E; now subst.
Qed.

(** The loop ends: a directory has fewer entries than the rounds given. *)
Lemma first_free_total (target_path : path) (t : Store.node) :
  exists q,
    first_free (S (dir_size t (PurePath.parent target_path))) 1 target_path t
    = Some q.
Proof.
  set (parent := PurePath.parent target_path).
  destruct (first_free (S (dir_size t parent)) 1 target_path t) as [q|] eqn:E;
    [eauto|exfalso].
  pose proof (first_free_none _ _ _ _ E) as All.
  assert (H1 : Store.exists_ t (candidate target_path 1) = true)
    by (apply All; lia).
  rewrite candidate_child in H1. fold parent in H1.
  apply exists_child in H1 as (es & Hes & _).
  assert (Hsize : dir_size t parent = length es) by (unfold dir_size; now rewrite Hes).
  rewrite Hsize in All.
  assert (Hincl : incl (map (numbered target_path) (seq 1 (S (length es))))
                       (map fst es)).
  { intros nm Hnm. apply in_map_iff in Hnm as (k & <- & Hk).
    apply in_seq in Hk.
    assert (Hex : Store.exists_ t (candidate target_path k) = true)
      by (apply All; lia).
    rewrite candidate_child in Hex. fold parent in Hex.
    apply exists_child in Hex as (es' & Hes' & Hin).
    rewrite Hes in Hes'. now injection Hes' as <-. }
  apply NoDup_incl_length in Hincl.
  - rewrite !length_map, length_seq in Hincl. lia.
  - apply NoDup_numbered, seq_NoDup.
Qed.

(** C6. [get_unique_filename] returns the target when nothing is there;
    otherwise the first [stem_N suffix] in the directory of the target,
    N = 1, 2, 3, ..., that does not exist: the loop finds one, every
    smaller N names a path that exists, and stem and suffix are those of
    the name of the target. *)
Theorem get_unique_filename_spec (target_path : path) (t : Store.node) :
  (Store.exists_ t target_path = false ->
   get_unique_filename target_path t = target_path)
  /\ (Store.exists_ t target_path = true ->
      exists n,
        1 <= n
        /\ first_free (S (dir_size t (PurePath.parent target_path))) 1
                      target_path t
           = Some (get_unique_filename target_path t)
        /\ get_unique_filename target_path t
           = PurePath.parent target_path
             ++ [PurePath.stem target_path +++ "_" +++ Str.of_nat n
                 +++ PurePath.suffix target_path]
        /\ Store.exists_ t (get_unique_filename target_path t) = false
        /\ forall k, 1 <= k < n ->
                     Store.exists_ t
                       (PurePath.parent target_path
                        ++ [PurePath.stem target_path +++ "_" +++ Str.of_nat k
                            +++ PurePath.suffix target_path]) = true)
  /\ PurePath.stem target_path +++ PurePath.suffix target_path
     = PurePath.name target_path.
Proof.
  unfold get_unique_filename. split; [|split].
  - now intros ->.
  - intros ->. simpl negb. cbv iota.
    destruct (first_free_total target_path t) as [q Hq]. rewrite Hq.
    destruct (first_free_some _ _ _ _ _ Hq) as (n & Hn & -> & Hfree & Hbelow).
    exists n. split; [lia|]. split; [reflexivity|].
    split; [apply candidate_child|]. split; [exact Hfree|].
    intros k Hk. specialize (Hbelow k Hk).
    now rewrite candidate_child in Hbelow.
  - apply stem_suffix.
Qed.

Lemma get_unique_filename_spec_witness :
  ResourceManager.get_unique_filename ["2023"; "_resources"; "clip.mp4"] crowded
  = ["2023"; "_resources"; "clip.mp4"]
  /\ exists n,
       1 <= n
       /\ ResourceManager.get_unique_filename ["2023"; "_resources"; "photo.png"]
                                              crowded
          = ["2023"; "_resources"] ++ ["photo" +++ "_" +++ Str.of_nat n +++ ".png"]
       /\ Store.exists_ crowded
            (ResourceManager.get_unique_filename
               ["2023"; "_resources"; "photo.png"] crowded) = false.
Proof.
  split.
  - apply (proj1 (get_unique_filename_spec ["2023"; "_resources"; "clip.mp4"]
                                           crowded)).
    reflexivity.
  - destruct (proj1 (proj2 (get_unique_filename_spec
                              ["2023"; "_resources"; "photo.png"] crowded))
                    eq_refl)
      as (n & Hn & _ & Hq & Hfree & _).
    exists n. split; [exact Hn|]. split; [exact Hq | exact Hfree].
Defined.

Example third_candidate :
  ResourceManager.get_unique_filename ["2023"; "_resources"; "photo.png"] crowded
  = ["2023"; "_resources"; "photo_3.png"].
Proof. reflexivity. Qed.

End UniqueFacts.

(** ** Dictionaries *)

Module DictFacts.
Section DictFacts.
Context {K V : Type} (keq : K -> K -> bool).
Hypothesis keq_eq : forall a b, keq a b = true <-> a = b.

Lemma get_In (k : K) (d : Dict.t) (vs : list V) :
  Dict.get keq k d = Some vs -> In (k, vs) d.
Proof.
  induction d as [|[k' vs'] d IH]; simpl; [discriminate|].
  destruct (keq k' k) eqn:E.
  - apply keq_eq in E; subst k'. intros [= ->]; now left.
  - intros Hg; right; auto.
Qed.

Lemma keys_append (k : K) (v : V) (d : Dict.t) :
  forall x, In x (map fst (Dict.append keq k v d)) <-> x = k \/ In x (map fst d).
Proof.
  induction d as [|[k' vs'] d IH]; simpl; intros x.
  - intuition.
  - destruct (keq k' k) eqn:E; simpl.
    + apply keq_eq in E; subst k'. intuition.
    + rewrite IH. intuition.
Qed.

Lemma NoDup_append (k : K) (v : V) (d : Dict.t) :
  NoDup (map fst d) -> NoDup (map fst (Dict.append keq k v d)).
Proof.
  induction d as [|[k' vs'] d IH]; simpl; intros Hd.
  - constructor; [intros [] | constructor].
  - inversion Hd as [|? ? Hk Hd']; subst.
    destruct (keq k' k) eqn:E; simpl.
    + now constructor.
    + constructor; [|auto].
      rewrite keys_append. intros [->|Hin]; [|auto].
      assert (T : keq k k = true) by now apply keq_eq.
      congruence.
Qed.

Lemma In_unique (k : K) (v1 v2 : list V) (d : Dict.t) :
  NoDup (map fst d) -> In (k, v1) d -> In (k, v2) d -> v1 = v2.
Proof.
  induction d as [|[k' vs'] d IH]; simpl; [intros _ []|].
  intros Hd H1 H2. inversion Hd as [|? ? Hk Hd']; subst.
  destruct H1 as [E1|H1], H2 as [E2|H2].
  - congruence.
  - injection E1 as -> ->. elim Hk. apply in_map_iff. now exists (k, v2).
  - injection E2 as -> ->. elim Hk. apply in_map_iff. now exists (k, v1).
  - auto.
Qed.

(** After [d[k].append(v)] the list at [k] holds [v]. *)
Lemma get_append_same (k : K) (v : V) (d : Dict.t) :
  exists vs, Dict.get keq k (Dict.append keq k v d) = Some vs /\ In v vs.
Proof.
  assert (T : keq k k = true) by now apply keq_eq.
  induction d as [|[k' vs'] d IH]; simpl.
  - rewrite T. exists [v]; split; [reflexivity | now left].
  - destruct (keq k' k) eqn:E; simpl; rewrite E.
    + exists (vs' ++ [v]); split; [reflexivity|].
      apply in_or_app; right; now left.
    + exact IH.
Qed.

(** Appending anywhere keeps what a list held. *)
Lemma get_append_keeps (k k0 : K) (v v0 : V) (d : Dict.t) (vs : list V) :
  Dict.get keq k d = Some vs -> In v vs ->
  exists vs', Dict.get keq k (Dict.append keq k0 v0 d) = Some vs' /\ In v vs'.
Proof.
  induction d as [|[k' ws] d IH]; simpl; [discriminate|].
  destruct (keq k' k) eqn:E.
  - intros [= ->] Hv. destruct (keq k' k0) eqn:E0; simpl; rewrite E.
    + exists (vs ++ [v0]); split; [reflexivity | apply in_or_app; now left].
    + exists vs; auto.
  - intros Hg Hv. destruct (keq k' k0) eqn:E0; simpl; rewrite E.
    + exists vs; auto.
    + now apply IH.
Qed.

(** What the lists of [append k0 v0 d] hold was in [d] or is [v0]. *)
Lemma In_append_inv (k k0 : K) (v v0 : V) (d : Dict.t) (vs : list V) :
  In (k, vs) (Dict.append keq k0 v0 d) -> In v vs ->
  v = v0 \/ exists ws, In (k, ws) d /\ In v ws.
Proof.
  induction d as [|[k' ws] d IH]; simpl.
  - intros [[= <- <-]|[]] [<-|[]]; now left.
  - destruct (keq k' k0) eqn:E; simpl.
    + intros [[= <- <-]|Hin] Hv.
      * apply in_app_or in Hv as [Hv|[<-|[]]]; [right|now left].
        exists ws; auto.
      * right; exists vs; auto.
    + intros [[= <- <-]|Hin] Hv.
      * right; exists ws; auto.
      * destruct (IH Hin Hv) as [->|(ws' & H1 & H2)]; [now left|].
        right; exists ws'; auto.
Qed.

End DictFacts.
End DictFacts.

(** ** Conflicts, groups and the plan *)

Module PlanFacts.
Import ResourceAnalyzer ResourceOptimizer AncestorFacts Spec Vaults.

(** A loop that skips some elements is the loop over the others. *)
Lemma fold_left_skip {A B} (keep : B -> bool) (f : A -> B -> A)
      (l : list B) (a : A) :
  fold_left (fun a b => if keep b then f a b else a) l a
  = fold_left f (filter keep l) a.
Proof.
  revert a; induction l as [|b l IH]; intros a; simpl; [reflexivity|].
  destruct (keep b); simpl; apply IH.
Qed.

Lemma by_name_filter (references : list ResourceReference) :
  by_name references = by_name (filter Spec.real_hash references).
Proof.
  unfold by_name.
  rewrite (fold_left_skip Spec.real_hash
             (fun d ref => Dict.append String.eqb (resource_name ref) ref d)).
  rewrite (fold_left_skip Spec.real_hash
             (fun d ref => Dict.append String.eqb (resource_name ref) ref d)
             (filter Spec.real_hash references)).
  f_equal. induction references as [|r l IH]; simpl; [reflexivity|].
  destruct (Spec.real_hash r) eqn:E; simpl; rewrite ?E; congruence.
Qed.

Lemma by_name_values (Q : ResourceReference -> Prop)
      (l : list ResourceReference) :
  forall d0,
    (forall r, In r l -> Spec.real_hash r = true -> Q r) ->
    (forall name rs r, In (name, rs) d0 -> In r rs -> Q r) ->
    forall name rs r,
      In (name, rs) (fold_left name_step l d0) -> In r rs -> Q r.
Proof.
  induction l as [|x l IH]; intros d0 Hl H0 name rs r; simpl.
  - apply H0.
  - apply IH.
    + intros r' Hr'; apply Hl; now right.
    + intros name' rs' r'. unfold name_step.
      destruct (truthy (resource_hash x) && negb (is_conflict (resource_hash x)))
        eqn:E; [|apply H0].
      intros Hin Hr'.
      destruct (DictFacts.In_append_inv String.eqb _ _ _ _ _ _ Hin Hr')
        as [->|(ws & H1 & H2)].
      * apply Hl; [now left | exact E].
      * eapply H0; eauto.
Qed.

(** Phase 2 only ever lists references that have a digest. *)
Lemma detect_conflicts_values (references : list ResourceReference)
      (name : string) (rs : list ResourceReference) (r : ResourceReference) :
  In (name, rs) (detect_conflicts references) -> In r rs ->
  In r references /\ Spec.real_hash r = true.
Proof.
  unfold detect_conflicts. intros Hin Hr.
  apply filter_In in Hin as [Hin _].
  revert Hin Hr.
  apply (by_name_values (fun r => In r references /\ Spec.real_hash r = true)
           references []); [auto | intros ? ? ? []].
Qed.

Lemma group_keeps (l : list ResourceReference) :
  forall d0 p v vs,
    Dict.get PurePath.eqb p d0 = Some vs -> In v vs ->
    exists vs', Dict.get PurePath.eqb p (fold_left group_step l d0) = Some vs'
                /\ In v vs'.
Proof.
  induction l as [|x l IH]; intros d0 p v vs Hg Hv; simpl; [eauto|].
  unfold group_step at 2.
  destruct (resource_actual_path x) as [q|]; [|eauto].
  destruct (is_conflict (resource_hash x)); [eauto|].
  destruct (DictFacts.get_append_keeps PurePath.eqb p q v (md_file_path x)
                                       d0 vs Hg Hv) as (vs' & Hg' & Hv').
  eauto.
Qed.

Lemma group_has (l : list ResourceReference) :
  forall d0 r p,
    In r l -> resource_actual_path r = Some p ->
    is_conflict (resource_hash r) = false ->
    exists mds, Dict.get PurePath.eqb p (fold_left group_step l d0) = Some mds
                /\ In (md_file_path r) mds.
Proof.
  induction l as [|x l IH]; intros d0 r p [].
  - subst x. intros Hp Hc. simpl. unfold group_step at 2. rewrite Hp, Hc.
    destruct (DictFacts.get_append_same PurePath.eqb path_eqb_eq
                                        p (md_file_path r) d0) as (vs & Hg & Hv).
    eapply group_keeps; eauto.
  - intros Hp Hc. simpl. eapply IH; eauto.
Qed.

Lemma group_keys_NoDup (l : list ResourceReference) :
  forall d0, NoDup (map fst d0) -> NoDup (map fst (fold_left group_step l d0)).
Proof.
  induction l as [|x l IH]; intros d0 Hd; simpl; [assumption|].
  apply IH. unfold group_step.
  destruct (resource_actual_path x) as [q|]; [|assumption].
  destruct (is_conflict (resource_hash x)); [assumption|].
  now apply DictFacts.NoDup_append; [apply path_eqb_eq|].
Qed.

Lemma group_by_resource_keys (references : list ResourceReference) :
  NoDup (map fst (group_by_resource references)).
Proof. apply (group_keys_NoDup references []). constructor. Qed.

(** The queue after the Phase 3 loop: what was queued before, and every
    group that is neither in conflict nor where it should be. *)
Lemma plan_moves (base_path : path) (conflicting : list path)
      (groups : list (path * list path)) :
  forall moves0 st0 src tgt mds,
    In (src, tgt, mds)
       (fst (fold_left (plan_step base_path conflicting) groups (moves0, st0)))
    <-> In (src, tgt, mds) moves0
        \/ (In (src, mds) groups /\ mem_path src conflicting = false
            /\ tgt = optimal_location base_path src mds /\ src <> tgt).
Proof.
  induction groups as [|[p ms] groups IH]; intros moves0 st0 src tgt mds; simpl.
  - intuition.
  - destruct (mem_path p conflicting) eqn:C.
    + rewrite IH. split.
      * intros [?|(?&?&?&?)]; [now left | right; auto].
      * intros [?|([[= -> ->]|?]&?&?&?)]; [now left | congruence | right; auto].
    + destruct (PurePath.eqb p (optimal_location base_path p ms)) eqn:E.
      * rewrite IH. apply path_eqb_eq in E. split.
        -- intros [?|(?&?&?&?)]; [now left | right; auto].
        -- intros [?|([[= -> ->]|?]&?&?&?)]; [now left | congruence | right; auto].
      * rewrite IH. apply path_eqb_neq in E. split.
        -- intros [Hin|(?&?&?&?)]; [|right; auto].
           apply in_app_or in Hin as [?|[[= <- <- <-]|[]]]; [now left|].
           right; auto.
        -- intros [?|([[= -> ->]|?]&?&?&?)].
           ++ left; apply in_or_app; now left.
           ++ left; apply in_or_app; right; left; congruence.
           ++ right; auto.
Qed.

Lemma plan_counts (base_path : path) (conflicting : list path)
      (groups : list (path * list path)) :
  forall moves0 st0,
    skipped_optimal st0
    <= skipped_optimal
         (snd (fold_left (plan_step base_path conflicting) groups (moves0, st0)))
    /\ forall p mds,
         In (p, mds) groups -> mem_path p conflicting = false ->
         p = optimal_location base_path p mds ->
         S (skipped_optimal st0)
         <= skipped_optimal
              (snd (fold_left (plan_step base_path conflicting) groups
                              (moves0, st0))).
Proof.
  induction groups as [|[q ms] groups IH]; intros moves0 st0; simpl.
  - split; [lia | intros ? ? []].
  - destruct (mem_path q conflicting) eqn:C.
    + destruct (IH moves0 {| moved := moved st0;
                             skipped_conflict := S (skipped_conflict st0);
                             skipped_optimal := skipped_optimal st0;
                             errors := errors st0 |}) as [M1 M2].
      simpl in *. split; [exact M1|].
      intros p mds [[= -> ->]|Hin] Hc Ho; [congruence | eauto].
    + destruct (PurePath.eqb q (optimal_location base_path q ms)) eqn:E.
      * destruct (IH moves0 {| moved := moved st0;
                               skipped_conflict := skipped_conflict st0;
                               skipped_optimal := S (skipped_optimal st0);
                               errors := errors st0 |}) as [M1 M2].
        simpl in *. split; [lia|].
        intros p mds [[= -> ->]|Hin] Hc Ho; [lia|].
        specialize (M2 p mds Hin Hc Ho). lia.
      * destruct (IH (moves0 ++ [(q, optimal_location base_path q ms, ms)]) st0)
          as [M1 M2].
        split; [exact M1|].
        intros p mds [[= -> ->]|Hin] Hc Ho; [|eauto].
        apply path_eqb_neq in E. congruence.
Qed.

(** C10. A reference with a path and no digest: Phase 2 works as if it
    were not there and lists it in no conflict; Phase 3 groups its note
    under its path, and unless that path is in the conflict set or
    already optimal the resource is queued for a move. *)
Theorem unhashed_reference_is_grouped
        (references : list ResourceReference) (r : ResourceReference) (p : path) :
  In r references ->
  resource_actual_path r = Some p ->
  resource_hash r = None ->
  detect_conflicts references
  = detect_conflicts (filter Spec.real_hash references)
  /\ ~ In r (filter Spec.real_hash references)
  /\ (forall name rs, In (name, rs) (detect_conflicts references) -> ~ In r rs)
  /\ exists mds,
       Dict.get PurePath.eqb p (group_by_resource references) = Some mds
       /\ In (md_file_path r) mds
       /\ forall base_path,
            mem_path p (conflict_paths (detect_conflicts references)) = false ->
            p <> optimal_location base_path p mds ->
            In (p, optimal_location base_path p mds, mds)
               (fst (plan base_path references)).
Proof.
  intros Hr Hp Hh.
  assert (Hreal : Spec.real_hash r = false) by (unfold Spec.real_hash; now rewrite Hh).
  split; [unfold detect_conflicts; now rewrite <- by_name_filter|].
  split; [rewrite filter_In; intros [_ E]; congruence|].
  split.
  - intros name rs Hin Hrs.
    destruct (detect_conflicts_values _ _ _ _ Hin Hrs) as [_ E]. congruence.
  - destruct (group_has references [] r p Hr Hp) as (mds & Hg & Hmd);
      [now rewrite Hh|].
    exists mds. split; [exact Hg|]. split; [exact Hmd|].
    intros base_path Hc Ho. unfold plan. apply plan_moves. right.
    split; [|auto].
    eapply DictFacts.get_In; [apply path_eqb_eq | exact Hg].
Qed.

End PlanFacts.

(** ** The sample digest *)

Module SampleFacts.
Import StrFacts.

Lemma digest_length (b : string) : String.length (Sample.digest b) = 64.
Proof.
  unfold Sample.digest. rewrite length_take, length_append.
  change (String.length Sample.zeros) with 64. lia.
Qed.

#[export] Instance sample_hashlib : Hashlib :=
  {| hexdigest := Sample.digest; hexdigest_length := digest_length |}.

End SampleFacts.
Export SampleFacts.

(** ** Running the computations *)

Module PyFacts.
Import Py Spec Vaults.

Lemma returns_only_ret {A} (x : A) : returns_only (ret x) x.
Proof. intros t a t' [= <- _]; reflexivity. Qed.

Lemma returns_only_bind {A B} (m : M A) (k : A -> M B) (x : B) :
  (forall a, returns_only (k a) x) -> returns_only (bind m k) x.
Proof.
  intros Hk t b t'. unfold bind.
  destruct (m t) as [[a|e] t1]; [apply Hk | discriminate].
Qed.

(** A guarded block that can only return [x] returns [x] or what the
    handler returns. *)
Lemma try_except_results {A} (m : M A) (x e : A) (t t' : Store.node) (a : A) :
  returns_only m x ->
  try_except m (on_oserror (ret e)) t = (Ok a, t') ->
  a = x \/ a = e.
Proof.
  intros Hm. unfold try_except.
  destruct (m t) as [[b|[]] t1] eqn:E; simpl.
  - intros [= <- <-]. left. eapply Hm; eauto.
  - intros [= <- <-]. now right.
  - discriminate.
  - discriminate.
Qed.

End PyFacts.

(** ** Dry runs and moves that are not needed *)

Module RunFacts.
Import ResourceAnalyzer ResourceOptimizer AncestorFacts PlanFacts PyFacts.
Import Spec Vaults.

Lemma _move_resource_dry (source target : path) (md_files : list path)
      (t : Store.node) :
  _move_resource false source target md_files t = (Py.Ok true, t).
Proof. reflexivity. Qed.

Lemma run_moves_dry (moves : list move) :
  forall st t,
    run_moves false moves st t = (Py.Ok (add_moved (length moves) st), t).
Proof.
  induction moves as [|[[src tgt] mds] moves IH]; intros st t.
  - simpl. unfold Py.ret, add_moved. now destruct st.
  - change (run_moves false ((src, tgt, mds) :: moves) st t)
      with (run_moves false moves
              {| moved := S (moved st); skipped_conflict := skipped_conflict st;
                 skipped_optimal := skipped_optimal st; errors := errors st |} t).
    rewrite IH. unfold add_moved; simpl. do 3 f_equal. lia.
Qed.

Lemma run_moves_counts (execute : bool) (moves : list move) :
  forall st t st' t',
    run_moves execute moves st t = (Py.Ok st', t') ->
    moved st' + errors st' = moved st + errors st + length moves
    /\ skipped_conflict st' = skipped_conflict st
    /\ skipped_optimal st' = skipped_optimal st.
Proof.
  induction moves as [|[[src tgt] mds] moves IH]; intros st t st' t'; simpl.
  - intros [= <- _]. repeat split; lia.
  - unfold Py.bind at 1.
    destruct (_move_resource execute src tgt mds t) as [[[]|e] t1];
      [| |discriminate]; intros Hrun;
      destruct (IH _ _ _ _ Hrun) as (C1 & C2 & C3); simpl in *;
      repeat split; lia.
Qed.

(** Phase 3 counts no move and no error. *)
Lemma plan_step_zero (base_path : path) (conflicting : list path)
      (groups : list (path * list path)) :
  forall moves0 st0,
    moved (snd (fold_left (plan_step base_path conflicting) groups (moves0, st0)))
    = moved st0
    /\ errors (snd (fold_left (plan_step base_path conflicting) groups
                              (moves0, st0)))
       = errors st0.
Proof.
  induction groups as [|[q ms] groups IH]; intros moves0 st0; simpl; [auto|].
  destruct (mem_path q conflicting); [|destruct (PurePath.eqb q _)];
    match goal with
    | |- context [fold_left _ _ (?m, ?s)] =>
        destruct (IH m s) as [A B]; split; [exact A | exact B]
    end.
Qed.

Lemma plan_stats_zero (base_path : path) (references : list ResourceReference) :
  moved (snd (plan base_path references)) = 0
  /\ errors (snd (plan base_path references)) = 0.
Proof. unfold plan. apply plan_step_zero. Qed.

Section WithHashlib.
Context {H : Hashlib}.

Lemma optimize_resources_unfold (execute : bool) (base_path : path)
      (t : Store.node) (references : list ResourceReference) :
  build_reference_array base_path t = Py.Ok references ->
  optimize_resources execute base_path t
  = match run_moves execute (fst (plan base_path references))
                    (snd (plan base_path references)) t with
    | (Py.Ok st', t') => (Py.Ok (fst (plan base_path references), st'), t')
    | (Py.Raise e, t') => (Py.Raise e, t')
    end.
Proof.
  intros B. unfold optimize_resources. rewrite B.
  destruct (plan base_path references) as [moves st]; reflexivity.
Qed.

(** The part of C5 the code provides. A group that is not in conflict
    and whose resource is where the ancestor of its notes, [_resources]
    and its name put it: its round of the Phase 3 loop queues nothing
    and counts one more skipped-already-optimal; the queue of the run
    holds no move of that resource; and a run whose queue is empty, in
    either mode, leaves every file and note as it was. *)
Theorem optimal_resource_is_skipped
        (base_path : path) (references : list ResourceReference)
        (p : path) (mds : list path) :
  In (p, mds) (group_by_resource references) ->
  mem_path p (conflict_paths (detect_conflicts references)) = false ->
  p = optimal_location base_path p mds ->
  (forall moves st,
      plan_step base_path (conflict_paths (detect_conflicts references))
                (moves, st) (p, mds)
      = (moves, skip_optimal st))
  /\ (forall tgt mds', ~ In (p, tgt, mds') (fst (plan base_path references)))
  /\ 1 <= skipped_optimal (snd (plan base_path references))
  /\ (forall execute t,
        build_reference_array base_path t = Py.Ok references ->
        fst (plan base_path references) = [] ->
        optimize_resources execute base_path t
        = (Py.Ok ([], snd (plan base_path references)), t)).
Proof.
  intros Hin Hc Ho. split; [|split; [|split]].
  - intros moves st. unfold plan_step. rewrite Hc.
    rewrite <- Ho, path_eqb_refl. reflexivity.
  - intros tgt mds' Hq. unfold plan in Hq.
    apply plan_moves in Hq as [[]|(Hin' & _ & -> & Hne)].
    assert (mds' = mds).
    { eapply DictFacts.In_unique; eauto. apply group_by_resource_keys. }
    subst mds'. congruence.
  - unfold plan.
    destruct (plan_counts base_path (conflict_paths (detect_conflicts references))
                          (group_by_resource references) [] no_stats) as [_ M].
    specialize (M p mds Hin Hc Ho). simpl in M. exact M.
  - intros execute t B E.
    rewrite (optimize_resources_unfold _ _ _ _ B), E. reflexivity.
Qed.

(** A dry run of [move_resource_file] changes nothing and answers like
    the run for real, unless that one fails. *)
Lemma move_resource_file_dry
      (source_resource target_resource md_file : path) (resource_name : string)
      (t : Store.node) :
  exists r,
    ResourceManager.move_resource_file
      false source_resource target_resource md_file resource_name t
    = (Py.Ok r, t)
    /\ forall r' t',
         ResourceManager.move_resource_file
           true source_resource target_resource md_file resource_name t
         = (Py.Ok r', t') ->
         r' = r \/ r' = (false, None, "error").
Proof.
  unfold ResourceManager.move_resource_file.
  destruct (Store.exists_ t source_resource); simpl negb; cbv iota;
    [|eexists; split; [reflexivity|]; intros r' t' [= <- _]; now left].
  destruct (Store.exists_ t target_resource).
  - destruct (FileHasher.files_are_identical t source_resource target_resource).
    + eexists; split; [reflexivity|]. intros r' t' [= <- _]; now left.
    + eexists; split; [reflexivity|]. intros r' t'.
      apply try_except_results.
      repeat (apply returns_only_bind; intros ?). apply returns_only_ret.
  - eexists; split; [reflexivity|]. intros r' t'.
    apply try_except_results.
    repeat (apply returns_only_bind; intros ?). apply returns_only_ret.
Qed.

Lemma move_each_dry (md_file : path) (resource_links : list string)
      (resources_path year_dir : path) :
  forall st t,
    exists st',
      ResourceManager.move_each false md_file resource_links resources_path
                                year_dir st t
      = (Py.Ok st', t).
Proof.
  induction resource_links as [|link links IH]; intros st t.
  - exists st. reflexivity.
  - cbn [ResourceManager.move_each]. unfold Py.bind.
    match goal with
    | |- context [ResourceManager.move_resource_file false ?a ?b ?c ?d t] =>
        destruct (move_resource_file_dry a b c d t) as (r & -> & _)
    end.
    apply IH.
Qed.

(** C1. In a dry run nothing is renamed, created or written:
    [_move_resource] and [move_resource_file] return with the file
    system they were given, and so do [move_resources_for_markdown] and
    [optimize_resources]. What the dry run reports is what the run for
    real decides on the same file system: the same status and new name
    from [move_resource_file] unless the real move fails, the same queue
    of moves (resource, target, notes to update) from
    [optimize_resources], and the same failure when the notes cannot be
    scanned. *)
Theorem dry_run_changes_nothing :
  (forall source target md_files t,
      _move_resource false source target md_files t = (Py.Ok true, t))
  /\ (forall source_resource target_resource md_file resource_name t,
        exists r,
          ResourceManager.move_resource_file
            false source_resource target_resource md_file resource_name t
          = (Py.Ok r, t)
          /\ forall r' t',
               ResourceManager.move_resource_file
                 true source_resource target_resource md_file resource_name t
               = (Py.Ok r', t') ->
               r' = r \/ r' = (false, None, "error"))
  /\ (forall md_file resource_links resources_path year_dir t,
        snd (ResourceManager.move_resources_for_markdown
               false md_file resource_links resources_path year_dir t) = t)
  /\ (forall base_path t, snd (optimize_resources false base_path t) = t)
  /\ (forall base_path t references,
        build_reference_array base_path t = Py.Ok references ->
        optimize_resources false base_path t
        = (Py.Ok (fst (plan base_path references),
                  add_moved (length (fst (plan base_path references)))
                            (snd (plan base_path references))), t)
        /\ forall moves st t',
             optimize_resources true base_path t = (Py.Ok (moves, st), t') ->
             moves = fst (plan base_path references)
             /\ moved st + errors st = length moves
             /\ skipped_conflict st
                = skipped_conflict (snd (plan base_path references))
             /\ skipped_optimal st
                = skipped_optimal (snd (plan base_path references)))
  /\ (forall base_path t e execute,
        build_reference_array base_path t = Py.Raise e ->
        optimize_resources execute base_path t = (Py.Raise e, t)).
Proof.
  split; [exact _move_resource_dry|].
  split; [exact move_resource_file_dry|].
  split.
  { intros md_file links rp yd t. unfold ResourceManager.move_resources_for_markdown.
    destruct (move_each_dry md_file links rp yd
                {| ResourceManager.moved := 0; ResourceManager.renamed := 0;
                   ResourceManager.missing := 0; ResourceManager.errors := 0 |} t)
      as [st' ->].
    reflexivity. }
  assert (Ok_case : forall base_path t references,
        build_reference_array base_path t = Py.Ok references ->
        optimize_resources false base_path t
        = (Py.Ok (fst (plan base_path references),
                  add_moved (length (fst (plan base_path references)))
                            (snd (plan base_path references))), t)).
  { intros base_path t references B.
    now rewrite (optimize_resources_unfold _ _ _ _ B), run_moves_dry. }
  assert (Raise_case : forall base_path t e execute,
        build_reference_array base_path t = Py.Raise e ->
        optimize_resources execute base_path t = (Py.Raise e, t)).
  { intros base_path t e execute B. unfold optimize_resources. now rewrite B. }
  split; [|split; [|exact Raise_case]].
  - intros base_path t.
    destruct (build_reference_array base_path t) as [references|e] eqn:B.
    + now rewrite (Ok_case _ _ _ B).
    + now rewrite (Raise_case _ _ _ false B).
  - intros base_path t references B. split; [now apply Ok_case|].
    intros moves st t'. rewrite (optimize_resources_unfold _ _ _ _ B).
    destruct (run_moves true _ _ t) as [[st'|e] t1] eqn:R; [|discriminate].
    intros [= <- <- <-].
    destruct (run_moves_counts _ _ _ _ _ _ R) as (C1 & C2 & C3).
    split; [reflexivity|]. split; [|split; assumption].
    rewrite C1. destruct (plan_stats_zero base_path references) as [-> ->].
    reflexivity.
Qed.

End WithHashlib.

Lemma optimal_resource_is_skipped_witness :
  1 <= skipped_optimal (snd (plan vault_root [settled_reference]))
  /\ optimize_resources true vault_root
       (Store.Dir
          [("/", Store.Dir
            [("v", Store.Dir
              [("c", Store.Dir
                 [("n3.md", Store.File (Store.Utf8 "![[_resources/r.png]]"));
                  ("_resources",
                   Store.Dir [("r.png", Store.File (Store.Binary "RRR"))])])])])])
     = (Py.Ok ([], snd (plan vault_root [settled_reference])),
        Store.Dir
          [("/", Store.Dir
            [("v", Store.Dir
              [("c", Store.Dir
                 [("n3.md", Store.File (Store.Utf8 "![[_resources/r.png]]"));
                  ("_resources",
                   Store.Dir [("r.png", Store.File (Store.Binary "RRR"))])])])])]).
Proof.
  pose proof (optimal_resource_is_skipped
                vault_root [settled_reference]
                ["/"; "v"; "c"; "_resources"; "r.png"]
                [["/"; "v"; "c"; "n3.md"]]
                (or_introl eq_refl) eq_refl eq_refl) as (_ & _ & Hcount & Hrun).
  split; [exact Hcount|].
  apply Hrun; reflexivity.
Defined.

Lemma dry_run_changes_nothing_witness :
  snd (optimize_resources false vault_root vault) = vault
  /\ fst (optimize_resources false vault_root vault)
     = Py.Ok
         ([(["/"; "v"; "a"; "_resources"; "p.png"],
            ["/"; "v"; "_resources"; "p.png"],
            [["/"; "v"; "a"; "n1.md"]; ["/"; "v"; "b"; "n2.md"]]);
           (["/"; "v"; "_resources"; "q.png"],
            ["/"; "v"; "a"; "_resources"; "q.png"],
            [["/"; "v"; "a"; "n1.md"]])],
          {| moved := 2; skipped_conflict := 0; skipped_optimal := 1;
             errors := 0 |}).
Proof.
  destruct (@dry_run_changes_nothing sample_hashlib)
    as (_ & _ & _ & Hstate & Hplan & _).
  split; [apply Hstate|].
  destruct (Hplan vault_root vault _ eq_refl) as [-> _]. reflexivity.
Defined.

(** The same vault, run for real: both resources move and the counters
    agree with the dry run. *)
Example vault_for_real :
  fst (optimize_resources true vault_root vault)
  = Py.Ok
      ([(["/"; "v"; "a"; "_resources"; "p.png"],
         ["/"; "v"; "_resources"; "p.png"],
         [["/"; "v"; "a"; "n1.md"]; ["/"; "v"; "b"; "n2.md"]]);
        (["/"; "v"; "_resources"; "q.png"],
         ["/"; "v"; "a"; "_resources"; "q.png"],
         [["/"; "v"; "a"; "n1.md"]])],
       {| moved := 2; skipped_conflict := 0; skipped_optimal := 1;
          errors := 0 |})
  /\ Store.is_file (snd (optimize_resources true vault_root vault))
                   ["/"; "v"; "_resources"; "p.png"] = true
  /\ Store.exists_ (snd (optimize_resources true vault_root vault))
                   ["/"; "v"; "a"; "_resources"; "p.png"] = false.
Proof. repeat split. Qed.

(** C5, where the code fails it. [r.png] is in a group that is not in
    conflict and is where it should be: it is counted as already
    optimal and not moved. The note that uses it also uses [p.png],
    which is moved next to the note, and the pattern that rewrites the
    link of [p.png], [(!\[\[)(?:.*?/)?p\.png(...)], starts at the link
    of [r.png] and runs to the name [p.png]: the note of the resource
    that was skipped is rewritten and its link to [r.png] is gone. *)
Theorem optimal_resource_link_is_lost :
  build_reference_array vault_root crossed = Py.Ok crossed_references
  /\ In (["/"; "v"; "c"; "_resources"; "r.png"], [["/"; "v"; "c"; "n3.md"]])
        (group_by_resource crossed_references)
  /\ mem_path ["/"; "v"; "c"; "_resources"; "r.png"]
              (conflict_paths (detect_conflicts crossed_references)) = false
  /\ optimal_location vault_root ["/"; "v"; "c"; "_resources"; "r.png"]
                      [["/"; "v"; "c"; "n3.md"]]
     = ["/"; "v"; "c"; "_resources"; "r.png"]
  /\ optimize_resources true vault_root crossed
     = (Py.Ok
          ([(["/"; "v"; "_resources"; "p.png"],
             ["/"; "v"; "c"; "_resources"; "p.png"],
             [["/"; "v"; "c"; "n3.md"]])],
           {| moved := 1; skipped_conflict := 0; skipped_optimal := 1;
              errors := 0 |}),
        crossed_after)
  /\ MarkdownParser.extract_resource_links ["/"; "v"; "c"; "n3.md"] crossed
     = ["_resources/r.png"; "_resources/p.png"]
  /\ Py.read_text ["/"; "v"; "c"; "n3.md"] crossed_after
     = (Py.Ok "![[_resources/p.png]]", crossed_after)
  /\ MarkdownParser.extract_resource_links ["/"; "v"; "c"; "n3.md"]
                                           crossed_after
     = ["_resources/p.png"]
  /\ Store.is_file crossed_after ["/"; "v"; "c"; "_resources"; "r.png"] = true.
Proof.
  split; [reflexivity|]. split; [left; reflexivity|].
  repeat split.
Qed.

Lemma unhashed_reference_is_grouped_witness :
  (forall name rs, In (name, rs) (detect_conflicts [unhashed_reference]) ->
                   ~ In unhashed_reference rs)
  /\ exists mds,
       Dict.get PurePath.eqb ["/"; "v"; "_resources"; "locked.png"]
                (group_by_resource [unhashed_reference]) = Some mds
       /\ In ["/"; "v"; "a"; "n1.md"] mds.
Proof.
  destruct (unhashed_reference_is_grouped
              [unhashed_reference] unhashed_reference
              ["/"; "v"; "_resources"; "locked.png"]
              (or_introl eq_refl) eq_refl eq_refl)
    as (_ & _ & Hnone & mds & Hget & Hmd & _).
  split; [exact Hnone|]. exists mds. split; [exact Hget | exact Hmd].
Defined.

(** A resource that cannot be read is found with a path and no digest,
    and is queued for a move all the same. *)
Example locked_resource_is_planned :
  let locked :=
    Store.Dir
      [("/",
        Store.Dir
          [("v",
            Store.Dir
              [("a",
                Store.Dir
                  [("n1.md",
                    Store.File (Store.Utf8 "![[_resources/locked.png]]"))]);
               ("_resources",
                Store.Dir [("locked.png", Store.File Store.Unreadable)])])])] in
  build_reference_array vault_root locked = Py.Ok [unhashed_reference]
  /\ fst (plan vault_root [unhashed_reference])
     = [(["/"; "v"; "_resources"; "locked.png"],
         ["/"; "v"; "a"; "_resources"; "locked.png"],
         [["/"; "v"; "a"; "n1.md"]])].
Proof. split; reflexivity. Qed.

End RunFacts.

(** ** The statuses of the resource manager *)

Module StatusFacts.
Import PyFacts Spec Vaults.

Section WithHashlib.
Context {H : Hashlib}.

Lemma well_formed_results :
  well_formed (true, None, "missing")
  /\ well_formed (true, None, "identical")
  /\ well_formed (true, None, "moved")
  /\ well_formed (false, None, "error")
  /\ forall n, well_formed (true, Some n, "renamed").
Proof.
  unfold well_formed, Spec.known_status; simpl.
  repeat split; intros; try discriminate; try congruence; auto 6.
Qed.

(** X24. Whenever the method of the package returns, the status is one
    of the five and the flag is [True] exactly when it is not
    ['error']. *)
Lemma move_resource_file_returns
      (execute : bool) (source_resource target_resource md_file : path)
      (resource_name : string) (t t' : Store.node) (r : ResourceManager.result) :
  ResourceManager.move_resource_file
    execute source_resource target_resource md_file resource_name t
  = (Py.Ok r, t') ->
  well_formed r.
Proof.
  destruct well_formed_results as (Wm & Wi & Wv & We & Wr).
  unfold ResourceManager.move_resource_file.
  destruct (Store.exists_ t source_resource); simpl negb; cbv iota;
    [|now intros [= <- _]].
  destruct (Store.exists_ t target_resource).
  - destruct (FileHasher.files_are_identical t source_resource target_resource);
      [now intros [= <- _]|].
    destruct execute; [|intros [= <- _]; apply Wr].
    intros Hr. apply try_except_results with (x := (true, Some (PurePath.name
      (ResourceManager.get_unique_filename target_resource t)), "renamed"))
      in Hr as [->| ->]; [apply Wr | exact We |].
    repeat (apply returns_only_bind; intros ?). apply returns_only_ret.
  - destruct execute; [|now intros [= <- _]].
    intros Hr. apply try_except_results with (x := (true, None, "moved"))
      in Hr as [->| ->]; [exact Wv | exact We |].
    repeat (apply returns_only_bind; intros ?). apply returns_only_ret.
Qed.

(** The same for the function of the script. *)
Lemma script_move_resource_file_returns
      (execute : bool) (source_resource target_resource md_file : path)
      (resource_name : string) (t t' : Store.node) (r : ResourceManager.result) :
  SortMdByYear.move_resource_file
    source_resource target_resource md_file resource_name execute t
  = (Py.Ok r, t') ->
  well_formed r.
Proof.
  destruct well_formed_results as (Wm & Wi & Wv & We & Wr).
  unfold SortMdByYear.move_resource_file.
  destruct (Store.exists_ t source_resource); simpl negb; cbv iota;
    [|now intros [= <- _]].
  destruct (Store.exists_ t target_resource).
  - match goal with
    | |- context [if ?c then _ else _] => destruct c
    end; [now intros [= <- _]|].
    destruct execute; [|intros [= <- _]; apply Wr].
    intros Hr. apply try_except_results with (x := (true, Some (PurePath.name
      (ResourceManager.get_unique_filename target_resource t)), "renamed"))
      in Hr as [->| ->]; [apply Wr | exact We |].
    repeat (apply returns_only_bind; intros ?). apply returns_only_ret.
  - destruct execute; [|now intros [= <- _]].
    intros Hr. apply try_except_results with (x := (true, None, "moved"))
      in Hr as [->| ->]; [exact Wv | exact We |].
    repeat (apply returns_only_bind; intros ?). apply returns_only_ret.
Qed.

(** A missing source and an identical target are answered without
    touching anything. *)
Lemma move_resource_file_missing
      (execute : bool) (source_resource target_resource md_file : path)
      (resource_name : string) (t : Store.node) :
  Store.exists_ t source_resource = false ->
  ResourceManager.move_resource_file
    execute source_resource target_resource md_file resource_name t
  = (Py.Ok (true, None, "missing"), t).
Proof.
  intros E. unfold ResourceManager.move_resource_file. now rewrite E.
Qed.

Lemma move_resource_file_identical
      (execute : bool) (source_resource target_resource md_file : path)
      (resource_name : string) (t : Store.node) :
  Store.exists_ t source_resource = true ->
  Store.exists_ t target_resource = true ->
  FileHasher.files_are_identical t source_resource target_resource = true ->
  ResourceManager.move_resource_file
    execute source_resource target_resource md_file resource_name t
  = (Py.Ok (true, None, "identical"), t).
Proof.
  intros E1 E2 E3. unfold ResourceManager.move_resource_file.
  now rewrite E1, E2, E3.
Qed.

End WithHashlib.

Lemma move_resource_file_returns_witness :
  well_formed (true, Some "5_1.png", "renamed").
Proof.
  exact (move_resource_file_returns
           (H := SampleFacts.sample_hashlib) false
           ["/"; "v"; "_resources"; "5.png"]
           ["/"; "v"; "2023"; "_resources"; "5.png"] ["/"; "v"; "n.md"]
           "5.png" clash clash (true, Some "5_1.png", "renamed") eq_refl).
Defined.

(** C9, where the code fails it. Moving [5.png] for real onto different
    content renames it to [5_1.png] and then rewrites the note with the
    template [\1] + [5_1.png] + [\2]: [\15] names a group the pattern
    does not have, [re.sub] raises [re.error], which is not an
    [OSError], and the method returns no status at all. The script does
    the same. *)
Theorem move_resource_file_raises :
  Re.parse_template 2 ("\1" +++ "5_1.png" +++ "\2") = None
  /\ ResourceManager.move_resource_file
       true ["/"; "v"; "_resources"; "5.png"]
       ["/"; "v"; "2023"; "_resources"; "5.png"] ["/"; "v"; "n.md"] "5.png" clash
     = (Py.Raise Py.ReError, clash_after_rename)
  /\ SortMdByYear.move_resource_file
       ["/"; "v"; "_resources"; "5.png"]
       ["/"; "v"; "2023"; "_resources"; "5.png"] ["/"; "v"; "n.md"] "5.png"
       true clash
     = (Py.Raise Py.ReError, clash_after_rename)
  /\ ResourceManager.move_resource_file
       false ["/"; "v"; "_resources"; "5.png"]
       ["/"; "v"; "2023"; "_resources"; "5.png"] ["/"; "v"; "n.md"] "5.png" clash
     = (Py.Ok (true, Some "5_1.png", "renamed"), clash).
Proof. repeat split. Qed.

End StatusFacts.

(** ** Candidates of one name *)

Module CandidateFacts.
Import ResourceAnalyzer Spec Vaults.

Lemma count_distinct_same (h : string) (l : list string) :
  l <> [] -> (forall x, In x l -> x = h) -> count_distinct l = 1.
Proof.
  unfold count_distinct. induction l as [|x l IH]; [congruence|].
  intros _ Hall. simpl.
  assert (x = h) by (apply Hall; now left); subst x.
  destruct (in_dec string_dec h l) as [Hin|Hout].
  - apply IH; [intros ->; destruct Hin | intros y Hy; apply Hall; now right].
  - destruct l as [|y l]; [reflexivity|].
    elim Hout. left. apply Hall. right; now left.
Qed.

Lemma count_distinct_two (a b : string) (l : list string) :
  In a l -> In b l -> a <> b -> 2 <= count_distinct l.
Proof.
  intros Ha Hb Hab. unfold count_distinct.
  change 2 with (length [a; b]).
  apply NoDup_incl_length.
  - constructor; [intros [E|[]]; congruence|].
    constructor; [intros [] | constructor].
  - intros x [<-|[<-|[]]]; now apply nodup_In.
Qed.

Lemma In_somes {A} (a : A) (l : list (option A)) :
  In a (somes l) <-> In (Some a) l.
Proof.
  induction l as [|[x|] l IH]; simpl; [tauto| |].
  - rewrite IH. split; intros [E|Hin]; auto; left; congruence.
  - rewrite IH. split; [auto | intros [E|Hin]; [discriminate | auto]].
Qed.

Section WithHashlib.
Context {H : Hashlib}.

(** The flag is not a digest. *)
Lemma conflict_is_no_digest (b : string) : hexdigest b <> CONFLICT.
Proof.
  intros E. apply (f_equal String.length) in E.
  rewrite hexdigest_length in E. discriminate.
Qed.

Lemma digest_is_real (b : string) :
  truthy (Some (hexdigest b)) = true /\ is_conflict (Some (hexdigest b)) = false.
Proof.
  split; simpl.
  - destruct (String.eqb (hexdigest b) "") eqn:E; [|reflexivity].
    apply String.eqb_eq in E. apply (f_equal String.length) in E.
    rewrite hexdigest_length in E. discriminate.
  - apply String.eqb_neq, conflict_is_no_digest.
Qed.

(** X26. Two candidates or more, the first of which has the digest all
    the readable ones share: the reference is the first path with that
    digest. *)
Lemma reference_for_shared (base_path : path) (t : Store.node) (md_file : path)
      (resource_link : string) (first second : path) (rest : list path)
      (h : string) :
  ResourceLocator.find_resource
    (PurePath.name (PurePath.of_string resource_link)) base_path t
  = first :: second :: rest ->
  FileHasher.compute_hash t first = Some h ->
  (forall p h', In p (first :: second :: rest) ->
                FileHasher.compute_hash t p = Some h' -> h' = h) ->
  reference_for base_path t md_file resource_link
  = {| md_file_path := md_file;
       resource_name := PurePath.name (PurePath.of_string resource_link);
       resource_actual_path := Some first;
       resource_hash := Some h |}.
Proof.
  intros Hfound Hfirst Hall. unfold reference_for. rewrite Hfound.
  assert (C : count_distinct
                (somes (map (FileHasher.compute_hash t) (first :: second :: rest)))
              = 1).
  { apply (count_distinct_same h).
    - simpl. rewrite Hfirst. discriminate.
    - intros x Hx. apply In_somes, in_map_iff in Hx as (p & Hp & Hin).
      eapply Hall; eauto. }
  rewrite C. simpl. now rewrite Hfirst.
Qed.

(** X27. Two candidates with different digests: the reference is
    flagged, and the flag is no digest. *)
Lemma reference_for_conflict (base_path : path) (t : Store.node) (md_file : path)
      (resource_link : string) (first second : path) (rest : list path)
      (p1 p2 : path) (h1 h2 : string) :
  ResourceLocator.find_resource
    (PurePath.name (PurePath.of_string resource_link)) base_path t
  = first :: second :: rest ->
  In p1 (first :: second :: rest) -> In p2 (first :: second :: rest) ->
  FileHasher.compute_hash t p1 = Some h1 ->
  FileHasher.compute_hash t p2 = Some h2 ->
  h1 <> h2 ->
  reference_for base_path t md_file resource_link
  = {| md_file_path := md_file;
       resource_name := PurePath.name (PurePath.of_string resource_link);
       resource_actual_path := Some first;
       resource_hash := Some CONFLICT |}
  /\ forall b, hexdigest b <> CONFLICT.
Proof.
  intros Hfound In1 In2 E1 E2 Hne. split; [|apply conflict_is_no_digest].
  unfold reference_for. rewrite Hfound.
  assert (C : 2 <= count_distinct
                (somes (map (FileHasher.compute_hash t) (first :: second :: rest)))).
  { apply (count_distinct_two h1 h2); [| |assumption].
    - apply In_somes, in_map_iff. now exists p1.
    - apply In_somes, in_map_iff. now exists p2. }
  destruct (count_distinct _ =? 1)%nat eqn:E; [|reflexivity].
  apply Nat.eqb_eq in E. lia.
Qed.

End WithHashlib.

Lemma reference_for_shared_witness :
  reference_for (H := SampleFacts.sample_hashlib)
    ["/"; "v"] (two_copies (Store.Binary "PPP")) ["/"; "v"; "n.md"]
    "_resources/photo.png"
  = {| md_file_path := ["/"; "v"; "n.md"];
       resource_name := "photo.png";
       resource_actual_path := Some ["/"; "v"; "_resources"; "photo.png"];
       resource_hash := Some (Sample.digest "PPP") |}.
Proof.
  apply (reference_for_shared
           (H := SampleFacts.sample_hashlib)
           ["/"; "v"] (two_copies (Store.Binary "PPP")) ["/"; "v"; "n.md"]
           "_resources/photo.png"
           ["/"; "v"; "_resources"; "photo.png"] ["/"; "v"; "old"; "photo.png"]
           [] (Sample.digest "PPP")).
  - reflexivity.
  - reflexivity.
  - intros p h' [<-|[<-|[]]] E; vm_compute in E; injection E as <-;
      vm_compute; reflexivity.
Defined.

Lemma reference_for_conflict_witness :
  reference_for (H := SampleFacts.sample_hashlib)
    ["/"; "v"] (two_copies (Store.Binary "new")) ["/"; "v"; "n.md"]
    "_resources/photo.png"
  = {| md_file_path := ["/"; "v"; "n.md"];
       resource_name := "photo.png";
       resource_actual_path := Some ["/"; "v"; "_resources"; "photo.png"];
       resource_hash := Some CONFLICT |}.
Proof.
  apply (reference_for_conflict
           (H := SampleFacts.sample_hashlib)
           ["/"; "v"] (two_copies (Store.Binary "new")) ["/"; "v"; "n.md"]
           "_resources/photo.png"
           ["/"; "v"; "_resources"; "photo.png"] ["/"; "v"; "old"; "photo.png"]
           [] ["/"; "v"; "_resources"; "photo.png"]
           ["/"; "v"; "old"; "photo.png"]
           (Sample.digest "new") (Sample.digest "PPP")).
  - reflexivity.
  - left. reflexivity.
  - right. left. reflexivity.
  - reflexivity.
  - reflexivity.
  - discriminate.
Defined.

(** C3, where the code fails it. Two candidates, the first unreadable,
    the second with a digest: every digest that was computed is that
    one, the reference takes the first path, but its digest is
    [hashes[0]], that is [None], not the shared digest. With a readable
    first copy of the same content it is the shared digest; with no
    readable copy at all the reference is flagged as a conflict. *)
Theorem first_candidate_unreadable :
  ResourceLocator.find_resource "photo.png" ["/"; "v"] (two_copies Store.Unreadable)
  = [["/"; "v"; "_resources"; "photo.png"]; ["/"; "v"; "old"; "photo.png"]]
  /\ map (FileHasher.compute_hash (two_copies Store.Unreadable))
         [["/"; "v"; "_resources"; "photo.png"]; ["/"; "v"; "old"; "photo.png"]]
     = [None; Some (Sample.digest "PPP")]
  /\ build_reference_array ["/"; "v"] (two_copies Store.Unreadable)
     = Py.Ok [{| md_file_path := ["/"; "v"; "n.md"];
                 resource_name := "photo.png";
                 resource_actual_path := Some ["/"; "v"; "_resources"; "photo.png"];
                 resource_hash := None |}]
  /\ build_reference_array ["/"; "v"] (two_copies (Store.Binary "PPP"))
     = Py.Ok [{| md_file_path := ["/"; "v"; "n.md"];
                 resource_name := "photo.png";
                 resource_actual_path := Some ["/"; "v"; "_resources"; "photo.png"];
                 resource_hash := Some (Sample.digest "PPP") |}].
Proof. repeat split. Qed.

(** No candidate can be read: no two digests differ, and the reference
    is flagged all the same. *)
Example no_candidate_readable :
  let t :=
    Store.Dir
      [("/",
        Store.Dir
          [("v",
            Store.Dir
              [("n.md", Store.File (Store.Utf8 "![[_resources/photo.png]]"));
               ("_resources",
                Store.Dir [("photo.png", Store.File Store.Unreadable)]);
               ("old",
                Store.Dir [("photo.png", Store.File Store.Unreadable)])])])] in
  build_reference_array ["/"; "v"] t
  = Py.Ok [{| md_file_path := ["/"; "v"; "n.md"];
              resource_name := "photo.png";
              resource_actual_path := Some ["/"; "v"; "_resources"; "photo.png"];
              resource_hash := Some CONFLICT |}].
Proof. reflexivity. Qed.

End CandidateFacts.

(** ** Walking the tree *)

Module WalkFacts.
Import Store StoreFacts AncestorFacts Spec Vaults.

Section NodeInduction.
Variable P : node -> Prop.
Hypothesis file_case : forall d, P (File d).
Hypothesis faulty_case : P Faulty.
Hypothesis dir_case : forall es, Forall (fun e => P (snd e)) es -> P (Dir es).

Fixpoint node_induction (t : node) : P t :=
  match t with
  | File d => file_case d
  | Faulty => faulty_case
  | Dir es =>
      dir_case es
        ((fix go (es : entries) : Forall (fun e => P (snd e)) es :=
            match es with
            | [] => Forall_nil _
            | e :: r => Forall_cons e (node_induction (snd e)) (go r)
            end) es)
  end.
End NodeInduction.

Lemma walk_dir (pat : string) (here : path) (es : entries) :
  Glob.walk pat here (Dir es)
  = (map (fun n => here ++ [n]) (Glob.select pat es)
     ++ fst (walk_entries pat here es),
     snd (walk_entries pat here es)).
Proof.
  cbn [Glob.walk].
  match goal with
  | |- (_ ++ fst (?F es), _) = _ =>
      assert (E : forall l, F l = walk_entries pat here l)
  end.
  { induction l as [|[n c] l IH]; [reflexivity|].
    cbn [walk_entries]. rewrite <- IH. reflexivity. }
  now rewrite E.
Qed.

Lemma lookup_join (p q : path) (t : node) :
  lookup (p ++ q) t
  = match lookup p t with
    | Some d => lookup q d
    | None => None
    end.
Proof.
  revert t; induction p as [|x p IH]; intros t; simpl; [reflexivity|].
  destruct t as [d|es|]; try reflexivity.
  destruct (get_child x es); [apply IH | reflexivity].
Qed.

Lemma select_plain (pat : string) (es : entries) (n : string) :
  Fnmatch.is_wildcard_pattern pat = false ->
  In n (Glob.select pat es) -> n = pat.
Proof.
  intros Hp. unfold Glob.select. rewrite Hp.
  destruct (get_child pat es); intros []; auto. contradiction.
Qed.

(** Without a wildcard every path the walk yields ends in the name. *)
Lemma walk_plain_names (pat : string) :
  Fnmatch.is_wildcard_pattern pat = false ->
  forall t here p,
    In p (fst (Glob.walk pat here t)) -> exists rel, p = here ++ rel ++ [pat].
Proof.
  intros Hp t. induction t as [d| |es IH] using node_induction; intros here p.
  - intros [].
  - intros [].
  - rewrite walk_dir. cbn [fst]. intros Hin.
    apply in_app_or in Hin as [Hin|Hin].
    + apply in_map_iff in Hin as (n & <- & Hn).
      apply (select_plain _ _ _ Hp) in Hn; subst n. now exists [].
    + revert Hin.
      induction IH as [|[n c] es Hc _ IHes]; cbn [walk_entries]; [intros []|].
      cbn [snd] in Hc.
      destruct (Glob.walk pat (here ++ [n]) c) as [f1 a1] eqn:W.
      assert (Hf1 : In p f1 -> exists rel, p = here ++ rel ++ [pat]).
      { intros Hin. destruct (Hc (here ++ [n]) p) as [rel ->].
        - now rewrite W.
        - exists (n :: rel). now rewrite <- List.app_assoc. }
      destruct a1; [exact Hf1|].
      destruct (walk_entries pat here es) as [f2 a2].
      cbn [fst] in *. intros Hin.
      apply in_app_or in Hin as [Hin|Hin]; auto.
Qed.

Lemma sound_tree_entries (es : entries) :
  Spec.sound_tree (Dir es) -> forall n c, In (n, c) es -> Spec.sound_tree c.
Proof.
  intros [_ Hall]. induction es as [|[m d] es IH]; intros n c; [intros []|].
  destruct Hall as [Hd Hall]. intros [[= <- <-]|Hin]; [assumption|].
  eapply IH; eauto.
Qed.

(** The walk of a sound tree meets no error. *)
Lemma walk_sound_tree (pat : string) (t : node) :
  Spec.sound_tree t -> forall here, snd (Glob.walk pat here t) = false.
Proof.
  induction t as [d| |es IH] using node_induction; intros Hs here.
  - reflexivity.
  - destruct Hs.
  - rewrite walk_dir. cbn [snd].
    pose proof (sound_tree_entries es Hs) as Hes. clear Hs.
    induction IH as [|[n c] es Hc _ IHes]; cbn [walk_entries]; [reflexivity|].
    cbn [snd] in Hc.
    assert (Hcs : Spec.sound_tree c) by (eapply Hes; now left).
    specialize (Hc Hcs (here ++ [n])).
    destruct (Glob.walk pat (here ++ [n]) c) as [f1 a1]. cbn [snd] in Hc; subst a1.
    rewrite <- IHes by (intros; eapply Hes; right; eauto).
    now destruct (walk_entries pat here es).
Qed.

Lemma walk_entries_In (pat : string) (here : path) (es : entries)
      (n : string) (c : node) (p : path) :
  (forall m d, In (m, d) es -> snd (Glob.walk pat (here ++ [m]) d) = false) ->
  In (n, c) es ->
  In p (fst (Glob.walk pat (here ++ [n]) c)) ->
  In p (fst (walk_entries pat here es)).
Proof.
  induction es as [|[m d] es IH]; intros Hall Hin Hp; [destruct Hin|].
  simpl. pose proof (Hall m d (or_introl eq_refl)) as Hm.
  destruct (Glob.walk pat (here ++ [m]) d) as [f1 a1] eqn:W.
  cbn [snd] in Hm; subst a1.
  destruct (walk_entries pat here es) as [f2 a2] eqn:W2. cbn [fst] in *.
  apply in_or_app. destruct Hin as [[= -> ->]|Hin].
  - left. now rewrite W in Hp.
  - right. apply IH; auto. intros; apply Hall; now right.
Qed.

(** In a sound tree the walk yields every path of that name. *)
Lemma walk_plain_complete (pat : string) :
  Fnmatch.is_wildcard_pattern pat = false ->
  forall rel t here c,
    Spec.sound_tree t ->
    lookup (rel ++ [pat]) t = Some c ->
    In (here ++ rel ++ [pat]) (fst (Glob.walk pat here t)).
Proof.
  intros Hp rel. induction rel as [|n rel IH]; intros t here c Hs; simpl.
  - destruct t as [d|es|]; try discriminate.
    destruct (get_child pat es) as [c'|] eqn:G; [|discriminate]. intros _.
    rewrite walk_dir. cbn [fst]. apply in_or_app; left.
    apply in_map_iff. exists pat; split; [reflexivity|].
    unfold Glob.select. rewrite Hp, G. now left.
  - destruct t as [d|es|]; try discriminate.
    destruct (get_child n es) as [c'|] eqn:G; [|discriminate]. intros Hl.
    rewrite walk_dir. cbn [fst]. apply in_or_app; right.
    apply get_child_In in G.
    apply (walk_entries_In pat here es n c').
    + intros m d Hin. apply walk_sound_tree.
      eapply sound_tree_entries; eauto.
    + exact G.
    + replace (here ++ n :: rel ++ [pat]) with ((here ++ [n]) ++ rel ++ [pat])
        by now rewrite <- List.app_assoc.
      eapply IH; [|exact Hl].
      eapply sound_tree_entries; eauto.
Qed.

(** On a plain name [find_resource] returns regular files of that name
    below the root and nothing else. *)
Lemma find_resource_plain_sound (resource_name : string) (search_root p : path)
      (t : node) :
  Spec.plain_name resource_name ->
  In p (ResourceLocator.find_resource resource_name search_root t) ->
  is_file t p = true
  /\ exists rel, p = search_root ++ rel ++ [resource_name].
Proof.
  intros (Hw & _). unfold ResourceLocator.find_resource, Glob.rglob.
  rewrite filter_In. intros [Hin Hf]. split; [exact Hf|].
  destruct (lookup search_root t) as [d|]; [|destruct Hin].
  eapply walk_plain_names; eauto.
Qed.

(** In a sound tree it returns all of them. *)
Lemma find_resource_plain_complete (resource_name : string)
      (search_root rel : path) (t d : node) :
  Spec.plain_name resource_name ->
  lookup search_root t = Some d ->
  Spec.sound_tree d ->
  is_file t (search_root ++ rel ++ [resource_name]) = true ->
  In (search_root ++ rel ++ [resource_name])
     (ResourceLocator.find_resource resource_name search_root t).
Proof.
  intros (Hw & _) Hroot Hs Hf. unfold ResourceLocator.find_resource, Glob.rglob.
  rewrite filter_In, Hroot. split; [|exact Hf].
  unfold is_file in Hf. rewrite lookup_join, Hroot in Hf.
  destruct (lookup (rel ++ [resource_name]) d) as [c|] eqn:L; [|discriminate].
  eapply walk_plain_complete; eauto.
Qed.

Lemma select_more (pat : string) (es es' : entries) (n : string) :
  In n (Glob.select pat es) -> In n (Glob.select pat (es ++ es')).
Proof.
  unfold Glob.select. destruct (Fnmatch.is_wildcard_pattern pat).
  - rewrite !filter_In, map_app, in_app_iff. tauto.
  - destruct (get_child pat es) as [c|] eqn:G; [|intros []].
    assert (G' : get_child pat (es ++ es') = Some c).
    { clear -G. induction es as [|[m d] es IH]; simpl in *; [discriminate|].
      destruct (String.eqb m pat); auto. }
    now rewrite G'.
Qed.

(** An error ends the walk and keeps what was found before it: the
    entries listed after a faulty directory are not visited, the paths
    yielded before it stay. *)
Lemma walk_keeps_found (pat : string) (here : path) (es es' : entries)
      (n : string) (p : path) :
  snd (Glob.walk pat here (Dir es)) = false ->
  In p (fst (Glob.walk pat here (Dir es))) ->
  In p (fst (Glob.walk pat here (Dir (es ++ (n, Faulty) :: es'))))
  /\ snd (Glob.walk pat here (Dir (es ++ (n, Faulty) :: es'))) = true.
Proof.
  rewrite !walk_dir. cbn [fst snd]. intros Hok Hin.
  assert (W : walk_entries pat here (es ++ (n, Faulty) :: es')
              = (fst (walk_entries pat here es), true)).
  { clear Hin. induction es as [|[m d] es IH]; simpl in *; [reflexivity|].
    destruct (Glob.walk pat (here ++ [m]) d) as [f1 [|]]; [discriminate|].
    destruct (walk_entries pat here es) as [f2 a2]. cbn [snd] in Hok.
    rewrite (IH Hok). reflexivity. }
  rewrite W. cbn [fst snd]. split; [|reflexivity].
  apply in_app_or in Hin as [Hin|Hin]; apply in_or_app; [left|now right].
  apply in_map_iff in Hin as (x & <- & Hx).
  apply in_map_iff. exists x; split; [reflexivity | now apply select_more].
Qed.

(** C8, where the code fails it. [rglob] reads the name as a pattern:
    asked for [shot?.png], [find_resource] also returns [shot1.png], a
    file of another name, and the note that links [shot?.png] is
    resolved to two candidates. The faulty directory ends the walk: the
    two paths found before it are returned, the copy in [late] is not
    reached. *)
Theorem find_resource_reads_a_pattern :
  ResourceLocator.find_resource "shot?.png" ["/"; "v"] shots
  = [["/"; "v"; "_resources"; "shot?.png"]; ["/"; "v"; "_resources"; "shot1.png"]]
  /\ PurePath.name ["/"; "v"; "_resources"; "shot1.png"] <> "shot?.png"
  /\ MarkdownParser.extract_resource_links ["/"; "v"; "n.md"] shots
     = ["_resources/shot?.png"]
  /\ snd (Glob.rglob "shot?.png" ["/"; "v"] shots) = true
  /\ ResourceLocator.find_resource "shot1.png" ["/"; "v"] shots
     = [["/"; "v"; "_resources"; "shot1.png"]].
Proof. repeat split. discriminate. Qed.

End WalkFacts.

(** ** Rewriting a link and reading it back *)

Module LinkFacts.
Import MarkdownParser Spec Vaults.

(** C2, where the code fails it. The pattern of [update_resource_link]
    asks for the exclamation mark that [extract_resource_links] leaves
    optional: the bare link is read as a reference to [a.png] before and
    after the rewrite, only the embedded one becomes [b.png]. *)
Theorem bare_link_is_not_rewritten :
  extract_resource_links ["note.md"]
    (two_links "see [[_resources/a.png]] and ![[_resources/a.png|pic]]")
  = ["_resources/a.png"; "_resources/a.png"]
  /\ update_resource_link ["note.md"] "a.png" "b.png"
       (two_links "see [[_resources/a.png]] and ![[_resources/a.png|pic]]")
     = (Py.Ok true,
        two_links "see [[_resources/a.png]] and ![[_resources/b.png|pic]]")
  /\ extract_resource_links ["note.md"]
       (two_links "see [[_resources/a.png]] and ![[_resources/b.png|pic]]")
     = ["_resources/a.png"; "_resources/b.png"]
  /\ rewrite_link "a.png" "b.png" "[[_resources/a.png]]"
     = Some "[[_resources/a.png]]".
Proof. repeat split. Qed.

(** The new name is pasted into the replacement template, where a
    leading digit continues the group reference [\1]: the link is
    replaced by other text, or [re.sub] raises. *)
Example new_name_with_leading_digit :
  rewrite_link "a.png" "2023_1.png" "![[_resources/a.png]]" = Some "P23_1.png]]"
  /\ links_of "P23_1.png]]" = []
  /\ rewrite_link "a.png" "1920x1080.png" "![[_resources/a.png]]" = None.
Proof. repeat split. Qed.

End LinkFacts.

(** ** Notes made of text and embedded links *)

Module NoteFacts.
Import MarkdownParser StrFacts Spec Vaults.

Lemma findall_skip (m : Re.matcher) (a rest : string) :
  Re.findall_from m (String.length a) (a +++ rest) = Re.findall_from m 0 rest.
Proof. induction a as [|c a IH]; [reflexivity | exact IH]. Qed.

Lemma sub_skip (m : Re.matcher) (items : list Re.item) (a rest : string) :
  Re.sub_from m items (String.length a) (a +++ rest) = Re.sub_from m items 0 rest.
Proof. induction a as [|c a IH]; [reflexivity | exact IH]. Qed.

Lemma resource_link_needs_mark (c : ascii) (r : string) :
  text_char c = true -> resource_link (String c r) = None.
Proof.
  intros Hc. unfold resource_link, bare_link.
  assert (E1 : Ascii.eqb "[" c = false /\ Ascii.eqb "!" c = false).
  { unfold text_char, one_of in Hc. cbn [Str.mem] in Hc.
    apply negb_true_iff in Hc. rewrite orb_false_r in Hc.
    apply orb_false_elim in Hc as [H1 H2].
    split; rewrite Ascii.eqb_sym; assumption. }
  destruct E1 as [E1 E2].
  change ("[[_resources/") with (String "[" "[_resources/").
  rewrite strip_prefix_cons, E1.
  destruct (Ascii.ascii_dec c "!") as [->|N]; [discriminate E2|].
  destruct c as [[] [] [] [] [] [] [] []]; try reflexivity. now elim N.
Qed.

Lemma findall_text (a rest : string) :
  Str.forallb text_char a = true ->
  Re.findall_from resource_link 0 (a +++ rest)
  = Re.findall_from resource_link 0 rest.
Proof.
  induction a as [|c a IH]; [reflexivity|]. cbn [Str.forallb].
  intros Ha. apply andb_prop in Ha as [Hc Ha].
  change (String c a +++ rest) with (String c (a +++ rest)).
  cbn [Re.findall_from]. rewrite (resource_link_needs_mark _ _ Hc). auto.
Qed.

Lemma link_to_needs_mark (old_name : string) (c : ascii) (r : string) :
  Ascii.eqb "!" c = false -> link_to old_name (String c r) = None.
Proof.
  intros Hc. unfold link_to.
  change ("![[_resources/") with (String "!" "[[_resources/").
  now rewrite strip_prefix_cons, Hc.
Qed.

Lemma sub_no_mark (old_name : string) (items : list Re.item) (a rest : string) :
  Str.forallb no_mark a = true ->
  Re.sub_from (link_to old_name) items 0 (a +++ rest)
  = a +++ Re.sub_from (link_to old_name) items 0 rest.
Proof.
  induction a as [|c a IH]; [reflexivity|]. cbn [Str.forallb].
  intros Ha. apply andb_prop in Ha as [Hc Ha].
  apply negb_true_iff in Hc.
  change (String c a +++ rest) with (String c (a +++ rest)).
  cbn [Re.sub_from]. rewrite (link_to_needs_mark _ _ _ Hc), (IH Ha). reflexivity.
Qed.

Lemma forallb_weaken (f g : ascii -> bool) (s : string) :
  (forall c, f c = true -> g c = true) ->
  Str.forallb f s = true -> Str.forallb g s = true.
Proof.
  intros Hfg. induction s as [|c s IH]; [reflexivity|]. cbn [Str.forallb].
  intros Hs. apply andb_prop in Hs as [Hc Hs]. now rewrite (Hfg _ Hc), IH.
Qed.

(** What the character classes exclude. *)
Lemma name_char_spec (c : ascii) :
  name_char c = true ->
  text_char c = true /\ display_char c = true /\ no_mark c = true
  /\ not_bracket_or_bar c = true /\ not_bracket c = true.
Proof.
  destruct c as [[] [] [] [] [] [] [] []]; vm_compute; intros; try discriminate;
    repeat split.
Qed.

Lemma display_char_spec (c : ascii) :
  display_char c = true ->
  text_char c = true /\ no_mark c = true /\ not_bracket c = true.
Proof.
  destruct c as [[] [] [] [] [] [] [] []]; vm_compute; intros; try discriminate;
    repeat split.
Qed.

Lemma ending_cases (d : option string) :
  valid_piece (Embed "x" d) ->
  exists c e, ending d = String c e
              /\ not_bracket_or_bar c = false
              /\ Str.forallb text_char (ending d) = true
              /\ Str.forallb no_mark (ending d) = true.
Proof.
  destruct d as [d|]; simpl.
  - intros (_ & _ & Hd). exists "|"%char, (d +++ "]]").
    split; [reflexivity|]. split; [reflexivity|].
    change ("|" +++ d +++ "]]") with (String "|" (d +++ "]]")).
    cbn [Str.forallb]. rewrite !forallb_append.
    rewrite (forallb_weaken display_char text_char d), (forallb_weaken display_char no_mark d);
      auto; intros c Hc; now apply display_char_spec in Hc.
  - intros _. exists "]"%char, "]". repeat split.
Qed.

Lemma valid_embed_any (n : string) (d : option string) :
  valid_piece (Embed n d) -> safe_name n /\ valid_piece (Embed "x" d).
Proof.
  assert (X : safe_name "x") by (split; [discriminate | reflexivity]).
  destruct d as [d|]; simpl.
  - intros (Hn & Hd1 & Hd2). split; [exact Hn|]. split; [exact X|]. now split.
  - intros Hn. split; [exact Hn | exact X].
Qed.

(** The extraction pattern at an embedded link. *)
Lemma resource_link_at_embed (n : string) (d : option string) (rest : string) :
  valid_piece (Embed n d) ->
  resource_link (render (Embed n d) +++ rest)
  = Some (["![[_resources/" +++ n; "_resources/" +++ n],
          String.length ("![[_resources/" +++ n)).
Proof.
  intros Hv. apply valid_embed_any in Hv as [[Hne Hn] Hd].
  destruct (ending_cases d Hd) as (c & e & He & Hc & _).
  unfold render. rewrite !append_assoc.
  assert (B : bare_link ("[[_resources/" +++ n +++ ending d +++ rest)
              = Some ("_resources/" +++ n)).
  { unfold bare_link. rewrite strip_prefix_append.
    rewrite He. change (String c e +++ rest) with (String c (e +++ rest)).
    rewrite span_stop; [| |exact Hc].
    - cbn [fst]. destruct (String.eqb n "") eqn:E; [|reflexivity].
      apply String.eqb_eq in E. contradiction.
    - eapply forallb_weaken; [|exact Hn]. intros x Hx. now apply name_char_spec in Hx. }
  unfold resource_link.
  change ("![[_resources/" +++ n +++ ending d +++ rest)
    with (String "!" ("[[_resources/" +++ n +++ ending d +++ rest)).
  cbn iota. rewrite B. reflexivity.
Qed.

Lemma links_of_cons_embed (n : string) (d : option string) (rest : string) :
  valid_piece (Embed n d) ->
  Re.findall_from resource_link 0 (render (Embed n d) +++ rest)
  = ("_resources/" +++ n) :: Re.findall_from resource_link 0 rest.
Proof.
  intros Hv. pose proof (resource_link_at_embed n d rest Hv) as M.
  apply valid_embed_any in Hv as [_ Hd].
  destruct (ending_cases d Hd) as (_ & _ & _ & _ & Ht & _).
  remember (render (Embed n d) +++ rest) as s eqn:Es.
  assert (Es' : s = String "!" (("[[_resources/" +++ n) +++ ending d +++ rest)).
  { subst s. unfold render. now rewrite !append_assoc. }
  rewrite Es' in M |- *. cbn [Re.findall_from]. rewrite M. cbn [nth].
  f_equal.
  change (String.length ("![[_resources/" +++ n) - 1)
    with (String.length ("[[_resources/" +++ n) - 0).
  rewrite Nat.sub_0_r, findall_skip. now apply findall_text.
Qed.

(** Reading the references of a note back. *)
Lemma links_of_render (ps : list piece) :
  Forall valid_piece ps ->
  links_of (render_all ps) = map (String.append "_resources/") (names ps).
Proof.
  unfold links_of, Re.findall.
  induction 1 as [|p ps Hp _ IH]; [reflexivity|].
  cbn [render_all fold_right]. fold (render_all ps).
  destruct p as [s|n d].
  - cbn [render names]. now rewrite findall_text.
  - cbn [names map]. rewrite links_of_cons_embed by assumption. now rewrite IH.
Qed.

Lemma link_end_ending (d : option string) (rest : string) :
  valid_piece (Embed "x" d) -> link_end (ending d +++ rest) = Some (ending d).
Proof.
  destruct d as [d|]; simpl.
  - intros (_ & Hne & Hd). unfold link_end.
    change (String "|" (d +++ "]]") +++ rest) with (String "|" (d +++ "]]" +++ rest)).
    rewrite append_assoc.
    change ("]]" +++ rest) with (String "]" (String "]" rest)).
    rewrite span_stop; [| |reflexivity].
    + destruct (String.eqb d "") eqn:E;
        [apply String.eqb_eq in E; contradiction|].
      reflexivity.
    + eapply forallb_weaken; [|exact Hd]. intros c Hc.
      now apply display_char_spec in Hc.
  - intros _. reflexivity.
Qed.

(** The rewriting pattern at an embedded link to the old name. *)
Lemma link_to_at_same (old_name : string) (d : option string) (rest : string) :
  valid_piece (Embed old_name d) ->
  link_to old_name (render (Embed old_name d) +++ rest)
  = Some ([render (Embed old_name d); "![[_resources/"; ending d],
          String.length (render (Embed old_name d))).
Proof.
  intros Hv. apply valid_embed_any in Hv as [_ Hd].
  unfold link_to, render. rewrite !append_assoc.
  rewrite (strip_prefix_append "![[_resources/"), strip_prefix_append.
  now rewrite (link_end_ending d rest Hd).
Qed.

Lemma append_cases (a x b y : string) :
  a +++ x = b +++ y ->
  (exists z, a = b +++ z /\ y = z +++ x) \/ (exists z, b = a +++ z /\ x = z +++ y).
Proof.
  revert b; induction a as [|c a IH]; intros b E.
  - right. exists b. auto.
  - destruct b as [|c' b].
    + left. exists (String c a). auto.
    + injection E as -> E. destruct (IH _ E) as [(z & -> & ->)|(z & -> & ->)].
      * left; exists z; auto.
      * right; exists z; auto.
Qed.

(** The rewriting pattern at an embedded link to another name. *)
Lemma link_to_at_other (old_name n : string) (d : option string) (rest : string) :
  safe_name old_name -> valid_piece (Embed n d) -> n <> old_name ->
  link_to old_name (render (Embed n d) +++ rest) = None.
Proof.
  intros [_ Hold] Hv Hne. apply valid_embed_any in Hv as [[_ Hn] Hd].
  destruct (ending_cases d Hd) as (c & e & He & Hc & _).
  unfold link_to, render. rewrite !append_assoc.
  rewrite (strip_prefix_append "![[_resources/").
  destruct (Str.strip_prefix old_name (n +++ ending d +++ rest)) as [r|] eqn:S;
    [|reflexivity].
  apply strip_prefix_inv in S.
  destruct (append_cases _ _ _ _ S) as [(z & -> & ->)|(z & -> & Ez)].
  - destruct z as [|x z]; [now rewrite append_nil_r in Hne|].
    rewrite forallb_append in Hn. apply andb_prop in Hn as [_ Hz].
    cbn [Str.forallb] in Hz. apply andb_prop in Hz as [Hx _].
    apply name_char_spec in Hx as (_ & _ & _ & Hb & Hnb).
    change (String x z +++ ending d +++ rest) with (String x (z +++ ending d +++ rest)).
    unfold link_end.
    change ("]]") with (String "]" "]"). rewrite strip_prefix_cons.
    assert (E1 : Ascii.eqb "]" x = false).
    { unfold not_bracket in Hnb. apply negb_true_iff in Hnb.
      now rewrite Ascii.eqb_sym. }
    rewrite E1.
    destruct (Ascii.ascii_dec x "|") as [->|N]; [discriminate Hb|].
    destruct x as [[] [] [] [] [] [] [] []]; try reflexivity. now elim N.
  - destruct z as [|x z]; [now rewrite append_nil_r in Hne|].
    rewrite forallb_append in Hold. apply andb_prop in Hold as [_ Hz].
    cbn [Str.forallb] in Hz. apply andb_prop in Hz as [Hx _].
    apply name_char_spec in Hx as (_ & _ & _ & Hb & _).
    rewrite He in Ez. injection Ez as -> _. congruence.
Qed.

Lemma parse_literals (ngroups : nat) (a rest : string) :
  Str.mem "\"%char a = false ->
  Re.parse_template_from ngroups 0 (a +++ rest)
  = option_map (app (literals a)) (Re.parse_template_from ngroups 0 rest).
Proof.
  induction a as [|c a IH]; intros Ha.
  - simpl. now destruct (Re.parse_template_from ngroups 0 rest).
  - cbn [Str.mem] in Ha. apply orb_false_elim in Ha as [Hc Ha].
    change (String c a +++ rest) with (String c (a +++ rest)).
    cbn [Re.parse_template_from]. rewrite Ascii.eqb_sym, Hc, (IH Ha).
    now destruct (Re.parse_template_from ngroups 0 rest).
Qed.

Lemma expand_literals (a : string) (items : list Re.item) (groups : list string) :
  Re.expand (literals a ++ items) groups = a +++ Re.expand items groups.
Proof. induction a as [|c a IH]; simpl; [reflexivity | now rewrite IH]. Qed.

(** The template of a safe new name: group 1, the name, group 2. *)
Lemma template_of_safe_name (new_name : string) :
  template_safe new_name ->
  Re.parse_template 2 ("\1" +++ new_name +++ "\2")
  = Some (Re.Group 1 :: literals new_name ++ [Re.Group 2]).
Proof.
  intros [Hb Hd]. unfold Re.parse_template.
  change ("\1" +++ new_name +++ "\2")
    with (String "\" (String "1" (new_name +++ "\2"))).
  cbn [Re.parse_template_from]. rewrite Ascii.eqb_refl.
  assert (E : Re.escape_at 2 (String "1" (new_name +++ "\2"))
              = Some (Re.Group 1, 1)).
  { destruct new_name as [|c n]; [reflexivity|].
    change (String c n +++ "\2") with (String c (n +++ "\2")).
    unfold Re.escape_at. now rewrite Hd. }
  rewrite E. cbn [Re.parse_template_from].
  rewrite (parse_literals 2 new_name "\2" Hb). reflexivity.
Qed.

Section Rewriting.
Variables old_name new_name : string.
Hypothesis old_safe : safe_name old_name.
Hypothesis new_fits : template_safe new_name.

Let items : list Re.item := Re.Group 1 :: literals new_name ++ [Re.Group 2].

Lemma sub_cons_text (s rest : string) :
  Str.forallb text_char s = true ->
  Re.sub_from (link_to old_name) items 0 (s +++ rest)
  = s +++ Re.sub_from (link_to old_name) items 0 rest.
Proof.
  intros Hs. apply sub_no_mark. eapply forallb_weaken; [|exact Hs].
  intros c. destruct c as [[] [] [] [] [] [] [] []]; vm_compute; congruence.
Qed.

Lemma sub_cons_embed (n : string) (d : option string) (rest : string) :
  valid_piece (Embed n d) ->
  Re.sub_from (link_to old_name) items 0 (render (Embed n d) +++ rest)
  = render (rename_piece old_name new_name (Embed n d))
    +++ Re.sub_from (link_to old_name) items 0 rest.
Proof.
  intros Hv. cbn [rename_piece].
  destruct (String.eqb n old_name) eqn:E.
  - apply String.eqb_eq in E; subst n.
    pose proof (link_to_at_same old_name d rest Hv) as M.
    remember (render (Embed old_name d)) as whole eqn:Ew.
    assert (Es : whole = String "!" ("[[_resources/" +++ old_name +++ ending d))
      by (subst whole; reflexivity).
    rewrite Es in M |- *.
    change (String "!" ("[[_resources/" +++ old_name +++ ending d) +++ rest)
      with (String "!" (("[[_resources/" +++ old_name +++ ending d) +++ rest)) in *.
    cbn [Re.sub_from]. rewrite M.
    cbn [String.length]. rewrite Nat.sub_succ, Nat.sub_0_r, sub_skip.
    unfold items. cbn [Re.expand nth]. rewrite expand_literals.
    cbn [Re.expand nth]. unfold render.
    rewrite append_nil_r, !append_assoc. reflexivity.
  - apply String.eqb_neq in E.
    pose proof (link_to_at_other old_name n d rest old_safe Hv E) as M.
    apply valid_embed_any in Hv as [[_ Hn] Hd].
    destruct (ending_cases d Hd) as (_ & _ & _ & _ & _ & Hm).
    unfold render in *.
    change (("![[_resources/" +++ n +++ ending d) +++ rest)
      with (String "!" (("[[_resources/" +++ n +++ ending d) +++ rest)) in *.
    cbn [Re.sub_from]. rewrite M, sub_no_mark; [reflexivity|].
    rewrite !forallb_append, Hm, andb_true_r. 
    rewrite (forallb_weaken name_char no_mark n); [reflexivity| |exact Hn].
    intros c Hc. now apply name_char_spec in Hc.
Qed.

Lemma sub_render (ps : list piece) :
  Forall valid_piece ps ->
  Re.sub_from (link_to old_name) items 0 (render_all ps)
  = render_all (map (rename_piece old_name new_name) ps).
Proof.
  induction 1 as [|p ps Hp _ IH]; [reflexivity|].
  cbn [render_all fold_right map].
  fold (render_all ps). fold (render_all (map (rename_piece old_name new_name) ps)).
  destruct p as [s|n d].
  - cbn [render rename_piece]. now rewrite sub_cons_text, IH.
  - now rewrite sub_cons_embed, IH.
Qed.

(** Rewriting a note of text and embedded links renames the links to the
    old name and nothing else. *)
Lemma rewrite_link_render (ps : list piece) :
  Forall valid_piece ps ->
  rewrite_link old_name new_name (render_all ps)
  = Some (render_all (map (rename_piece old_name new_name) ps)).
Proof.
  intros Hps. unfold rewrite_link, Re.sub.
  rewrite (template_of_safe_name new_name new_fits).
  f_equal. exact (sub_render ps Hps).
Qed.

End Rewriting.

Lemma names_rename (old_name new_name : string) (ps : list piece) :
  names (map (rename_piece old_name new_name) ps)
  = map (fun n => if String.eqb n old_name then new_name else n) (names ps).
Proof.
  induction ps as [|[s|n d] ps IH]; simpl; [reflexivity | exact IH | now rewrite IH].
Qed.

Lemma valid_rename (old_name new_name : string) (ps : list piece) :
  safe_name new_name -> Forall valid_piece ps ->
  Forall valid_piece (map (rename_piece old_name new_name) ps).
Proof.
  intros Hnew. induction 1 as [|p ps Hp _ IH]; constructor; [|exact IH].
  destruct p as [s|n [d|]]; simpl in *; auto;
    destruct (String.eqb n old_name); tauto.
Qed.

(** X23. The round trip of a note made of running text and embedded
    links, where the running text holds neither an exclamation mark nor
    an opening bracket, names hold no bracket, bar or exclamation mark,
    and display texts no bracket or exclamation mark: the references
    read back after rewriting [old_name] to [new_name] are those read
    before with [old_name] replaced, in the same order, and texts and
    display texts stay as they were. This is the part of C2 the code
    provides; the new name must not start with a digit nor hold a
    backslash. *)
Lemma embedded_links_round_trip (old_name new_name : string) (ps : list piece) :
  safe_name old_name -> safe_name new_name -> template_safe new_name ->
  Forall valid_piece ps ->
  links_of (render_all ps) = map (String.append "_resources/") (names ps)
  /\ rewrite_link old_name new_name (render_all ps)
     = Some (render_all (map (rename_piece old_name new_name) ps))
  /\ links_of (render_all (map (rename_piece old_name new_name) ps))
     = map (String.append "_resources/")
           (map (fun n => if String.eqb n old_name then new_name else n) (names ps)).
Proof.
  intros Hold Hnew Hfit Hps. split; [now apply links_of_render|].
  split; [now apply rewrite_link_render|].
  rewrite links_of_render by now apply valid_rename.
  now rewrite names_rename.
Qed.

Lemma embedded_links_round_trip_witness :
  links_of (render_all [Text "Trip: "; Embed "a.png" None;
                        Embed "b.png" (Some "the map")])
  = map (String.append "_resources/")
        (names [Text "Trip: "; Embed "a.png" None; Embed "b.png" (Some "the map")])
  /\ rewrite_link "a.png" "c.png"
       (render_all [Text "Trip: "; Embed "a.png" None;
                    Embed "b.png" (Some "the map")])
     = Some "Trip: ![[_resources/c.png]]![[_resources/b.png|the map]]"
  /\ links_of "Trip: ![[_resources/c.png]]![[_resources/b.png|the map]]"
     = ["_resources/c.png"; "_resources/b.png"].
Proof.
  apply (embedded_links_round_trip "a.png" "c.png"
           [Text "Trip: "; Embed "a.png" None; Embed "b.png" (Some "the map")]).
  - split; [discriminate | reflexivity].
  - split; [discriminate | reflexivity].
  - split; reflexivity.
  - repeat constructor; discriminate.
Defined.

Example embedded_links_round_trip_example :
  let note := [Text "Trip: "; Embed "a.png" None; Text " and ";
               Embed "b.png" (Some "the map"); Embed "a.png" (Some "again")] in
  render_all note
  = "Trip: ![[_resources/a.png]] and ![[_resources/b.png|the map]]![[_resources/a.png|again]]"
  /\ rewrite_link "a.png" "c.png" (render_all note)
     = Some "Trip: ![[_resources/c.png]] and ![[_resources/b.png|the map]]![[_resources/c.png|again]]".
Proof. split; reflexivity. Qed.

End NoteFacts.

(** ** When a move raises *)

Module RaiseFacts.
Import MarkdownParser.

(** [update_resource_link] catches what reading and writing raise; all it
    lets through is the error of a template that does not parse, raised
    before the note is touched. *)
Lemma update_resource_link_raises (md_file : path) (old_name new_name : string)
      (t t' : Store.node) (e : Py.exn) :
  update_resource_link md_file old_name new_name t = (Py.Raise e, t') ->
  e = Py.ReError /\ t' = t
  /\ Re.parse_template 2 ("\1" +++ new_name +++ "\2") = None.
Proof.
  unfold update_resource_link, Py.try_except, Py.bind, Py.read_text.
  destruct (Store.lookup md_file t) as [[[ |b|content]| |]|]; simpl;
    try discriminate.
  unfold rewrite_link, Re.sub.
  destruct (Re.parse_template 2 ("\1" +++ new_name +++ "\2")) as [items|] eqn:P.
  - unfold Py.write_text, Py.os_op.
    destruct (Store.write md_file _ t); simpl; discriminate.
  - simpl. intros [= <- <-]. repeat split. exact P.
Qed.

Section WithHashlib.
Context {H : Hashlib}.

(** Of the exceptions of this model, [move_resource_file] lets through
    only the error of a template that does not parse, in a run for
    real that has to rename. What [Path.exists] raises on a path the
    operating system refuses is not part of the model. *)
Lemma move_resource_file_raises_only
      (execute : bool) (source_resource target_resource md_file : path)
      (resource_name : string) (t t' : Store.node) (e : Py.exn) :
  ResourceManager.move_resource_file
    execute source_resource target_resource md_file resource_name t
  = (Py.Raise e, t') ->
  execute = true /\ e = Py.ReError
  /\ Store.exists_ t target_resource = true
  /\ Re.parse_template 2
       ("\1" +++ PurePath.name
                   (ResourceManager.get_unique_filename target_resource t)
        +++ "\2") = None.
Proof.
  unfold ResourceManager.move_resource_file.
  destruct (Store.exists_ t source_resource); simpl negb; cbv iota;
    [|discriminate].
  destruct (Store.exists_ t target_resource).
  - destruct (FileHasher.files_are_identical t source_resource target_resource);
      [discriminate|].
    destruct execute; [|discriminate].
    unfold Py.try_except, Py.bind at 1, Py.rename, Py.os_op.
    destruct (Store.rename source_resource _ t) as [t1|]; [|simpl; discriminate].
    unfold Py.bind.
    destruct (update_resource_link md_file resource_name _ t1) as [[b|e1] t2] eqn:U.
    + simpl. discriminate.
    + apply update_resource_link_raises in U as (-> & -> & P).
      simpl. intros [= <- <-]. auto.
  - destruct execute; [|discriminate].
    unfold Py.try_except, Py.bind at 1, Py.mkdir_parents, Py.os_op.
    destruct (Store.mkdirs _ t) as [t1|]; [|simpl; discriminate].
    unfold Py.bind, Py.rename, Py.os_op.
    destruct (Store.rename source_resource target_resource t1); simpl; discriminate.
Qed.

End WithHashlib.

End RaiseFacts.

(** ** The tree under writes, renames and new directories *)

Module TreeFacts.
Import Store StoreFacts WalkFacts Spec.

Lemma get_set_child (n : string) (c : node) (es : entries) (x : string) :
  get_child x (set_child n c es)
  = if String.eqb n x then Some c else get_child x es.
Proof.
  induction es as [|[m d] es IH]; simpl.
  - destruct (String.eqb n x); reflexivity.
  - destruct (String.eqb m n) eqn:E; simpl.
    + apply String.eqb_eq in E; subst m. destruct (String.eqb n x); reflexivity.
    + destruct (String.eqb m x) eqn:E2; [|exact IH].
      apply String.eqb_eq in E2; subst m.
      rewrite String.eqb_sym in E. now rewrite E.
Qed.

Lemma get_del_child (n : string) (es : entries) (x : string) :
  get_child x (del_child n es)
  = if String.eqb n x then None else get_child x es.
Proof.
  induction es as [|[m d] es IH]; simpl.
  - destruct (String.eqb n x); reflexivity.
  - destruct (String.eqb m n) eqn:E; simpl.
    + apply String.eqb_eq in E; subst m. rewrite IH.
      destruct (String.eqb n x); reflexivity.
    + destruct (String.eqb m x) eqn:E2; [|exact IH].
      apply String.eqb_eq in E2; subst m.
      rewrite String.eqb_sym in E. now rewrite E.
Qed.

Lemma below_dec (d q : path) : below d q \/ ~ below d q.
Proof.
  revert q; induction d as [|x d IH]; intros q.
  - left. now exists q.
  - destruct q as [|y q]; [right; intros [r E]; discriminate|].
    destruct (string_dec x y) as [->|N].
    + destruct (IH q) as [[r ->]|No]; [left; now exists r|].
      right. intros [r E]. injection E as E. apply No. now exists r.
    + right. intros [r E]. injection E as E _. congruence.
Qed.

Lemma below_cons (x : string) (d q : path) : below (x :: d) (x :: q) <-> below d q.
Proof.
  split; intros [r E]; exists r; [now injection E | now rewrite E].
Qed.

(** The directory that was rewritten, and what is read below it. *)
Lemma alter_dir_inside (d : path) (f : entries -> option entries) :
  forall t t',
    alter_dir d f t = Some t' ->
    exists es es',
      lookup d t = Some (Dir es) /\ f es = Some es'
      /\ forall r, lookup (d ++ r) t' = lookup r (Dir es').
Proof.
  induction d as [|n d IH]; intros t t'; simpl.
  - destruct t as [x|es|]; try discriminate.
    destruct (f es) as [es'|] eqn:F; [|discriminate].
    intros [= <-]. exists es, es'. auto.
  - destruct t as [x|es|]; try discriminate.
    destruct (get_child n es) as [c|] eqn:G; [|discriminate].
    destruct (alter_dir d f c) as [c'|] eqn:A; [|discriminate].
    intros [= <-]. destruct (IH _ _ A) as (es0 & es0' & L & F & R).
    exists es0, es0'. split; [exact L|]. split; [exact F|].
    intros r. rewrite get_set_child, String.eqb_refl. apply R.
Qed.

(** What lies beside the directory that was rewritten stays. *)
Lemma alter_dir_outside (d : path) (f : entries -> option entries) :
  forall t t' q,
    alter_dir d f t = Some t' ->
    ~ below d q -> ~ below q d ->
    lookup q t' = lookup q t.
Proof.
  induction d as [|n d IH]; intros t t' q; simpl.
  - intros _ N. elim N. now exists q.
  - destruct t as [x|es|]; try discriminate.
    destruct (get_child n es) as [c|] eqn:G; [|discriminate].
    destruct (alter_dir d f c) as [c'|] eqn:A; [|discriminate].
    intros [= <-] N1 N2.
    destruct q as [|y q]; [elim N2; now exists (n :: d)|].
    simpl. rewrite get_set_child.
    destruct (String.eqb n y) eqn:E.
    + apply String.eqb_eq in E; subst y. rewrite G.
      apply (IH _ _ _ A); now rewrite <- (below_cons n).
    + reflexivity.
Qed.

(** A file stays where it is when a directory is rewritten, unless it
    is the entry [k] of that directory or lies below it. *)
Lemma alter_dir_keeps_file (d : path) (f : entries -> option entries)
      (k : string) (t t' : node) (q : path) (x : file_data) :
  alter_dir d f t = Some t' ->
  (forall es es' m, f es = Some es' -> m <> k ->
                    get_child m es' = get_child m es) ->
  ~ below (d ++ [k]) q ->
  lookup q t = Some (File x) ->
  lookup q t' = Some (File x).
Proof.
  intros A Hf Nk Hq.
  destruct (alter_dir_inside _ _ _ _ A) as (es & es' & L & F & R).
  destruct (below_dec d q) as [[r ->]|No].
  - rewrite R. rewrite lookup_join, L in Hq.
    destruct r as [|m r]; [discriminate|].
    simpl in *. rewrite (Hf _ _ m F); [exact Hq|].
    intros ->. apply Nk. exists r. now rewrite <- List.app_assoc.
  - rewrite (alter_dir_outside _ _ _ _ _ A No); [exact Hq|].
    intros [r ->]. rewrite lookup_join, Hq in L.
    destruct r; discriminate.
Qed.

Lemma split_last (p : path) : p <> [] -> p = removelast p ++ [last p ""].
Proof. apply app_removelast_last. Qed.

Lemma not_top_nonempty (p : path) : PurePath.is_top p = false -> p <> [].
Proof. now destruct p. Qed.

Lemma below_refl (p : path) : below p p.
Proof. exists []. now rewrite List.app_nil_r. Qed.

(** [write_text]: the note reads back as what was written, and every
    other file stays. *)
Lemma write_spec (p : path) (s : string) (t t' : node) :
  write p s t = Some t' ->
  lookup p t' = Some (File (Utf8 s))
  /\ forall q x, q <> p -> lookup q t = Some (File x) -> lookup q t' = Some (File x).
Proof.
  unfold write. intros W.
  assert (A : PurePath.is_top p = false
              /\ alter_dir (removelast p)
                   (fun es => Some (set_child (last p "") (File (Utf8 s)) es)) t
                 = Some t'
              /\ forall r c, r <> [] -> lookup (p ++ r) t = Some c -> False).
  { destruct (lookup p t) as [[[ |b|u]|es|]|] eqn:L; try discriminate;
      (destruct (PurePath.is_top p); [discriminate|]);
      (split; [reflexivity|]); (split; [exact W|]);
      intros r c Hr; rewrite lookup_join, L; destruct r; try congruence;
      discriminate. }
  destruct A as (Top & A & Hold).
  pose proof (split_last p (not_top_nonempty p Top)) as E.
  split.
  - destruct (alter_dir_inside _ _ _ _ A) as (es & es' & L & [= <-] & R).
    rewrite E at 1. rewrite R. simpl. now rewrite get_set_child, String.eqb_refl.
  - intros q x Nq Hq.
    eapply (alter_dir_keeps_file _ _ (last p "")); [exact A | | | exact Hq].
    + intros es es' m [= <-] Nm. rewrite get_set_child.
      destruct (String.eqb (last p "") m) eqn:Em; [|reflexivity].
      apply String.eqb_eq in Em. congruence.
    + rewrite <- E. intros [r ->].
      destruct r as [|y r]; [rewrite List.app_nil_r in Nq; congruence|].
      eapply Hold; [|exact Hq]. discriminate.
Qed.

(** [mkdir(exist_ok=True)]: the directory is there afterwards and every
    file stays. *)
Lemma mkdir_spec (p : path) (t t' : node) :
  mkdir p t = Some t' ->
  is_dir t' p = true
  /\ forall q x, lookup q t = Some (File x) -> lookup q t' = Some (File x).
Proof.
  unfold mkdir, is_dir. destruct (lookup p t) as [[x|es|]|] eqn:L.
  - discriminate.
  - intros [= <-]. rewrite L. auto.
  - intros [= <-]. rewrite L. auto.
  - intros A.
    assert (Hp : p <> []) by (intros ->; discriminate).
    pose proof (split_last p Hp) as E. split.
    + destruct (alter_dir_inside _ _ _ _ A) as (es & es' & _ & [= <-] & R).
      rewrite E at 1. rewrite R. simpl. now rewrite get_set_child, String.eqb_refl.
    + intros q x Hq.
      eapply (alter_dir_keeps_file _ _ (last p "")); [exact A | | | exact Hq].
      * intros es es' m [= <-] Nm. rewrite get_set_child.
        destruct (String.eqb (last p "") m) eqn:Em; [|reflexivity].
        apply String.eqb_eq in Em. congruence.
      * rewrite <- E. intros [r ->]. rewrite lookup_join, L in Hq. discriminate.
Qed.

(** [mkdir(parents=True, exist_ok=True)] keeps every file. *)
Lemma mkdirs_keeps_files (p : path) :
  forall t t' q x,
    mkdirs p t = Some t' ->
    lookup q t = Some (File x) -> lookup q t' = Some (File x).
Proof.
  induction p as [|n p IH]; intros t t' q x.
  - destruct t as [d|es|]; simpl; try discriminate; now intros [= <-].
  - destruct t as [d|es|]; simpl; try discriminate.
    destruct (mkdirs p _) as [c'|] eqn:M; [|discriminate].
    intros [= <-]. destruct q as [|y q]; [discriminate|].
    simpl. rewrite get_set_child.
    destruct (String.eqb n y) eqn:E; [|auto].
    apply String.eqb_eq in E; subst y.
    destruct (get_child n es) as [c|]; [|discriminate].
    eapply IH; eauto.
Qed.

Lemma strictly_above_app (a r : path) :
  Store.strictly_above a (a ++ r) = false -> r = [].
Proof.
  induction a as [|x a IH]; simpl.
  - now destruct r.
  - rewrite String.eqb_refl. exact IH.
Qed.

(** [rename] to another path: the node is at the target, the source is
    gone, and every file that is neither of them nor below them stays. *)
Lemma rename_spec (src dst : path) (t t' : node) :
  Store.rename src dst t = Some t' ->
  src <> dst ->
  lookup dst t' = lookup src t
  /\ lookup src t' = None
  /\ (forall q x, ~ below src q -> ~ below dst q ->
                  lookup q t = Some (File x) -> lookup q t' = Some (File x))
  /\ (forall n old, lookup src t = Some n -> lookup dst t = Some old ->
                    may_replace n old = true).
Proof.
  unfold Store.rename. intros Hr Hne.
  destruct (lookup src t) as [n|] eqn:Ls; [|discriminate].
  destruct (PurePath.eqb src dst) eqn:Eq.
  { unfold PurePath.eqb in Eq. destruct (PurePath.path_eq_dec src dst); congruence. }
  destruct (PurePath.is_top src) eqn:Ts; [discriminate|].
  destruct (PurePath.is_top dst) eqn:Td; [discriminate|].
  destruct (strictly_above src dst) eqn:Ab; [discriminate|].
  simpl in Hr.
  destruct (negb _) eqn:Ok in Hr; [discriminate|].
  apply negb_false_iff in Ok.
  destruct (alter_dir (removelast src) _ t) as [t1|] eqn:A1; [|discriminate].
  pose proof (split_last src (not_top_nonempty _ Ts)) as Es.
  pose proof (split_last dst (not_top_nonempty _ Td)) as Ed.
  set (sd := removelast src) in *. set (sn := last src "") in *.
  set (dd := removelast dst) in *. set (dn := last dst "") in *.
  destruct (alter_dir_inside _ _ _ _ A1) as (es1 & es1' & L1 & [= <-] & R1).
  destruct (alter_dir_inside _ _ _ _ Hr) as (es2 & es2' & L2 & [= <-] & R2).
  assert (Gone : lookup src t1 = None).
  { rewrite Es, R1. simpl. now rewrite get_del_child, String.eqb_refl. }
  split; [|split; [|split]]; cycle 3.
  { intros n0 old [= <-] Lo. now rewrite Lo in Ok. }
  - rewrite Ed, R2. simpl. now rewrite get_set_child, String.eqb_refl.
  - destruct (below_dec dd src) as [[r E]|No].
    + rewrite E, R2. destruct r as [|m r].
      { exfalso. rewrite List.app_nil_r in E.
        rewrite Ed, <- E in Ab. apply strictly_above_app in Ab. discriminate. }
      simpl. rewrite get_set_child.
      destruct (String.eqb dn m) eqn:Em.
      * apply String.eqb_eq in Em; subst m.
        destruct r as [|y r].
        { elim Hne. now rewrite E, Ed. }
        exfalso.
        assert (Ex : src = dst ++ y :: r).
        { rewrite E, Ed. now rewrite <- List.app_assoc. }
        rewrite Ex, lookup_join in Ls.
        destruct (lookup dst t) as [[x|es|]|]; try discriminate.
        simpl in Ls. destruct es as [|e es]; [discriminate|].
        destruct n; discriminate.
      * rewrite E, lookup_join, L2 in Gone. exact Gone.
    + rewrite (alter_dir_outside _ _ _ _ _ Hr No); [exact Gone|].
      intros [r E].
      rewrite Ed, E, <- List.app_assoc in Ab.
      apply strictly_above_app in Ab. destruct r; discriminate.
  - intros q x Ns Nd Hq.
    assert (Hq1 : lookup q t1 = Some (File x)).
    { eapply (alter_dir_keeps_file _ _ sn); [exact A1 | | | exact Hq].
      - intros es es' m [= <-] Nm. rewrite get_del_child.
        destruct (String.eqb sn m) eqn:Em; [|reflexivity].
        apply String.eqb_eq in Em. congruence.
      - now rewrite <- Es. }
    eapply (alter_dir_keeps_file _ _ dn); [exact Hr | | | exact Hq1].
    + intros es es' m [= <-] Nm. rewrite get_set_child.
      destruct (String.eqb dn m) eqn:Em; [|reflexivity].
      apply String.eqb_eq in Em. congruence.
    + now rewrite <- Ed.
Qed.

Lemma alter_dir_total (d : path) (f : entries -> option entries) :
  forall t es es',
    lookup d t = Some (Dir es) -> f es = Some es' ->
    exists t', alter_dir d f t = Some t'.
Proof.
  induction d as [|n d IH]; intros t es es'; simpl.
  - intros [= ->] ->. simpl. eauto.
  - destruct t as [x|es0|]; try discriminate.
    destruct (get_child n es0) as [c|]; [|discriminate].
    intros L F. destruct (IH _ _ _ L F) as [c' ->]. simpl. eauto.
Qed.

(** Writing a regular file that can be read succeeds. *)
Lemma write_total (p : path) (s : string) (t : node) (d : file_data) :
  lookup p t = Some (File d) -> d <> Unreadable ->
  PurePath.is_top p = false ->
  exists t', write p s t = Some t'.
Proof.
  intros L Hd Top. unfold write. rewrite L, Top.
  pose proof (split_last p (not_top_nonempty p Top)) as E.
  rewrite E, lookup_app in L.
  destruct (lookup (removelast p) t) as [[x|es|]|] eqn:Lp; try discriminate.
  destruct (alter_dir_total (removelast p)
              (fun es => Some (set_child (last p "") (File (Utf8 s)) es))
              t es _ Lp eq_refl) as [t' A].
  exists t'. destruct d; [congruence | exact A | exact A].
Qed.

(** [write_text] changes what is read at the path written and below it,
    and nothing else. *)
Lemma write_frame (p : path) (s : string) (t t' : node) (q : path) :
  write p s t = Some t' -> ~ below p q -> ~ below q p ->
  lookup q t' = lookup q t.
Proof.
  unfold write. intros W Np Nq.
  assert (A : PurePath.is_top p = false
              /\ alter_dir (removelast p)
                   (fun es => Some (set_child (last p "") (File (Utf8 s)) es)) t
                 = Some t').
  { destruct (lookup p t) as [[[ |b|u]|es|]|] eqn:L; try discriminate;
      (destruct (PurePath.is_top p); [discriminate|]); auto. }
  destruct A as (Top & A).
  pose proof (split_last p (not_top_nonempty p Top)) as E.
  destruct (alter_dir_inside _ _ _ _ A) as (es & es' & L & [= <-] & R).
  destruct (below_dec (removelast p) q) as [[r Eq]|No].
  - destruct r as [|m r].
    { elim Nq. exists [last p ""]. rewrite Eq, List.app_nil_r. exact E. }
    rewrite Eq, R, lookup_join, L. simpl. rewrite get_set_child.
    destruct (String.eqb (last p "") m) eqn:Em; [|reflexivity].
    apply String.eqb_eq in Em; subst m. elim Np. exists r.
    rewrite Eq.
    transitivity ((removelast p ++ [last p ""]) ++ r);
      [now rewrite <- List.app_assoc | now rewrite <- E].
  - apply (alter_dir_outside _ _ _ _ _ A No).
    intros [r Er]. apply Nq. exists (r ++ [last p ""]).
    rewrite List.app_assoc, <- Er. exact E.
Qed.

(** Nothing lies below a regular file. *)
Lemma file_has_nothing_below (t : node) (p q : path) (x : file_data) (n : node) :
  lookup p t = Some (File x) -> lookup q t = Some n -> below p q -> q = p.
Proof.
  intros Lp Lq [r ->]. rewrite lookup_join, Lp in Lq.
  destruct r; [now rewrite List.app_nil_r | discriminate].
Qed.

(** [write_text] creates nothing but the file written. *)
Lemma write_keeps_none (p : path) (s : string) (t t' : node) (q : path) :
  write p s t = Some t' -> lookup q t = None -> q <> p -> lookup q t' = None.
Proof.
  intros W Lq Nq. destruct (write_spec _ _ _ _ W) as [Back _].
  destruct (below_dec p q) as [[r ->]|Np].
  - rewrite lookup_join, Back. destruct r; [|reflexivity].
    elim Nq. apply List.app_nil_r.
  - destruct (below_dec q p) as [[r E]|Nb].
    + exfalso. unfold write in W.
      assert (A : PurePath.is_top p = false
                  /\ exists f, alter_dir (removelast p) f t = Some t').
      { destruct (lookup p t) as [[[ |b|u]|es|]|]; try discriminate;
          (destruct (PurePath.is_top p); [discriminate|]); eauto. }
      destruct A as (Top & f & A).
      destruct (alter_dir_inside _ _ _ _ A) as (es & es' & L & _).
      destruct r as [|y r]; [elim Nq; now rewrite E, List.app_nil_r|].
      rewrite E, removelast_app, lookup_join, Lq in L by discriminate.
      discriminate.
    + rewrite (write_frame _ _ _ _ _ W Np Nb). exact Lq.
Qed.

(** A note that reads as text is a regular file of text, and what is
    read is that text with its line ends read as newlines. *)
Lemma read_text_ok (p : path) (t t' : node) (content : string) :
  Py.read_text p t = (Py.Ok content, t') ->
  t' = t
  /\ exists u, lookup p t = Some (File (Utf8 u))
               /\ content = Str.universal_newlines u.
Proof.
  unfold Py.read_text.
  destruct (lookup p t) as [[[ |b|u]| |]|]; try discriminate.
  intros [= <- <-]. eauto.
Qed.

Lemma read_text_of (p : path) (t : node) (u : string) :
  lookup p t = Some (File (Utf8 u)) ->
  Py.read_text p t = (Py.Ok (Str.universal_newlines u), t).
Proof. intros L. unfold Py.read_text. now rewrite L. Qed.

End TreeFacts.

(** ** File digests and the links of a note *)

Module HasherFacts.
Section WithHashlib.
Context {H : Hashlib}.

(** X1. [files_are_identical]: the answer does not depend on the order of
    the two files; it is [True] exactly when both can be read and their
    digests agree, so files of equal content are identical; a file that
    cannot be read is identical to nothing, not even to itself. *)
Theorem files_are_identical_spec (t : Store.node) (file1 file2 : path) :
  FileHasher.files_are_identical t file1 file2
  = FileHasher.files_are_identical t file2 file1
  /\ (FileHasher.files_are_identical t file1 file2 = true
      <-> exists b1 b2,
            Store.read_bytes t file1 = Some b1
            /\ Store.read_bytes t file2 = Some b2
            /\ hexdigest b1 = hexdigest b2)
  /\ (forall b,
        Store.read_bytes t file1 = Some b -> Store.read_bytes t file2 = Some b ->
        FileHasher.files_are_identical t file1 file2 = true)
  /\ (FileHasher.compute_hash t file1 = None ->
      FileHasher.files_are_identical t file1 file1 = false
      /\ FileHasher.files_are_identical t file1 file2 = false).
Proof.
  unfold FileHasher.files_are_identical, FileHasher.compute_hash.
  destruct (Store.read_bytes t file1) as [b1|], (Store.read_bytes t file2) as [b2|].
  - split; [apply String.eqb_sym|]. split; [|split].
    + rewrite String.eqb_eq. split.
      * intros E. exists b1, b2. auto.
      * intros (x & y & [= <-] & [= <-] & E). exact E.
    + intros b [= <-] [= <-]. apply String.eqb_refl.
    + discriminate.
  - split; [reflexivity|]. split; [|split].
    + split; [discriminate | intros (x & y & _ & E & _); discriminate].
    + discriminate.
    + discriminate.
  - split; [reflexivity|]. split; [|split].
    + split; [discriminate | intros (x & y & E & _); discriminate].
    + discriminate.
    + auto.
  - split; [reflexivity|]. split; [|split].
    + split; [discriminate | intros (x & y & E & _); discriminate].
    + discriminate.
    + auto.
Qed.

End WithHashlib.
End HasherFacts.

Module ParserFacts.
Import MarkdownParser StrFacts WalkFacts TreeFacts Spec.

Lemma bare_link_shape (s g : string) :
  bare_link s = Some g ->
  exists name, g = "_resources/" +++ name /\ name <> ""
               /\ Str.forallb not_bracket_or_bar name = true.
Proof.
  unfold bare_link.
  destruct (Str.strip_prefix "[[_resources/" s) as [r|]; [|discriminate].
  destruct (span_spec not_bracket_or_bar r) as [_ Hall].
  destruct (String.eqb (fst (Str.span not_bracket_or_bar r)) "") eqn:E;
    [discriminate|].
  intros [= <-]. eexists; split; [reflexivity|].
  split; [now apply String.eqb_neq | exact Hall].
Qed.

Lemma resource_link_shape (s : string) (groups : list string) (len : nat) :
  resource_link s = Some (groups, len) ->
  exists name, nth 1 groups "" = "_resources/" +++ name /\ name <> ""
               /\ Str.forallb not_bracket_or_bar name = true.
Proof.
  unfold resource_link.
  assert (W : match bare_link s with
              | Some g => Some (["[[" +++ g; g], 2 + String.length g)
              | None => None
              end = Some (groups, len) ->
              exists name, nth 1 groups "" = "_resources/" +++ name /\ name <> ""
                           /\ Str.forallb not_bracket_or_bar name = true).
  { destruct (bare_link s) as [g|] eqn:B; [|discriminate].
    intros [= <- _]. exact (bare_link_shape _ _ B). }
  destruct s as [|c r]; [exact W|].
  destruct (Ascii.eqb c "!") eqn:E.
  - apply Ascii.eqb_eq in E; subst c.
    destruct (bare_link r) as [g|] eqn:B; [|exact W].
    intros [= <- _]. exact (bare_link_shape _ _ B).
  - assert (N : c <> "!"%char) by now apply Ascii.eqb_neq.
    destruct c as [[] [] [] [] [] [] [] []]; try exact W. now elim N.
Qed.

Lemma findall_shape (s : string) :
  forall skip link,
    In link (Re.findall_from resource_link skip s) ->
    exists name, link = "_resources/" +++ name /\ name <> ""
                 /\ Str.forallb not_bracket_or_bar name = true.
Proof.
  induction s as [|c s IH]; intros skip link; [intros []|].
  cbn [Re.findall_from]. destruct skip as [|k]; [|apply IH].
  destruct (resource_link (String c s)) as [[groups len]|] eqn:M; [|apply IH].
  intros [<-|Hin]; [exact (resource_link_shape _ _ _ M) | eapply IH; eauto].
Qed.

Lemma split_no_sep (c : ascii) (s x : string) :
  In x (Str.split c s) -> Str.mem c x = false.
Proof.
  revert x; induction s as [|d s IH]; intros x; simpl.
  - intros [<-|[]]. reflexivity.
  - destruct (Ascii.eqb c d) eqn:E.
    + intros [<-|Hin]; [reflexivity | auto].
    + destruct (Str.split c s) as [|w ws].
      * intros [<-|[]]. simpl. now rewrite E.
      * intros [<-|Hin]; [|apply IH; now right].
        simpl. rewrite E. apply IH. now left.
Qed.

Lemma split_prefix (c : ascii) (a s : string) :
  Str.mem c a = false ->
  Str.split c (a +++ String c s) = a :: Str.split c s.
Proof.
  induction a as [|x a IH]; simpl.
  - now rewrite Ascii.eqb_refl.
  - intros Hm. apply orb_false_iff in Hm as [Hx Ha].
    now rewrite Hx, (IH Ha).
Qed.

Lemma last_keeps {A} (P : A -> Prop) (l : list A) (d : A) :
  Forall P l -> l <> [] -> P (last l d).
Proof.
  induction 1 as [|x l Hx Hl IH]; [congruence|]. intros _.
  destruct l as [|y l]; [exact Hx|]. apply IH. discriminate.
Qed.

(** The file name of a link: one part of a path, never empty. *)
Lemma link_file_name (name : string) :
  let n := PurePath.name (PurePath.of_string ("_resources/" +++ name)) in
  n <> "" /\ n <> "." /\ Str.mem "/" n = false.
Proof.
  set (keep := fun c => negb (String.eqb c "" || String.eqb c ".")).
  assert (E : PurePath.of_string ("_resources/" +++ name)
              = "_resources" :: filter keep (Str.split "/" name)).
  { unfold PurePath.of_string.
    change ("_resources/" +++ name) with ("_resources" +++ String "/" name).
    rewrite split_prefix by reflexivity. reflexivity. }
  cbv zeta. rewrite E.
  assert (All : Forall (fun x => x <> "" /\ x <> "." /\ Str.mem "/" x = false)
                       ("_resources" :: filter keep (Str.split "/" name))).
  { constructor; [repeat split; discriminate|].
    apply Forall_forall. intros x Hx. apply filter_In in Hx as [Hin Hk].
    unfold keep in Hk. apply negb_true_iff, orb_false_iff in Hk as [K1 K2].
    repeat split; [now apply String.eqb_neq | now apply String.eqb_neq|].
    eapply split_no_sep; eauto. }
  assert (T : PurePath.is_top ("_resources" :: filter keep (Str.split "/" name))
              = false).
  { now destruct (filter keep (Str.split "/" name)). }
  unfold PurePath.name. rewrite T.
  apply (last_keeps _ _ _ All). discriminate.
Qed.

Lemma name_of_child (d : path) (n : string) :
  n <> "" -> Str.mem "/" n = false ->
  PurePath.joinpath d n = d ++ [n] /\ PurePath.name (d ++ [n]) = n.
Proof.
  intros Hn Hs. unfold PurePath.joinpath, PurePath.name.
  apply String.eqb_neq in Hn. rewrite Hn. split; [reflexivity|].
  assert (T : PurePath.is_top (d ++ [n]) = false).
  { destruct d as [|x [|y d]]; simpl; auto. }
  rewrite T. apply last_last.
Qed.

Lemma links_come_from_text (file_path : path) (t : Store.node) (link : string) :
  In link (extract_resource_links file_path t) ->
  exists content,
    Py.read_text file_path t = (Py.Ok content, t) /\ In link (links_of content).
Proof.
  unfold extract_resource_links.
  pose proof (YearFacts.read_text_state file_path t) as St.
  destruct (Py.read_text file_path t) as [[content|e] t1]; [|intros []].
  simpl in St; subst t1. intros Hin. now exists content.
Qed.

(** X2. What [extract_resource_links] returns: every link is
    [_resources/] and a name that is not empty and holds neither a
    closing bracket nor a bar, read from a note that is text; the file
    name taken from a link is one path part, not empty, so the resource
    is looked for and put directly in a folder whatever folders the link
    names; a note that cannot be read has no links. *)
Theorem extract_resource_links_shape (file_path : path) (t : Store.node) :
  (forall link,
      In link (extract_resource_links file_path t) ->
      (exists content, Py.read_text file_path t = (Py.Ok content, t))
      /\ (exists name, link = "_resources/" +++ name /\ name <> ""
                       /\ Str.forallb not_bracket_or_bar name = true)
      /\ let resource_filename := PurePath.name (PurePath.of_string link) in
         resource_filename <> "" /\ Str.mem "/" resource_filename = false
         /\ forall folder,
              PurePath.joinpath folder resource_filename
              = folder ++ [resource_filename]
              /\ PurePath.name (folder ++ [resource_filename]) = resource_filename)
  /\ (forall e, fst (Py.read_text file_path t) = Py.Raise e ->
                extract_resource_links file_path t = []).
Proof.
  split.
  - intros link Hl.
    destruct (links_come_from_text _ _ _ Hl) as (content & R & Hin).
    split; [now exists content|].
    destruct (findall_shape _ _ _ Hin) as (name & -> & Hn & Hall).
    split; [now exists name|].
    destruct (link_file_name name) as (N1 & _ & N2). cbv zeta in *.
    split; [exact N1|]. split; [exact N2|].
    intros folder. now apply name_of_child.
  - intros e. unfold extract_resource_links.
    destruct (Py.read_text file_path t) as [[content|e'] t1]; [discriminate|auto].
Qed.

Lemma extract_resource_links_shape_witness :
  (exists name, "_resources/sub/a.png" = "_resources/" +++ name /\ name <> ""
                /\ Str.forallb not_bracket_or_bar name = true)
  /\ PurePath.name (PurePath.of_string "_resources/sub/a.png") = "a.png".
Proof.
  destruct (extract_resource_links_shape
              ["note.md"] (Vaults.two_links "![[_resources/sub/a.png|x]]"))
    as [Hshape _].
  destruct (Hshape "_resources/sub/a.png" (or_introl eq_refl)) as (_ & Hname & _).
  split; [exact Hname | reflexivity].
Defined.

(** A note that is text is written with what [re.sub] returns, where the
    write succeeds. *)
Lemma update_resource_link_outcome
      (md_file : path) (old_name new_name : string) (t t' : Store.node)
      (b : bool) :
  update_resource_link md_file old_name new_name t = (Py.Ok b, t') ->
  (b = false /\ t' = t)
  \/ (b = true
      /\ exists content new_content,
           Py.read_text md_file t = (Py.Ok content, t)
           /\ rewrite_link old_name new_name content = Some new_content
           /\ Store.write md_file new_content t = Some t').
Proof.
  unfold update_resource_link, Py.try_except, Py.bind.
  destruct (Py.read_text md_file t) as [[content|e] t1] eqn:R.
  - destruct (read_text_ok _ _ _ _ R) as [-> _].
    destruct (rewrite_link old_name new_name content) as [new_content|] eqn:S;
      [|simpl; discriminate].
    unfold Py.write_text, Py.os_op.
    destruct (Store.write md_file new_content t) as [t2|] eqn:W; simpl.
    + intros [= <- <-]. right. split; [reflexivity|]. eauto.
    + intros [= <- <-]. now left.
  - unfold Py.read_text in R.
    destruct (Store.lookup md_file t) as [[[ |x|u]| |]|]; try discriminate;
      injection R as <- <-; simpl; intros [= <- <-]; now left.
Qed.

(** X3. [update_resource_link] on a note that reads as text, where
    [re.sub] returns a text: when the answer is [True], the note was
    written with that text and reads back as it, line ends read as
    newlines, and every other file is as it was. On a note that cannot
    be read as text the answer is [False] and nothing is written. *)
Theorem update_resource_link_writes
        (md_file : path) (old_name new_name : string) (t : Store.node) :
  (forall content new_content t',
      Py.read_text md_file t = (Py.Ok content, t) ->
      rewrite_link old_name new_name content = Some new_content ->
      update_resource_link md_file old_name new_name t = (Py.Ok true, t') ->
      Py.read_text md_file t'
      = (Py.Ok (Str.universal_newlines new_content), t')
      /\ forall q x, q <> md_file ->
                     Store.lookup q t = Some (Store.File x) ->
                     Store.lookup q t' = Some (Store.File x))
  /\ (forall e, fst (Py.read_text md_file t) = Py.Raise e ->
                update_resource_link md_file old_name new_name t
                = (Py.Ok false, t)).
Proof.
  split.
  - intros content new_content t' R S U.
    destruct (update_resource_link_outcome _ _ _ _ _ _ U)
      as [[F _]|(_ & content' & new_content' & R' & S' & W)]; [discriminate|].
    rewrite R in R'. injection R' as <-. rewrite S in S'. injection S' as <-.
    destruct (write_spec _ _ _ _ W) as [Back Keep].
    split; [|exact Keep].
    now apply read_text_of.
  - intros e. unfold update_resource_link, Py.try_except, Py.bind, Py.read_text.
    destruct (Store.lookup md_file t) as [[[ |b|u]| |]|]; simpl;
      try discriminate; reflexivity.
Qed.

Lemma update_resource_link_writes_witness :
  Py.read_text ["note.md"]
    (snd (update_resource_link ["note.md"] "a.png" "b.png"
            (Vaults.two_links "![[_resources/a.png]]")))
  = (Py.Ok "![[_resources/b.png]]",
     snd (update_resource_link ["note.md"] "a.png" "b.png"
            (Vaults.two_links "![[_resources/a.png]]"))).
Proof.
  destruct (update_resource_link_writes
              ["note.md"] "a.png" "b.png"
              (Vaults.two_links "![[_resources/a.png]]")) as [Hw _].
  exact (proj1 (Hw "![[_resources/a.png]]" "![[_resources/b.png]]" _
                   eq_refl eq_refl eq_refl)).
Defined.

End ParserFacts.

(** ** What the locator finds *)

Module LocatorFacts.
Import Store StoreFacts WalkFacts Spec.

Lemma select_selects (pat : string) (es : entries) (n : string) :
  In n (Glob.select pat es) -> selects pat n.
Proof.
  unfold Glob.select, selects. destruct (Fnmatch.is_wildcard_pattern pat).
  - rewrite filter_In. tauto.
  - destruct (get_child pat es); intros []; auto. contradiction.
Qed.

(** Every path the walk yields is below where it started and ends in a
    name the pattern selects. *)
Lemma walk_names (pat : string) :
  forall t here p,
    In p (fst (Glob.walk pat here t)) ->
    exists rel n, p = here ++ rel ++ [n] /\ selects pat n.
Proof.
  intros t. induction t as [d| |es IH] using node_induction; intros here p.
  - intros [].
  - intros [].
  - rewrite walk_dir. cbn [fst]. intros Hin.
    apply in_app_or in Hin as [Hin|Hin].
    + apply in_map_iff in Hin as (n & <- & Hn).
      exists [], n. split; [reflexivity | eapply select_selects; eauto].
    + revert Hin.
      induction IH as [|[n c] es Hc _ IHes]; cbn [walk_entries]; [intros []|].
      cbn [snd] in Hc.
      destruct (Glob.walk pat (here ++ [n]) c) as [f1 a1] eqn:W.
      assert (Hf1 : In p f1 ->
                    exists rel m, p = here ++ rel ++ [m] /\ selects pat m).
      { intros Hin. destruct (Hc (here ++ [n]) p) as (rel & m & -> & Hm).
        - now rewrite W.
        - exists (n :: rel), m. split; [now rewrite <- List.app_assoc | exact Hm]. }
      destruct a1; [exact Hf1|].
      destruct (walk_entries pat here es) as [f2 a2].
      cbn [fst] in *. intros Hin.
      apply in_app_or in Hin as [Hin|Hin]; auto.
Qed.

Lemma find_resource_found (resource_name : string) (search_root p : path)
      (t : node) :
  In p (ResourceLocator.find_resource resource_name search_root t) ->
  is_file t p = true
  /\ exists rel n, p = search_root ++ rel ++ [n] /\ selects resource_name n.
Proof.
  unfold ResourceLocator.find_resource, Glob.rglob.
  rewrite filter_In. intros [Hin Hf]. split; [exact Hf|].
  destruct (lookup search_root t) as [d|]; [|destruct Hin].
  eapply walk_names; eauto.
Qed.

(** X4. [find_resource] on a name that [rglob] reads as a pattern of
    one part, wildcards allowed: every path returned is a regular file
    below the search root whose name the pattern made of
    [resource_name] selects, that is the name itself when it has no
    wildcard; a root that is missing or a file gives the empty list. *)
Theorem find_resource_sound (resource_name : string) (search_root : path)
        (t : node) :
  Spec.one_part_pattern resource_name ->
  (forall p,
      In p (ResourceLocator.find_resource resource_name search_root t) ->
      is_file t p = true
      /\ exists rel n, p = search_root ++ rel ++ [n] /\ selects resource_name n)
  /\ (is_dir t search_root = false ->
      ResourceLocator.find_resource resource_name search_root t = []).
Proof.
  intros _. split; [intros p; apply find_resource_found|].
  unfold ResourceLocator.find_resource, Glob.rglob.
  - unfold is_dir.
    destruct (lookup search_root t) as [[d|es|]|]; try discriminate; reflexivity.
Qed.

Lemma find_resource_sound_witness :
  is_file Vaults.shots ["/"; "v"; "_resources"; "shot1.png"] = true
  /\ exists rel n,
       ["/"; "v"; "_resources"; "shot1.png"] = ["/"; "v"] ++ rel ++ [n]
       /\ selects "shot?.png" n.
Proof.
  apply (proj1 (find_resource_sound "shot?.png" ["/"; "v"] Vaults.shots
                  ltac:(repeat split; discriminate))).
  right. left. reflexivity.
Defined.

(** X5. [find_resource] on a name without wildcard, in a tree whose
    directories can all be scanned: the paths returned are exactly the
    regular files of that name below the search root. *)
Theorem find_resource_plain_exact (resource_name : string)
        (search_root : path) (t d : node) (p : path) :
  Spec.plain_name resource_name ->
  lookup search_root t = Some d ->
  Spec.sound_tree d ->
  In p (ResourceLocator.find_resource resource_name search_root t)
  <-> is_file t p = true
      /\ exists rel, p = search_root ++ rel ++ [resource_name].
Proof.
  intros Hn Hroot Hs. split.
  - now apply find_resource_plain_sound.
  - intros [Hf [rel ->]]. eapply find_resource_plain_complete; eauto.
Qed.

Lemma find_resource_plain_exact_witness :
  In ["vault"; "_resources"; "a.png"]
     (ResourceLocator.find_resource "a.png" ["vault"]
        (Dir [("vault",
               Dir [("_resources", Dir [("a.png", File (Binary "x"))])])])).
Proof.
  apply (find_resource_plain_exact "a.png" ["vault"] _
           (Dir [("_resources", Dir [("a.png", File (Binary "x"))])])).
  - repeat split; discriminate.
  - reflexivity.
  - simpl. repeat split; repeat constructor; simpl; tauto.
  - split; [reflexivity|]. now exists ["_resources"].
Defined.

Lemma existsb_key (name : string) (results : list (string * list path)) :
  existsb (fun kv => String.eqb (fst kv) name) results = true
  <-> In name (map fst results).
Proof.
  rewrite existsb_exists, in_map_iff. split.
  - intros ([k v] & Hin & E). apply String.eqb_eq in E. now exists (k, v).
  - intros ([k v] & E & Hin). exists (k, v). split; [exact Hin|].
    now apply String.eqb_eq.
Qed.

(** X6. [find_all_resources]: the dictionary has one key for every name
    asked for and no other, and under each name what [find_resource]
    returns for it. *)
Theorem find_all_resources_spec (resource_names : list string)
        (search_root : path) (t : node) :
  let results :=
    ResourceLocator.find_all_resources resource_names search_root t in
  NoDup (map fst results)
  /\ (forall name, In name (map fst results) <-> In name resource_names)
  /\ (forall name found,
        In (name, found) results ->
        found = ResourceLocator.find_resource name search_root t).
Proof.
  cbv zeta. unfold ResourceLocator.find_all_resources.
  set (step := fun (results : list (string * list path)) resource_name => _).
  assert (G : forall ns acc,
             NoDup (map fst acc) ->
             (forall name found, In (name, found) acc ->
                found = ResourceLocator.find_resource name search_root t) ->
             NoDup (map fst (fold_left step ns acc))
             /\ (forall name, In name (map fst (fold_left step ns acc))
                              <-> In name (map fst acc) \/ In name ns)
             /\ (forall name found,
                   In (name, found) (fold_left step ns acc) ->
                   found = ResourceLocator.find_resource name search_root t)).
  { induction ns as [|n ns IH]; intros acc Hnd Hv; simpl.
    - split; [exact Hnd|]. split; [tauto | exact Hv].
    - assert (K : map fst (step acc n) = map fst acc
                  \/ (~ In n (map fst acc) /\ step acc n
                      = acc ++ [(n, ResourceLocator.find_resource n search_root t)])).
      { unfold step.
        destruct (existsb _ acc) eqn:E.
        - left. rewrite map_map. apply map_ext. intros [k v]; simpl.
          destruct (String.eqb k n) eqn:Ek; [|reflexivity].
          apply String.eqb_eq in Ek. now subst.
        - right. split; [|reflexivity]. intros Hin.
          apply existsb_key in Hin. congruence. }
      assert (In_n : In n (map fst (step acc n))).
      { unfold step. destruct (existsb _ acc) eqn:E.
        - apply existsb_key in E. rewrite map_map.
          apply in_map_iff in E as ([k v] & <- & Hin).
          apply in_map_iff. exists (k, v). split; [|exact Hin].
          simpl. now rewrite String.eqb_refl.
        - rewrite map_app, in_app_iff. right. now left. }
      assert (Keys : forall name, In name (map fst (step acc n))
                                  <-> In name (map fst acc) \/ name = n).
      { intros name. destruct K as [K|[Hout K]].
        - rewrite K. split; [auto|]. intros [Hx | ->]; [assumption|].
          now rewrite <- K.
        - rewrite K, map_app, in_app_iff. simpl. intuition. }
      destruct (IH (step acc n)) as (N & I & V).
      + destruct K as [K|[Hout K]]; [now rewrite K|].
        rewrite K, map_app. simpl.
        apply NoDup_app; [exact Hnd | repeat constructor; intros [] |].
        intros x Hx [<-|[]]. contradiction.
      + intros name found. unfold step.
        destruct (existsb _ acc) eqn:E.
        * intros Hin. apply in_map_iff in Hin as ([k v] & Ekv & Hin).
          simpl in Ekv. destruct (String.eqb k n) eqn:Ek.
          -- now injection Ekv as <- <-.
          -- injection Ekv as <- <-. eapply Hv; eauto.
        * intros Hin. apply in_app_or in Hin as [Hin|[[= <- <-]|[]]];
            [eapply Hv; eauto | reflexivity].
      + split; [exact N|]. split; [|exact V].
        intros name. rewrite I, Keys. intuition. }
  destruct (G resource_names []) as (N & I & V); [constructor | intros ? ? []|].
  split; [exact N|]. split; [|exact V].
  intros name. rewrite I. simpl. tauto.
Qed.

End LocatorFacts.

(** ** The resource manager of the year sort *)

Module ManagerFacts.
Import Store StoreFacts WalkFacts TreeFacts Spec ResourceManager.

Section WithHashlib.
Context {H : Hashlib}.

Lemma count_total (st : stats) (r : result) :
  resources_counted (count st r) <= S (resources_counted st)
  /\ (fst (fst r) = true -> errors (count st r) = errors st).
Proof.
  destruct r as [[success new] status]. unfold count, resources_counted.
  destruct success; simpl; [|split; [lia | discriminate]].
  destruct (String.eqb status "moved"); simpl; [split; [lia | reflexivity]|].
  destruct (String.eqb status "renamed"); simpl; [split; [lia | reflexivity]|].
  destruct (String.eqb status "missing"); simpl; split; auto; lia.
Qed.

Lemma move_resource_file_dry_succeeds
      (source_resource target_resource md_file : path) (resource_name : string)
      (t : node) :
  exists r,
    move_resource_file false source_resource target_resource md_file
                       resource_name t = (Py.Ok r, t)
    /\ fst (fst r) = true.
Proof.
  unfold move_resource_file.
  destruct (exists_ t source_resource); simpl negb; cbv iota; [|eauto].
  destruct (exists_ t target_resource); [|eauto].
  destruct (FileHasher.files_are_identical t source_resource target_resource);
    eauto.
Qed.

Lemma move_each_counts (execute : bool) (md_file : path)
      (resource_links : list string) (resources_path year_dir : path) :
  forall st t st' t',
    move_each execute md_file resource_links resources_path year_dir st t
    = (Py.Ok st', t') ->
    resources_counted st' <= resources_counted st + length resource_links
    /\ (execute = false -> errors st' = errors st /\ t' = t).
Proof.
  induction resource_links as [|link links IH]; intros st t st' t'.
  - simpl. intros [= <- <-]. split; [lia | auto].
  - cbn [move_each]. unfold Py.bind at 1.
    match goal with
    | |- context [move_resource_file execute ?a ?b ?c ?d t] =>
        set (src := a); set (tgt := b); set (nm := d);
        destruct (move_resource_file execute src tgt c nm t) as [[r|e] t1] eqn:M
    end; [|discriminate].
    intros Hrest. destruct (IH _ _ _ _ Hrest) as [B D].
    destruct (count_total st r) as [C E]. split; [simpl; lia|].
    intros ->. destruct (D eq_refl) as [D1 ->].
    destruct (move_resource_file_dry_succeeds src tgt md_file nm t)
      as (r' & M' & S').
    rewrite M' in M. injection M as <- <-. rewrite D1. auto.
Qed.

(** X7. [move_resources_for_markdown]: when it returns, the four counters
    add up to no more than the number of links, every link counting once
    unless its resource is already at the target; without links all
    four are zero and nothing is touched; in a dry run no error is
    counted. *)
Theorem move_resources_for_markdown_counts
        (execute : bool) (md_file : path) (resource_links : list string)
        (resources_path year_dir : path) (t t' : node) (st : stats) :
  move_resources_for_markdown execute md_file resource_links resources_path
                              year_dir t = (Py.Ok st, t') ->
  moved st + renamed st + missing st + errors st <= length resource_links
  /\ (resource_links = [] -> t' = t)
  /\ (execute = false -> errors st = 0 /\ t' = t).
Proof.
  unfold move_resources_for_markdown. intros M.
  split; [|split].
  - destruct (move_each_counts _ _ _ _ _ _ _ _ _ M) as [B _].
    unfold resources_counted in B. simpl in B. exact B.
  - intros ->. simpl in M. now injection M.
  - destruct (move_each_counts _ _ _ _ _ _ _ _ _ M) as [_ D]. exact D.
Qed.

(** X8. A resource that [move_resource_file] reports as moved: the
    target was free, the file is at the target afterwards with the
    content it had, the source is gone, and every other file of the
    tree is where it was. *)
Theorem move_resource_file_moved
        (source_resource target_resource md_file : path)
        (resource_name : string) (new_filename : option string)
        (t t' : node) (d : file_data) :
  move_resource_file true source_resource target_resource md_file
                     resource_name t
  = (Py.Ok (true, new_filename, "moved"), t') ->
  lookup source_resource t = Some (File d) ->
  exists_ t target_resource = false
  /\ lookup target_resource t' = Some (File d)
  /\ lookup source_resource t' = None
  /\ forall q x, q <> source_resource ->
                 lookup q t = Some (File x) -> lookup q t' = Some (File x).
Proof.
  unfold move_resource_file. intros M L.
  assert (Es : exists_ t source_resource = true) by (unfold exists_; now rewrite L).
  rewrite Es in M. simpl negb in M. cbv iota in M.
  destruct (exists_ t target_resource) eqn:Et.
  { destruct (FileHasher.files_are_identical t source_resource target_resource);
      [discriminate|].
    unfold Py.try_except, Py.bind, Py.rename, Py.os_op in M.
    destruct (Store.rename source_resource _ t) as [t1|]; [|discriminate].
    destruct (MarkdownParser.update_resource_link _ _ _ t1) as [[b|[]] t2];
      discriminate. }
  split; [reflexivity|].
  unfold Py.try_except, Py.bind, Py.mkdir_parents, Py.rename, Py.os_op in M.
  destruct (mkdirs (PurePath.parent target_resource) t) as [t1|] eqn:Mk;
    [|discriminate].
  destruct (Store.rename source_resource target_resource t1) as [t2|] eqn:Rn;
    [|discriminate].
  simpl in M. injection M as <- <-.
  pose proof (mkdirs_keeps_files _ _ _ _ _ Mk L) as L1.
  assert (Ne : source_resource <> target_resource).
  { intros E. rewrite <- E in Et. congruence. }
  destruct (rename_spec _ _ _ _ Rn Ne) as (Rt & Rs & Rf & Rm).
  split; [now rewrite Rt|]. split; [exact Rs|].
  intros q x Nq Lq.
  pose proof (mkdirs_keeps_files _ _ _ _ _ Mk Lq) as Lq1.
  apply Rf; [| |exact Lq1].
  - intros [r ->]. rewrite lookup_join, L1 in Lq1.
    destruct r; [rewrite List.app_nil_r in Nq; congruence | discriminate].
  - intros [r ->]. rewrite lookup_join in Lq1.
    destruct (lookup target_resource t1) as [old|] eqn:Lo; [|discriminate].
    specialize (Rm _ _ L1 eq_refl).
    destruct old as [o| |]; try discriminate.
    destruct r; [|discriminate].
    rewrite List.app_nil_r in Lq. unfold exists_ in Et. now rewrite Lq in Et.
Qed.

Lemma unique_is_free (target_path : path) (t : node) :
  exists_ t (get_unique_filename target_path t) = false.
Proof.
  unfold get_unique_filename.
  destruct (exists_ t target_path) eqn:E; cbn [negb]; [|exact E].
  destruct (UniqueFacts.first_free_total target_path t) as [q F].
  rewrite F. now destruct (UniqueFacts.first_free_some _ _ _ _ _ F)
    as (n & _ & _ & Hfree & _).
Qed.

(** X9. A resource that [move_resource_file] reports as renamed, where
    the source and the target are two regular files and the note is a
    third, readable one: the file at the target is not overwritten, the
    resource is afterwards under the new name [get_unique_filename]
    chose, a path that was free, and the source is gone. The link of
    the note was updated after the rename, with the new name, and the
    answer of that update is not looked at: where it is [True], the
    note reads as what [re.sub] returns for the new name. *)
Theorem move_resource_file_renamed
        (source_resource target_resource md_file : path)
        (resource_name new_filename content : string)
        (t t' : node) (d o : file_data) :
  move_resource_file true source_resource target_resource md_file
                     resource_name t
  = (Py.Ok (true, Some new_filename, "renamed"), t') ->
  lookup source_resource t = Some (File d) ->
  lookup target_resource t = Some (File o) ->
  Py.read_text md_file t = (Py.Ok content, t) ->
  md_file <> source_resource -> md_file <> target_resource ->
  source_resource <> target_resource ->
  let unique_target := get_unique_filename target_resource t in
  new_filename = PurePath.name unique_target
  /\ exists_ t unique_target = false
  /\ lookup unique_target t' = Some (File d)
  /\ lookup target_resource t' = Some (File o)
  /\ lookup source_resource t' = None
  /\ exists t1 updated,
       Store.rename source_resource unique_target t = Some t1
       /\ MarkdownParser.update_resource_link md_file resource_name
                                              new_filename t1
          = (Py.Ok updated, t')
       /\ forall new_content,
            MarkdownParser.rewrite_link resource_name new_filename content
            = Some new_content ->
            updated = true ->
            Py.read_text md_file t'
            = (Py.Ok (Str.universal_newlines new_content), t').
Proof.
  intros M Ls Lt R Nms Nmt Nst u.
  pose proof (unique_is_free target_resource t) as Free. fold u in Free.
  destruct (read_text_ok _ _ _ _ R) as (_ & raw & Lm & Ec).
  unfold move_resource_file in M.
  assert (Es : exists_ t source_resource = true) by (unfold exists_; now rewrite Ls).
  assert (Et : exists_ t target_resource = true) by (unfold exists_; now rewrite Lt).
  rewrite Es, Et in M. simpl negb in M. cbv iota in M.
  destruct (FileHasher.files_are_identical t source_resource target_resource);
    [discriminate|].
  fold u in M.
  unfold Py.try_except, Py.bind at 1, Py.rename, Py.os_op in M.
  destruct (Store.rename source_resource u t) as [t1|] eqn:Rn; [|discriminate].
  assert (Nsu : source_resource <> u).
  { intros E. rewrite <- E in Free. congruence. }
  destruct (rename_spec _ _ _ _ Rn Nsu) as (Ru & Rs & Rf & _).
  assert (Out : forall q x, lookup q t = Some (File x) -> q <> source_resource ->
                            lookup q t1 = Some (File x)).
  { intros q x Lq Nq. apply Rf; [| |exact Lq].
    - intros B. apply Nq. eapply file_has_nothing_below; eauto.
    - intros [r ->]. rewrite lookup_join in Lq. unfold exists_ in Free.
      destruct (lookup u t); discriminate. }
  pose proof (Out _ _ Lt (not_eq_sym Nst)) as Lt1.
  pose proof (Out _ _ Lm Nms) as Lm1.
  assert (R1 : Py.read_text md_file t1 = (Py.Ok content, t1)).
  { rewrite Ec. now apply read_text_of. }
  assert (Nmu : u <> md_file).
  { intros E. rewrite E in Free. unfold exists_ in Free. now rewrite Lm in Free. }
  unfold Py.bind in M.
  destruct (MarkdownParser.update_resource_link md_file resource_name
              (PurePath.name u) t1) as [[b|e] t2] eqn:U.
  - simpl in M. injection M as <- <-.
    rewrite Ls in Ru.
    destruct (ParserFacts.update_resource_link_outcome _ _ _ _ _ _ U)
      as [[-> ->]|(-> & content' & new_content & R' & S & W)].
    + split; [reflexivity|]. split; [exact Free|].
      split; [exact Ru|]. split; [exact Lt1|]. split; [exact Rs|].
      exists t1, false. split; [reflexivity|]. split; [exact U|].
      intros new_content _ F. discriminate.
    + rewrite R1 in R'. injection R' as <-.
      destruct (write_spec _ _ _ _ W) as [Back Keep].
      split; [reflexivity|]. split; [exact Free|].
      split; [apply Keep; [exact Nmu | exact Ru]|].
      split; [apply Keep; [auto | exact Lt1]|].
      split.
      * rewrite (write_frame _ _ _ _ _ W); [exact Rs | |].
        -- intros B. apply Nms. symmetry.
           eapply (file_has_nothing_below t); eauto.
        -- intros [r Er]. rewrite Er, lookup_join, Ls in Lm.
           destruct r; [rewrite List.app_nil_r in Er; congruence | discriminate].
      * exists t1, true. split; [reflexivity|]. split; [exact U|].
        intros new_content' S' _. rewrite S in S'. injection S' as <-.
        now apply read_text_of.
  - destruct e; simpl in M; discriminate.
Qed.

End WithHashlib.

Lemma move_resources_for_markdown_counts_witness :
  fst (move_resources_for_markdown true ["/"; "v"; "n.md"] ["_resources/5.png"]
         ["/"; "v"; "_resources"] ["/"; "v"; "2024"] Vaults.clash)
  = Py.Ok {| moved := 1; renamed := 0; missing := 0; errors := 0 |}
  /\ 1 + 0 + 0 + 0 <= 1.
Proof.
  split; [reflexivity|].
  exact (proj1 (move_resources_for_markdown_counts
                  true ["/"; "v"; "n.md"] ["_resources/5.png"]
                  ["/"; "v"; "_resources"] ["/"; "v"; "2024"] Vaults.clash
                  (snd (move_resources_for_markdown
                          true ["/"; "v"; "n.md"] ["_resources/5.png"]
                          ["/"; "v"; "_resources"] ["/"; "v"; "2024"]
                          Vaults.clash))
                  {| moved := 1; renamed := 0; missing := 0; errors := 0 |}
                  eq_refl)).
Defined.

Lemma move_resource_file_moved_witness :
  let t' :=
    snd (move_resource_file true ["/"; "v"; "_resources"; "5.png"]
           ["/"; "v"; "2024"; "_resources"; "5.png"] ["/"; "v"; "n.md"]
           "5.png" Vaults.clash) in
  lookup ["/"; "v"; "2024"; "_resources"; "5.png"] t'
  = Some (File (Binary "new"))
  /\ lookup ["/"; "v"; "_resources"; "5.png"] t' = None
  /\ lookup ["/"; "v"; "2023"; "_resources"; "5.png"] t'
     = Some (File (Binary "old")).
Proof.
  intros t'.
  destruct (move_resource_file_moved
              ["/"; "v"; "_resources"; "5.png"]
              ["/"; "v"; "2024"; "_resources"; "5.png"] ["/"; "v"; "n.md"]
              "5.png" None Vaults.clash t' (Binary "new") eq_refl eq_refl)
    as (_ & At & Gone & Keep).
  split; [exact At|]. split; [exact Gone|].
  apply Keep; [discriminate | reflexivity].
Defined.

Lemma move_resource_file_renamed_witness :
  let t' :=
    snd (move_resource_file true ["/"; "v"; "_resources"; "photo.png"]
           ["/"; "v"; "old"; "photo.png"] ["/"; "v"; "n.md"]
           "photo.png" (Vaults.two_copies (Binary "new"))) in
  lookup ["/"; "v"; "old"; "photo_1.png"] t' = Some (File (Binary "new"))
  /\ lookup ["/"; "v"; "old"; "photo.png"] t' = Some (File (Binary "PPP"))
  /\ lookup ["/"; "v"; "_resources"; "photo.png"] t' = None
  /\ Py.read_text ["/"; "v"; "n.md"] t'
     = (Py.Ok "![[_resources/photo_1.png]]", t').
Proof.
  intros t'.
  assert (M : move_resource_file true ["/"; "v"; "_resources"; "photo.png"]
                ["/"; "v"; "old"; "photo.png"] ["/"; "v"; "n.md"]
                "photo.png" (Vaults.two_copies (Binary "new"))
              = (Py.Ok (true, Some "photo_1.png", "renamed"), t'))
    by (vm_compute; reflexivity).
  destruct (move_resource_file_renamed
              ["/"; "v"; "_resources"; "photo.png"]
              ["/"; "v"; "old"; "photo.png"] ["/"; "v"; "n.md"]
              "photo.png" "photo_1.png" "![[_resources/photo.png]]"
              (Vaults.two_copies (Binary "new")) t' (Binary "new") (Binary "PPP")
              M eq_refl eq_refl eq_refl
              ltac:(discriminate) ltac:(discriminate) ltac:(discriminate))
    as (_ & _ & At & Kept & Gone & t1 & updated & Rn & U & Rewritten).
  split; [exact At|]. split; [exact Kept|]. split; [exact Gone|].
  assert (Eu : updated = true).
  { vm_compute in Rn. injection Rn as <-.
    vm_compute in U. now injection U as <-. }
  exact (Rewritten "![[_resources/photo_1.png]]" eq_refl Eu).
Defined.

End ManagerFacts.

(** ** Groups and conflicts *)

Module GroupFacts.
Import ResourceAnalyzer AncestorFacts PlanFacts CandidateFacts Spec.

Section Gets.
Context {K V : Type} (keq : K -> K -> bool).
Hypothesis keq_eq : forall a b, keq a b = true <-> a = b.

Lemma keq_refl (k : K) : keq k k = true.
Proof. now apply keq_eq. Qed.

Lemma get_append (k k' : K) (v : V) (d : Dict.t) :
  Dict.get keq k (Dict.append keq k' v d)
  = if keq k' k then extend (Dict.get keq k d) [v] else Dict.get keq k d.
Proof.
  induction d as [|[k0 vs] d IH]; simpl.
  - now destruct (keq k' k).
  - destruct (keq k0 k') eqn:E0; simpl.
    + apply keq_eq in E0; subst k0. now destruct (keq k' k).
    + destruct (keq k0 k) eqn:E1.
      * apply keq_eq in E1; subst k0.
        destruct (keq k' k) eqn:E2; [|reflexivity].
        apply keq_eq in E2; subst k'. rewrite keq_refl in E0. discriminate.
      * exact IH.
Qed.

Lemma In_get (k : K) (vs : list V) (d : Dict.t) :
  NoDup (map fst d) -> In (k, vs) d -> Dict.get keq k d = Some vs.
Proof.
  induction d as [|[k0 ws] d IH]; simpl; [intros _ []|].
  intros Hd. inversion Hd as [|? ? Hk Hd']; subst.
  intros [[= -> ->]|Hin]; [now rewrite keq_refl|].
  destruct (keq k0 k) eqn:E; [|auto].
  apply keq_eq in E; subst k0. elim Hk. apply in_map_iff. now exists (k, vs).
Qed.

End Gets.

Lemma extend_nil {V} (o : option (list V)) : extend o [] = o.
Proof. destruct o as [vs|]; simpl; [now rewrite List.app_nil_r | reflexivity]. Qed.

Lemma extend_cons {V} (o : option (list V)) (v : V) (l : list V) :
  extend (extend o [v]) l = extend o (v :: l).
Proof.
  destruct o as [vs|]; simpl; [now rewrite <- List.app_assoc | reflexivity].
Qed.

Lemma group_get (l : list ResourceReference) (p : path) :
  forall d0,
    Dict.get PurePath.eqb p (fold_left group_step l d0)
    = extend (Dict.get PurePath.eqb p d0)
             (map md_file_path (filter (grouped_at p) l)).
Proof.
  induction l as [|x l IH]; intros d0; [simpl; now rewrite extend_nil|].
  cbn [fold_left filter]. rewrite IH.
  assert (E : grouped_at p x
              = match resource_actual_path x with
                | Some q => PurePath.eqb q p
                            && negb (is_conflict (resource_hash x))
                | None => false
                end) by reflexivity.
  rewrite E. unfold group_step.
  destruct (resource_actual_path x) as [q|]; [|reflexivity].
  destruct (is_conflict (resource_hash x)); cbn [negb];
    [now rewrite andb_false_r|].
  rewrite andb_true_r, (get_append PurePath.eqb path_eqb_eq).
  destruct (PurePath.eqb q p); cbn [map]; [apply extend_cons | reflexivity].
Qed.

(** X10. [group_by_resource]: under each path the notes of exactly the
    references that were found at that path and are not flagged as a
    conflict, in the order of the references, a note once for every
    such reference; a path no such reference has is not a key; no key
    comes twice. *)
Theorem group_by_resource_spec (references : list ResourceReference) (p : path) :
  Dict.get PurePath.eqb p (group_by_resource references)
  = match filter (grouped_at p) references with
    | [] => None
    | r :: rs => Some (map md_file_path (r :: rs))
    end
  /\ NoDup (map fst (group_by_resource references))
  /\ (forall mds, In (p, mds) (group_by_resource references) -> mds <> []).
Proof.
  assert (G : Dict.get PurePath.eqb p (group_by_resource references)
              = match filter (grouped_at p) references with
                | [] => None
                | r :: rs => Some (map md_file_path (r :: rs))
                end).
  { unfold group_by_resource. fold group_step.
    change (fold_left _ references []) with (fold_left group_step references []).
    rewrite group_get. simpl.
    now destruct (filter (grouped_at p) references). }
  split; [exact G|]. split; [apply group_by_resource_keys|].
  intros mds Hin.
  rewrite (In_get PurePath.eqb path_eqb_eq _ _ _
                  (group_by_resource_keys references) Hin) in G.
  destruct (filter (grouped_at p) references); [discriminate|].
  injection G as ->. discriminate.
Qed.

Lemma string_eqb_eq (a b : string) : String.eqb a b = true <-> a = b.
Proof. apply String.eqb_eq. Qed.

Lemma name_get (l : list ResourceReference) (name : string) :
  forall d0,
    Dict.get String.eqb name (fold_left name_step l d0)
    = extend (Dict.get String.eqb name d0) (filter (named name) l).
Proof.
  induction l as [|x l IH]; intros d0; [simpl; now rewrite extend_nil|].
  cbn [fold_left filter]. rewrite IH.
  assert (E : named name x
              = truthy (resource_hash x) && negb (is_conflict (resource_hash x))
                && String.eqb (resource_name x) name) by reflexivity.
  rewrite E. unfold name_step.
  destruct (truthy (resource_hash x) && negb (is_conflict (resource_hash x)));
    cbn [andb]; [|reflexivity].
  rewrite (get_append String.eqb string_eqb_eq).
  destruct (String.eqb (resource_name x) name);
    [apply extend_cons | reflexivity].
Qed.

Lemma name_keys_NoDup (l : list ResourceReference) :
  forall d0, NoDup (map fst d0) -> NoDup (map fst (fold_left name_step l d0)).
Proof.
  induction l as [|x l IH]; intros d0 Hd; simpl; [assumption|].
  apply IH. unfold name_step.
  destruct (truthy (resource_hash x) && negb (is_conflict (resource_hash x)));
    [|assumption].
  now apply DictFacts.NoDup_append; [apply string_eqb_eq|].
Qed.

Lemma by_name_spec (references : list ResourceReference) (name : string)
      (rs : list ResourceReference) :
  In (name, rs) (by_name references)
  <-> rs = filter (named name) references /\ rs <> [].
Proof.
  assert (N : NoDup (map fst (by_name references))).
  { apply (name_keys_NoDup references []). constructor. }
  assert (G : Dict.get String.eqb name (by_name references)
              = extend None (filter (named name) references)).
  { apply (name_get references name []). }
  split.
  - intros Hin. rewrite (In_get String.eqb string_eqb_eq _ _ _ N Hin) in G.
    destruct (filter (named name) references); [discriminate|].
    injection G as ->. split; [reflexivity | discriminate].
  - intros [-> Hne].
    apply (DictFacts.get_In String.eqb string_eqb_eq).
    rewrite G. now destruct (filter (named name) references).
Qed.

Lemma count_distinct_more (l : list string) :
  (1 <? count_distinct l)%nat = true
  <-> exists a b, In a l /\ In b l /\ a <> b.
Proof.
  rewrite Nat.ltb_lt. split.
  - unfold count_distinct. intros Hlen.
    pose proof (NoDup_nodup string_dec l) as Hnd.
    destruct (nodup string_dec l) as [|a [|b r]] eqn:E; simpl in Hlen; try lia.
    exists a, b. split; [|split].
    + apply (nodup_In string_dec). rewrite E. now left.
    + apply (nodup_In string_dec). rewrite E. right; now left.
    + inversion Hnd as [|? ? Hout _]; subst. intros ->. apply Hout. now left.
  - intros (a & b & Ha & Hb & Hab).
    exact (count_distinct_two a b l Ha Hb Hab).
Qed.

Lemma named_real (name : string) (r : ResourceReference) (l : list ResourceReference) :
  In r (filter (named name) l) ->
  In r l /\ resource_name r = name /\ truthy (resource_hash r) = true
  /\ is_conflict (resource_hash r) = false.
Proof.
  rewrite filter_In. unfold named, Spec.real_hash.
  intros [Hin Hn]. apply andb_prop in Hn as [Hr Hn].
  apply andb_prop in Hr as [Ht Hc]. apply String.eqb_eq in Hn.
  apply negb_true_iff in Hc. auto.
Qed.

Lemma hashes_differ_spec (rs : list ResourceReference) :
  (forall r, In r rs -> truthy (resource_hash r) = true) ->
  hashes_differ rs = true
  <-> exists r1 r2, In r1 rs /\ In r2 rs /\ resource_hash r1 <> resource_hash r2.
Proof.
  intros Hall. unfold hashes_differ. rewrite count_distinct_more. split.
  - intros (a & b & Ha & Hb & Hab).
    apply In_somes, filter_In in Ha as [Ha _], Hb as [Hb _].
    apply in_map_iff in Ha as (r1 & E1 & H1), Hb as (r2 & E2 & H2).
    exists r1, r2. repeat split; auto. congruence.
  - intros (r1 & r2 & H1 & H2 & Hne).
    pose proof (Hall _ H1) as T1. pose proof (Hall _ H2) as T2.
    destruct (resource_hash r1) as [h1|] eqn:E1; [|discriminate].
    destruct (resource_hash r2) as [h2|] eqn:E2; [|discriminate].
    exists h1, h2. repeat split.
    + apply In_somes, filter_In. split; [|exact T1].
      apply in_map_iff. now exists r1.
    + apply In_somes, filter_In. split; [|exact T2].
      apply in_map_iff. now exists r2.
    + congruence.
Qed.

(** Two references to one name whose digests differ are listed under
    that name. *)
Lemma conflict_listed (references : list ResourceReference)
      (r1 r2 : ResourceReference) :
  In r1 references -> In r2 references ->
  resource_name r2 = resource_name r1 ->
  Spec.real_hash r1 = true -> Spec.real_hash r2 = true ->
  resource_hash r1 <> resource_hash r2 ->
  In (resource_name r1, filter (named (resource_name r1)) references)
     (detect_conflicts references)
  /\ In r1 (filter (named (resource_name r1)) references).
Proof.
  intros I1 I2 N2 R1 R2 Hd.
  assert (F1 : In r1 (filter (named (resource_name r1)) references)).
  { apply filter_In. split; [exact I1|]. unfold named.
    now rewrite R1, String.eqb_refl. }
  assert (F2 : In r2 (filter (named (resource_name r1)) references)).
  { apply filter_In. split; [exact I2|]. unfold named.
    now rewrite R2, N2, String.eqb_refl. }
  split; [|exact F1].
  unfold detect_conflicts. rewrite filter_In, by_name_spec. cbn [snd].
  split; [split; [reflexivity|]|].
  - intros E. rewrite E in F1. destruct F1.
  - apply hashes_differ_spec; [intros r Hr; now apply named_real in Hr|].
    exists r1, r2. auto.
Qed.

(** X11. [detect_conflicts]: a name is a key exactly when two references
    to it carry digests that differ; under it stand all references to
    that name that carry a digest, in their order, and none without a
    digest or flagged ['CONFLICT']. *)
Theorem detect_conflicts_spec (references : list ResourceReference)
        (name : string) (rs : list ResourceReference) :
  In (name, rs) (detect_conflicts references)
  <-> rs = filter (named name) references
      /\ exists r1 r2,
           In r1 references /\ In r2 references
           /\ resource_name r1 = name /\ resource_name r2 = name
           /\ Spec.real_hash r1 = true /\ Spec.real_hash r2 = true
           /\ resource_hash r1 <> resource_hash r2.
Proof.
  unfold detect_conflicts. rewrite filter_In, by_name_spec. cbn [snd].
  assert (Hall : forall r, In r (filter (named name) references) ->
                           truthy (resource_hash r) = true).
  { intros r Hr. now apply named_real in Hr. }
  split.
  - intros [[-> Hne] Hd]. split; [reflexivity|].
    apply (hashes_differ_spec _ Hall) in Hd as (r1 & r2 & H1 & H2 & Hd).
    exists r1, r2.
    pose proof H1 as F1. pose proof H2 as F2.
    apply filter_In in F1 as [_ F1], F2 as [_ F2].
    unfold named in F1, F2.
    apply andb_prop in F1 as [F1 _], F2 as [F2 _].
    apply named_real in H1 as (I1 & N1 & _), H2 as (I2 & N2 & _).
    repeat split; auto.
  - intros [-> (r1 & r2 & I1 & I2 & N1 & N2 & R1 & R2 & Hd)].
    subst name.
    destruct (conflict_listed references r1 r2 I1 I2 N2 R1 R2 Hd) as [L _].
    unfold detect_conflicts in L. rewrite filter_In, by_name_spec in L.
    exact L.
Qed.

End GroupFacts.

(** ** The ancestor as a function of the set of notes *)

Module AncestorOrder.
Import ResourceAnalyzer AncestorFacts Spec.

Lemma greatest_unique (r r' : path) (paths : list path) :
  greatest_common_ancestor r paths -> greatest_common_ancestor r' paths ->
  r = r'.
Proof.
  intros [C G] [C' G'].
  pose proof (G _ C') as E'. pose proof (G' _ C) as E.
  assert (L : length r <= length r').
  { rewrite E at 1. rewrite length_firstn. lia. }
  assert (L' : length r' <= length r).
  { rewrite E' at 1. rewrite length_firstn. lia. }
  rewrite E. replace (length r) with (length r') by lia. apply firstn_all.
Qed.

Lemma greatest_same_set (r : path) (paths paths' : list path) :
  (forall x, In x paths <-> In x paths') ->
  greatest_common_ancestor r paths -> greatest_common_ancestor r paths'.
Proof.
  intros S [C G]. split.
  - intros p Hp. apply C, S, Hp.
  - intros d Hd. apply G. intros p Hp. apply Hd, S, Hp.
Qed.

(** Two paths or more with a common ancestor: the method returns the
    one every common ancestor is a prefix of. *)
Lemma lca_many (base_path p q : path) (rest : list path) (d : path) :
  Spec.common_ancestor d (p :: q :: rest) ->
  greatest_common_ancestor
    (find_lowest_common_ancestor base_path (p :: q :: rest)) (p :: q :: rest).
Proof.
  intros Hd. rewrite lca_unfold.
  pose proof (proj2 (In_common_of d p q rest) Hd) as Hin.
  destruct (common_of p q rest) as [|a r] eqn:E; [destruct Hin|].
  destruct (deepest_spec r a) as [I M].
  assert (Hr : Spec.common_ancestor (deepest a r) (p :: q :: rest)).
  { apply In_common_of. now rewrite E. }
  split; [exact Hr|]. intros d' Hd'.
  pose proof (proj2 (In_common_of d' p q rest) Hd') as Hin'.
  rewrite E in Hin'. specialize (M d' Hin').
  pose proof (Hd' p (or_introl eq_refl)) as Dp.
  pose proof (Hr p (or_introl eq_refl)) as Rp.
  apply In_parents in Dp as (j & Hj & Ej), Rp as (k & Hk & Ek).
  assert (Lj : length d' = j) by (rewrite Ej, length_firstn; lia).
  assert (Lk : length (deepest a r) = k) by (rewrite Ek, length_firstn; lia).
  rewrite Lj, Ek, Ej. apply firstn_chain. lia.
Qed.

(** One path that is not an anchor: its parent is its greatest
    ancestor. *)
Lemma lca_one (p : path) :
  PurePath.is_top p = false -> greatest_common_ancestor (PurePath.parent p) [p].
Proof.
  intros Top. unfold PurePath.parent. rewrite Top.
  assert (Hp : p <> []) by (intros ->; discriminate).
  assert (E : removelast p = firstn (length p - 1) p).
  { rewrite (app_removelast_last "" Hp) at 2 3.
    rewrite List.length_app. simpl.
    replace (length (removelast p) + 1 - 1) with (length (removelast p)) by lia.
    now rewrite firstn_app, Nat.sub_diag, firstn_all, List.app_nil_r. }
  assert (F : floor p <= length p - 1).
  { unfold floor. destruct p as [|a [|b p]]; simpl in *; try congruence.
    - now rewrite Top.
    - destruct (Str.mem "/" a); lia. }
  assert (Lp : 0 < length p) by (destruct p; [congruence | simpl; lia]).
  split.
  - intros x [<-|[]]. apply In_parents. exists (length p - 1). split; [lia | exact E].
  - intros d Hd. specialize (Hd p (or_introl eq_refl)).
    apply In_parents in Hd as (k & Hk & ->).
    rewrite E, length_firstn. replace (Nat.min k (length p)) with k by lia.
    apply firstn_chain. lia.
Qed.

Lemma lca_cases (base_path : path) (paths : list path) :
  paths <> [] ->
  (forall x, In x paths -> PurePath.is_top x = false) ->
  greatest_common_ancestor (find_lowest_common_ancestor base_path paths) paths
  \/ ((forall d, ~ Spec.common_ancestor d paths)
      /\ find_lowest_common_ancestor base_path paths = base_path).
Proof.
  intros Hne Htop. destruct paths as [|p [|q rest]]; [congruence| |].
  - left. apply lca_one, Htop. now left.
  - destruct (common_of p q rest) as [|a r] eqn:E.
    + right. split; [|now rewrite lca_unfold, E].
      intros d Hd. apply In_common_of in Hd. now rewrite E in Hd.
    + left. apply (lca_many base_path p q rest a).
      apply In_common_of. rewrite E. now left.
Qed.

(** X12. The ancestor [find_lowest_common_ancestor] returns depends only
    on which notes are in the list, not on their order nor on how often
    a note comes: two lists of paths of files with the same members
    give the same directory. *)
Theorem find_lowest_common_ancestor_of_set
        (base_path : path) (paths paths' : list path) :
  paths <> [] -> paths' <> [] ->
  (forall x, In x paths <-> In x paths') ->
  (forall x, In x paths -> PurePath.is_top x = false) ->
  find_lowest_common_ancestor base_path paths
  = find_lowest_common_ancestor base_path paths'.
Proof.
  intros Hne Hne' S Htop.
  assert (Htop' : forall x, In x paths' -> PurePath.is_top x = false).
  { intros x Hx. apply Htop, S, Hx. }
  assert (S' : forall x, In x paths' <-> In x paths) by (intros x; symmetry; apply S).
  destruct (lca_cases base_path paths Hne Htop) as [G|[N E]],
           (lca_cases base_path paths' Hne' Htop') as [G'|[N' E']].
  - eapply greatest_unique; [exact G|]. eapply greatest_same_set; eauto.
  - exfalso. destruct G as [C _].
    apply (N' (find_lowest_common_ancestor base_path paths)).
    intros p Hp. apply C, S, Hp.
  - exfalso. destruct G' as [C _].
    apply (N (find_lowest_common_ancestor base_path paths')).
    intros p Hp. apply C, S, Hp.
  - congruence.
Qed.

Lemma find_lowest_common_ancestor_of_set_witness :
  find_lowest_common_ancestor ["/"; "v"]
    [["/"; "v"; "a"; "n1.md"]; ["/"; "v"; "b"; "n2.md"]; ["/"; "v"; "a"; "n1.md"]]
  = find_lowest_common_ancestor ["/"; "v"]
      [["/"; "v"; "b"; "n2.md"]; ["/"; "v"; "a"; "n1.md"]].
Proof.
  apply find_lowest_common_ancestor_of_set; try discriminate.
  - intros x. simpl. tauto.
  - intros x [<-|[<-|[<-|[]]]]; reflexivity.
Defined.

End AncestorOrder.

(** ** The references Phase 1 builds *)

Module ReferenceFacts.
Import Store StoreFacts ResourceAnalyzer CandidateFacts Spec.

Lemma matches_md (s : string) :
  Fnmatch.matches [Fnmatch.Char "."; Fnmatch.Char "m"; Fnmatch.Char "d"] s = true
  <-> s = ".md".
Proof.
  destruct s as [|a [|b [|c [|e r]]]]; simpl; try (split; discriminate).
  - rewrite andb_false_r. split; discriminate.
  - rewrite !andb_false_r. split; discriminate.
  - rewrite andb_true_r, !andb_true_iff, !Ascii.eqb_eq. split.
    + now intros (-> & -> & ->).
    + now intros [= -> -> ->].
  - rewrite !andb_false_r. split; discriminate.
Qed.

(** The names [*.md] selects are those that end in [.md]. *)
Lemma md_pattern (n : string) :
  Fnmatch.fnmatch "*.md" n = true <-> exists stem, n = stem +++ ".md".
Proof.
  unfold Fnmatch.fnmatch.
  change (Fnmatch.tokens_from 0 "*.md")
    with [Fnmatch.Star; Fnmatch.Char "."; Fnmatch.Char "m"; Fnmatch.Char "d"].
  induction n as [|c n IH].
  - split; [discriminate|].
    intros [stem E]. destruct stem; discriminate.
  - change (Fnmatch.matches [Fnmatch.Star; Fnmatch.Char "."; Fnmatch.Char "m";
                             Fnmatch.Char "d"] (String c n))
      with (Fnmatch.matches [Fnmatch.Char "."; Fnmatch.Char "m"; Fnmatch.Char "d"]
                            (String c n)
            || Fnmatch.matches [Fnmatch.Star; Fnmatch.Char "."; Fnmatch.Char "m";
                                Fnmatch.Char "d"] n).
    rewrite orb_true_iff, matches_md, IH. split.
    + intros [E|[stem ->]]; [exists ""; exact E | now exists (String c stem)].
    + intros [[|x stem] E]; [left; exact E|].
      right. exists stem. now injection E.
Qed.

Section WithHashlib.
Context {H : Hashlib}.

(** What one reference holds, whatever the candidates. *)
Lemma reference_for_shape (base_path : path) (t : node) (md_file : path)
      (resource_link : string) :
  let r := reference_for base_path t md_file resource_link in
  md_file_path r = md_file
  /\ resource_name r = PurePath.name (PurePath.of_string resource_link)
  /\ match resource_actual_path r with
     | None =>
         resource_hash r = None
         /\ ResourceLocator.find_resource (resource_name r) base_path t = []
     | Some p =>
         In p (ResourceLocator.find_resource (resource_name r) base_path t)
         /\ (resource_hash r = FileHasher.compute_hash t p
             \/ resource_hash r = Some CONFLICT)
     end.
Proof.
  cbv zeta. unfold reference_for.
  destruct (ResourceLocator.find_resource _ base_path t) as [|p [|q rest]] eqn:F.
  - simpl. rewrite F. auto.
  - simpl. rewrite F. repeat split; auto. now left.
  - destruct (count_distinct _ =? 1)%nat; simpl; rewrite F;
      repeat split; auto; now left.
Qed.

(** X13. What [build_reference_array] returns: every reference names a
    note below the base path whose name ends in [.md] and that is
    readable text, and a resource name that is one path part, not
    empty; a reference without a path has no digest and [find_resource]
    found nothing for its name; a reference with a path points to a
    regular file below the base path that [find_resource] returned, and
    its digest is that of this file or the flag ['CONFLICT'], which is
    no digest. *)
Theorem build_reference_array_shape
        (base_path : path) (t : node) (references : list ResourceReference)
        (r : ResourceReference) :
  build_reference_array base_path t = Py.Ok references ->
  In r references ->
  (exists rel stem content,
      md_file_path r = base_path ++ rel ++ [stem +++ ".md"]
      /\ Py.read_text (md_file_path r) t = (Py.Ok content, t))
  /\ resource_name r <> "" /\ Str.mem "/" (resource_name r) = false
  /\ match resource_actual_path r with
     | None =>
         resource_hash r = None
         /\ ResourceLocator.find_resource (resource_name r) base_path t = []
     | Some p =>
         is_file t p = true
         /\ (exists rel n, p = base_path ++ rel ++ [n]
                           /\ selects (resource_name r) n)
         /\ (resource_hash r = FileHasher.compute_hash t p
             \/ resource_hash r = Some CONFLICT)
     end
  /\ forall b, hexdigest b <> CONFLICT.
Proof.
  unfold build_reference_array.
  destruct (Glob.rglob "*.md" base_path t) as [md_files raised] eqn:G.
  destruct raised; [discriminate|]. intros [= <-] Hin.
  apply in_flat_map in Hin as (md_file & Hmd & Hin).
  apply in_map_iff in Hin as (link & <- & Hlink).
  destruct (reference_for_shape base_path t md_file link) as (E1 & E2 & Hp).
  cbv zeta in *. rewrite E1, E2 in *.
  destruct (ParserFacts.links_come_from_text _ _ _ Hlink) as (content & R & Hl).
  destruct (ParserFacts.findall_shape _ _ _ Hl) as (name & -> & Hn & _).
  destruct (ParserFacts.link_file_name name) as (N1 & _ & N2). cbv zeta in *.
  split; [|split; [exact N1|split; [exact N2|split; [|apply conflict_is_no_digest]]]].
  - assert (W : In md_file (fst (Glob.rglob "*.md" base_path t)))
      by now rewrite G.
    unfold Glob.rglob in W.
    destruct (lookup base_path t) as [d|]; [|destruct W].
    apply LocatorFacts.walk_names in W as (rel & n & -> & Hsel).
    unfold selects in Hsel. change (Fnmatch.is_wildcard_pattern "*.md") with true in Hsel.
    cbv iota in Hsel. apply md_pattern in Hsel as [stem ->].
    exists rel, stem, content. auto.
  - destruct (resource_actual_path _) as [p|]; [|exact Hp].
    destruct Hp as [Hf Hh].
    apply LocatorFacts.find_resource_found in Hf as [Hf Hrel]. auto.
Qed.

End WithHashlib.

Lemma build_reference_array_shape_witness :
  exists rel stem content,
    ["/"; "v"; "c"; "n3.md"] = ["/"; "v"] ++ rel ++ [stem +++ ".md"]
    /\ Py.read_text ["/"; "v"; "c"; "n3.md"] Vaults.vault = (Py.Ok content, Vaults.vault).
Proof.
  assert (B : exists references,
             build_reference_array Vaults.vault_root Vaults.vault = Py.Ok references
             /\ In Vaults.settled_reference references).
  { eexists. split; [vm_compute; reflexivity|]. do 3 right. now left. }
  destruct B as (references & B & Hin).
  exact (proj1 (build_reference_array_shape
                  Vaults.vault_root Vaults.vault references
                  Vaults.settled_reference B Hin)).
Defined.

End ReferenceFacts.

(** ** The plan and the run of Phase 3 *)

Module OptimizerFacts.
Import Store StoreFacts WalkFacts TreeFacts ResourceAnalyzer ResourceOptimizer.
Import AncestorFacts PlanFacts RunFacts GroupFacts Spec.

Lemma plan_lengths (base_path : path) (conflicting : list path)
      (groups : list (path * list path)) :
  forall moves0 st0,
    let r := fold_left (plan_step base_path conflicting) groups (moves0, st0) in
    length (fst r) + skipped_conflict (snd r) + skipped_optimal (snd r)
    = length moves0 + skipped_conflict st0 + skipped_optimal st0 + length groups.
Proof.
  induction groups as [|[q ms] groups IH]; intros moves0 st0; cbv zeta in *;
    simpl; [lia|].
  destruct (mem_path q conflicting); [|destruct (PurePath.eqb q _)];
    rewrite IH; simpl; rewrite ?List.length_app; simpl; lia.
Qed.

Section WithHashlib.
Context {H : Hashlib}.

(** X14. Every resource of Phase 3 is accounted for once: the moves
    queued and the two kinds of skips add up to the number of groups,
    and when [optimize_resources] returns, moved, errors and the two
    skips add up to that number, the queue being as long as moved and
    errors together. *)
Theorem optimize_resources_accounts
        (execute : bool) (base_path : path) (t t' : node)
        (references : list ResourceReference) (moves : list move) (st : stats) :
  build_reference_array base_path t = Py.Ok references ->
  optimize_resources execute base_path t = (Py.Ok (moves, st), t') ->
  length (fst (plan base_path references))
  + skipped_conflict (snd (plan base_path references))
  + skipped_optimal (snd (plan base_path references))
  = length (group_by_resource references)
  /\ moved st + errors st = length moves
  /\ moved st + errors st + skipped_conflict st + skipped_optimal st
     = length (group_by_resource references).
Proof.
  intros B R.
  pose proof (plan_lengths base_path (conflict_paths (detect_conflicts references))
                           (group_by_resource references) [] no_stats) as L.
  cbv zeta in L. simpl in L. fold (plan base_path references) in L.
  rewrite (optimize_resources_unfold _ _ _ _ B) in R.
  destruct (run_moves execute _ _ t) as [[st'|e] t1] eqn:Rm; [|discriminate].
  injection R as <- <- <-.
  destruct (run_moves_counts _ _ _ _ _ _ Rm) as (C1 & C2 & C3).
  destruct (plan_stats_zero base_path references) as [Z1 Z2].
  rewrite Z1, Z2 in C1. split; [exact L|]. split; [exact C1|]. lia.
Qed.

End WithHashlib.

Lemma optimize_resources_accounts_witness :
  length (group_by_resource [Vaults.settled_reference]) = 1
  /\ moved (snd (plan Vaults.vault_root [Vaults.settled_reference]))
     + errors (snd (plan Vaults.vault_root [Vaults.settled_reference]))
     + skipped_conflict (snd (plan Vaults.vault_root [Vaults.settled_reference]))
     + skipped_optimal (snd (plan Vaults.vault_root [Vaults.settled_reference]))
     = length (group_by_resource [Vaults.settled_reference]).
Proof.
  split; [reflexivity|].
  exact (proj2 (proj2
    (optimize_resources_accounts (H := SampleFacts.sample_hashlib)
       true Vaults.vault_root
       (Dir [("/", Dir [("v", Dir [("c", Dir
          [("n3.md", File (Utf8 "![[_resources/r.png]]"));
           ("_resources", Dir [("r.png", File (Binary "RRR"))])])])])])
       _ [Vaults.settled_reference] []
       {| moved := 0; skipped_conflict := 0; skipped_optimal := 1; errors := 0 |}
       eq_refl eq_refl))).
Defined.

Section Conflicts.
Context {H : Hashlib}.

(** Two candidates whose digests differ flag the reference. *)
Lemma reference_for_flagged (base_path : path) (t : node) (md_file : path)
      (resource_link : string) (p1 p2 : path) (h1 h2 : string) :
  In p1 (ResourceLocator.find_resource
           (PurePath.name (PurePath.of_string resource_link)) base_path t) ->
  In p2 (ResourceLocator.find_resource
           (PurePath.name (PurePath.of_string resource_link)) base_path t) ->
  FileHasher.compute_hash t p1 = Some h1 ->
  FileHasher.compute_hash t p2 = Some h2 ->
  h1 <> h2 ->
  resource_hash (reference_for base_path t md_file resource_link)
  = Some CONFLICT.
Proof.
  intros In1 In2 E1 E2 Hne. unfold reference_for.
  destruct (ResourceLocator.find_resource _ base_path t) as [|a [|b rest]] eqn:F.
  - destruct In1.
  - destruct In1 as [<-|[]], In2 as [<-|[]]. congruence.
  - assert (C : 2 <= count_distinct
                  (somes (map (FileHasher.compute_hash t) (a :: b :: rest)))).
    { apply (CandidateFacts.count_distinct_two h1 h2); [| |assumption].
      - apply CandidateFacts.In_somes, in_map_iff. now exists p1.
      - apply CandidateFacts.In_somes, in_map_iff. now exists p2. }
    destruct (count_distinct _ =? 1)%nat eqn:E; [|reflexivity].
    apply Nat.eqb_eq in E. lia.
Qed.

(** X15. A resource in conflict is never moved. In a run of
    [optimize_resources], when every reference that was found at a
    file has, among the candidates for its name, two whose digests
    differ, all these references carry the flag ['CONFLICT'], the
    file is no key of the groups of Phase 3, and no move of it is
    queued. *)
Theorem conflicting_resource_is_not_moved
        (base_path : path) (t : node) (references : list ResourceReference)
        (p : path) :
  build_reference_array base_path t = Py.Ok references ->
  (forall r, In r references -> resource_actual_path r = Some p ->
             exists p1 p2 h1 h2,
               In p1 (ResourceLocator.find_resource (resource_name r)
                                                    base_path t)
               /\ In p2 (ResourceLocator.find_resource (resource_name r)
                                                       base_path t)
               /\ FileHasher.compute_hash t p1 = Some h1
               /\ FileHasher.compute_hash t p2 = Some h2
               /\ h1 <> h2) ->
  (forall r, In r references -> resource_actual_path r = Some p ->
             resource_hash r = Some CONFLICT)
  /\ Dict.get PurePath.eqb p (group_by_resource references) = None
  /\ forall target md_files,
       ~ In (p, target, md_files) (fst (plan base_path references)).
Proof.
  intros B Hall.
  assert (Flag : forall r, In r references -> resource_actual_path r = Some p ->
                           resource_hash r = Some CONFLICT).
  { intros r Hin Hp.
    destruct (Hall r Hin Hp) as (p1 & p2 & h1 & h2 & In1 & In2 & E1 & E2 & Hne).
    unfold build_reference_array in B.
    destruct (Glob.rglob "*.md" base_path t) as [md_files raised].
    destruct raised; [discriminate|]. injection B as <-.
    apply in_flat_map in Hin as (md_file & _ & Hin).
    apply in_map_iff in Hin as (link & <- & _).
    destruct (ReferenceFacts.reference_for_shape base_path t md_file link)
      as (_ & En & _).
    cbv zeta in En. rewrite En in In1, In2.
    exact (reference_for_flagged base_path t md_file link p1 p2 h1 h2
                                 In1 In2 E1 E2 Hne). }
  assert (G : Dict.get PurePath.eqb p (group_by_resource references) = None).
  { unfold group_by_resource. fold group_step.
    change (fold_left _ references []) with (fold_left group_step references []).
    rewrite group_get. simpl.
    destruct (filter (grouped_at p) references) as [|r rs] eqn:F; [reflexivity|].
    assert (Hr : In r (filter (grouped_at p) references)) by (rewrite F; now left).
    apply filter_In in Hr as [Hin Hg]. unfold grouped_at in Hg.
    destruct (resource_actual_path r) as [q|] eqn:Hq; [|discriminate].
    apply andb_prop in Hg as [Eq Nc]. apply path_eqb_eq in Eq. subst q.
    rewrite (Flag r Hin Hq) in Nc. discriminate. }
  split; [exact Flag|]. split; [exact G|].
  intros target md_files Hq. unfold plan in Hq.
  apply plan_moves in Hq as [[]|(Hin & _)].
  rewrite (In_get PurePath.eqb path_eqb_eq _ _ _
                  (group_by_resource_keys references) Hin) in G.
  discriminate.
Qed.

End Conflicts.

Lemma conflicting_resource_is_not_moved_witness :
  Dict.get PurePath.eqb ["/"; "v"; "_resources"; "photo.png"]
    (group_by_resource
       [{| md_file_path := ["/"; "v"; "n.md"];
           resource_name := "photo.png";
           resource_actual_path := Some ["/"; "v"; "_resources"; "photo.png"];
           resource_hash := Some CONFLICT |}])
  = None.
Proof.
  assert (Hall : forall r,
             In r [{| md_file_path := ["/"; "v"; "n.md"];
                      resource_name := "photo.png";
                      resource_actual_path :=
                        Some ["/"; "v"; "_resources"; "photo.png"];
                      resource_hash := Some CONFLICT |}] ->
             resource_actual_path r = Some ["/"; "v"; "_resources"; "photo.png"] ->
             exists p1 p2 h1 h2,
               In p1 (ResourceLocator.find_resource
                        (resource_name r) ["/"; "v"]
                        (Vaults.two_copies (Binary "new")))
               /\ In p2 (ResourceLocator.find_resource
                           (resource_name r) ["/"; "v"]
                           (Vaults.two_copies (Binary "new")))
               /\ FileHasher.compute_hash (H := SampleFacts.sample_hashlib)
                    (Vaults.two_copies (Binary "new")) p1 = Some h1
               /\ FileHasher.compute_hash (H := SampleFacts.sample_hashlib)
                    (Vaults.two_copies (Binary "new")) p2 = Some h2
               /\ h1 <> h2).
  { intros r [<-|[]] _.
    exists ["/"; "v"; "_resources"; "photo.png"], ["/"; "v"; "old"; "photo.png"],
           (Sample.digest "new"), (Sample.digest "PPP").
    split; [left; reflexivity|]. split; [right; left; reflexivity|].
    split; [reflexivity|]. split; [reflexivity|].
    intros E. vm_compute in E. discriminate. }
  exact (proj1 (proj2
    (conflicting_resource_is_not_moved
       (H := SampleFacts.sample_hashlib)
       ["/"; "v"] (Vaults.two_copies (Binary "new")) _
       ["/"; "v"; "_resources"; "photo.png"] eq_refl Hall))).
Defined.

End OptimizerFacts.

(** ** Moving one resource and rewriting its links *)

Module RelocateFacts.
Import Store StoreFacts WalkFacts TreeFacts ResourceOptimizer Spec.

Lemma replace_no_backslash (s : string) :
  Str.mem "\" (Str.replace_char "\" "/" s) = false.
Proof.
  induction s as [|c s IH]; [reflexivity|].
  cbn [Str.replace_char Str.mem]. rewrite IH, orb_false_r.
  destruct (Ascii.eqb c "\") eqn:E; [reflexivity|].
  now rewrite Ascii.eqb_sym.
Qed.

(** A text without backslash that does not make a template starts with
    a digit. *)
Lemma template_fails (s : string) :
  Str.mem "\" s = false ->
  Re.parse_template 2 ("\1" +++ s +++ "\2") = None ->
  exists c rest, s = String c rest /\ Str.is_digit c = true.
Proof.
  intros Hb P. destruct s as [|c rest].
  - rewrite NoteFacts.template_of_safe_name in P; [discriminate|].
    now split.
  - destruct (Str.is_digit c) eqn:D; [eauto|].
    rewrite NoteFacts.template_of_safe_name in P; [discriminate|].
    now split.
Qed.

(** What [_update_markdown_link] can do: nothing, raise on the template,
    or write the note. *)
Lemma update_link_outcome (md_file : path) (resource_name : string)
      (new_resource_path : path) (t t' : node) (r : Py.outcome bool) :
  _update_markdown_link md_file resource_name new_resource_path t = (r, t') ->
  (r = Py.Ok false /\ t' = t)
  \/ (r = Py.Raise Py.ReError /\ t' = t
      /\ Re.parse_template
           2 ("\1" +++ link_text md_file resource_name new_resource_path +++ "\2")
         = None)
  \/ (r = Py.Ok true
      /\ exists content new_content,
           lookup md_file t = Some (File (Utf8 content))
           /\ write md_file new_content t = Some t').
Proof.
  unfold _update_markdown_link, Py.try_except, Py.bind, Py.read_text.
  fold (link_text md_file resource_name new_resource_path).
  destruct (lookup md_file t) as [[[ |b|content]| |]|] eqn:L; simpl;
    try (intros [= <- <-]; now left).
  unfold Re.sub.
  destruct (Re.parse_template 2 _) as [items|] eqn:P.
  - unfold Py.write_text, Py.os_op.
    destruct (write md_file _ t) as [t1|] eqn:W; simpl; intros [= <- <-].
    + right; right. split; [reflexivity|]. eauto.
    + now left.
  - simpl. intros [= <- <-]. right; left. auto.
Qed.

Lemma update_link_keeps (md_file : path) (resource_name : string)
      (new_resource_path : path) (t t' : node) (r : Py.outcome bool) :
  _update_markdown_link md_file resource_name new_resource_path t = (r, t') ->
  (forall q x, q <> md_file -> lookup q t = Some (File x) ->
               lookup q t' = Some (File x))
  /\ (forall q, lookup q t = None -> lookup q t' = None).
Proof.
  intros U.
  destruct (update_link_outcome _ _ _ _ _ _ U)
    as [[_ ->]|[(_ & -> & _)|(_ & content & nc & L & W)]]; auto.
  split.
  - apply (write_spec _ _ _ _ W).
  - intros q Lq. eapply write_keeps_none; eauto. intros ->. congruence.
Qed.

Lemma for_each_keeps (resource_name : string) (target : path)
      (md_files : list path) :
  forall t t',
    Py.for_each md_files
      (fun md_file =>
         _update_markdown_link md_file resource_name target ;;; Py.ret tt) t
    = (Py.Ok tt, t') ->
    (forall q x, ~ In q md_files -> lookup q t = Some (File x) ->
                 lookup q t' = Some (File x))
    /\ (forall q, lookup q t = None -> lookup q t' = None).
Proof.
  induction md_files as [|md rest IH]; intros t t'.
  - simpl. intros [= <-]. auto.
  - cbn [Py.for_each]. unfold Py.bind at 1 2.
    destruct (_update_markdown_link md resource_name target t) as [[b|e] t1] eqn:U;
      [|discriminate].
    cbn [Py.ret]. intros F.
    destruct (update_link_keeps _ _ _ _ _ _ U) as [K1 N1].
    destruct (IH _ _ F) as [K2 N2]. split.
    + intros q x Hq Lq. apply K2; [intros Hin; apply Hq; now right|].
      apply K1; [intros ->; apply Hq; now left | exact Lq].
    + auto.
Qed.

(** X16. [_update_markdown_link] raises nothing but the error of the
    replacement template, before it writes anything, and only when the
    path it puts into the links starts with a digit; where the target
    is not below the directory of the note that path is
    [_resources/name] and nothing is raised. A note that cannot be read
    as text gives [False] and is not touched. *)
Theorem _update_markdown_link_raises
        (md_file : path) (resource_name : string) (new_resource_path : path)
        (t : node) :
  (forall e t',
      _update_markdown_link md_file resource_name new_resource_path t
      = (Py.Raise e, t') ->
      e = Py.ReError /\ t' = t
      /\ exists c rest,
           link_text md_file resource_name new_resource_path = String c rest
           /\ Str.is_digit c = true)
  /\ (PurePath.relative_to new_resource_path (PurePath.parent md_file) = None ->
      resource_name <> "" ->
      PurePath.to_string (PurePath.joinpath ["_resources"] resource_name)
      = "_resources/" +++ resource_name
      /\ forall e, fst (_update_markdown_link md_file resource_name
                                              new_resource_path t)
                   <> Py.Raise e)
  /\ (forall e, fst (Py.read_text md_file t) = Py.Raise e ->
                _update_markdown_link md_file resource_name new_resource_path t
                = (Py.Ok false, t)).
Proof.
  assert (Raises : forall e t',
      _update_markdown_link md_file resource_name new_resource_path t
      = (Py.Raise e, t') ->
      e = Py.ReError /\ t' = t
      /\ exists c rest,
           link_text md_file resource_name new_resource_path = String c rest
           /\ Str.is_digit c = true).
  { intros e t' U.
    destruct (update_link_outcome _ _ _ _ _ _ U)
      as [[E _]|[(E & -> & P)|(E & _)]]; try discriminate.
    injection E as ->. split; [reflexivity|]. split; [reflexivity|].
    apply template_fails; [apply replace_no_backslash | exact P]. }
  split; [exact Raises|]. split.
  - intros Rel Hn.
    assert (J : PurePath.to_string (PurePath.joinpath ["_resources"] resource_name)
                = "_resources/" +++ resource_name).
    { unfold PurePath.joinpath. apply String.eqb_neq in Hn. now rewrite Hn. }
    split; [exact J|]. intros e E.
    pose proof (Raises e (snd (_update_markdown_link
                                 md_file resource_name new_resource_path t)))
      as R.
    destruct (_update_markdown_link md_file resource_name new_resource_path t)
      as [r t'].
    simpl in E, R. subst r.
    destruct (R eq_refl) as (_ & _ & c & rest & Hl & Hd).
    unfold link_text in Hl. rewrite Rel, J in Hl.
    injection Hl as <- _. discriminate.
  - intros e. unfold _update_markdown_link, Py.try_except, Py.bind, Py.read_text.
    destruct (lookup md_file t) as [[[ |b|u]| |]|]; simpl;
      try discriminate; reflexivity.
Qed.

Lemma for_each_raises (resource_name : string) (target : path)
      (md_files : list path) :
  forall t t' e,
    Py.for_each md_files
      (fun md_file =>
         _update_markdown_link md_file resource_name target ;;; Py.ret tt) t
    = (Py.Raise e, t') ->
    e = Py.ReError.
Proof.
  induction md_files as [|md rest IH]; intros t t' e; [discriminate|].
  cbn [Py.for_each]. unfold Py.bind at 1 2.
  destruct (_update_markdown_link md resource_name target t) as [[b|e'] t1] eqn:U.
  - cbn [Py.ret]. apply IH.
  - intros [= <- _].
    destruct (update_link_outcome _ _ _ _ _ _ U)
      as [[E _]|[(E & _)|(E & _)]]; congruence.
Qed.

(** What [_move_resource] can do when it runs for real. *)
Lemma move_resource_outcome (source target : path) (md_files : list path)
      (t t' : node) (r : Py.outcome bool) :
  _move_resource true source target md_files t = (r, t') ->
  (r = Py.Ok false /\ mkdirs (PurePath.parent target) t = None /\ t' = t)
  \/ (exists t1,
        mkdirs (PurePath.parent target) t = Some t1
        /\ ((r = Py.Ok false /\ Store.rename source target t1 = None /\ t' = t1)
            \/ exists t2,
                 Store.rename source target t1 = Some t2
                 /\ (r = Py.Raise Py.ReError
                     \/ (r = Py.Ok true
                         /\ Py.for_each md_files
                              (fun md_file =>
                                 _update_markdown_link
                                   md_file (PurePath.name source) target ;;;
                                 Py.ret tt) t2
                            = (Py.Ok tt, t'))))).
Proof.
  intros M.
  unfold _move_resource, Py.try_except, Py.bind at 1, Py.mkdir_parents, Py.os_op
    in M.
  destruct (mkdirs (PurePath.parent target) t) as [t1|] eqn:Mk; cycle 1.
  { cbn in M. injection M as <- <-. now left. }
  right. exists t1. split; [reflexivity|].
  unfold Py.bind at 1, Py.rename, Py.os_op in M.
  destruct (Store.rename source target t1) as [t2|] eqn:Rn; cycle 1.
  { cbn in M. injection M as <- <-. now left. }
  right. exists t2. split; [reflexivity|].
  unfold Py.bind at 1 in M.
  destruct (Py.for_each md_files _ t2) as [[[]|e] t3] eqn:F.
  - cbn in M. injection M as <- <-. right. auto.
  - apply for_each_raises in F. subst e. cbn in M. injection M as <- _.
    now left.
Qed.

(** X17. [_move_resource] run for real on a regular file. When it
    answers [True] the file is at the target with the content it had
    and gone from the source, and every other file that is not one of
    the notes is where it was. When it answers [False] no file of the
    tree was moved or rewritten. It raises nothing but the error of a
    replacement template. *)
Theorem _move_resource_moves
        (source target : path) (md_files : list path) (t t' : node) :
  (forall d,
      _move_resource true source target md_files t = (Py.Ok true, t') ->
      lookup source t = Some (File d) ->
      source <> target -> ~ In target md_files ->
      lookup target t' = Some (File d)
      /\ lookup source t' = None
      /\ forall q x, q <> source -> q <> target -> ~ In q md_files ->
                     lookup q t = Some (File x) -> lookup q t' = Some (File x))
  /\ (_move_resource true source target md_files t = (Py.Ok false, t') ->
      forall q x, lookup q t = Some (File x) -> lookup q t' = Some (File x))
  /\ (forall e, _move_resource true source target md_files t = (Py.Raise e, t') ->
                e = Py.ReError).
Proof.
  split; [|split].
  - intros d M L Ne Nt.
    destruct (move_resource_outcome _ _ _ _ _ _ M)
      as [(E & _)|(t1 & Mk & [(E & _)|(t2 & Rn & [E|[_ F]])])];
      try discriminate.
    pose proof (mkdirs_keeps_files _ _ _ _ _ Mk L) as L1.
    destruct (rename_spec _ _ _ _ Rn Ne) as (Rt & Rs & Rf & Rm).
    destruct (for_each_keeps _ _ _ _ _ F) as [K N].
    split; [apply K; [exact Nt | now rewrite Rt]|].
    split; [apply N, Rs|].
    intros q x Nq Nqt Hq Lq. apply K; [exact Hq|].
    pose proof (mkdirs_keeps_files _ _ _ _ _ Mk Lq) as Lq1.
    apply Rf; [| |exact Lq1].
    + intros B. apply Nq. eapply file_has_nothing_below; eauto.
    + intros [r ->]. rewrite lookup_join in Lq1.
      destruct (lookup target t1) as [old|] eqn:Lo; [|discriminate].
      specialize (Rm _ _ L1 eq_refl).
      destruct old as [o| |]; try discriminate.
      destruct r; [|discriminate]. elim Nqt. apply List.app_nil_r.
  - intros M.
    destruct (move_resource_outcome _ _ _ _ _ _ M)
      as [(_ & _ & ->)|(t1 & Mk & [(_ & _ & ->)|(t2 & Rn & [E|[E _]])])];
      try discriminate; auto.
    intros q x. apply (mkdirs_keeps_files _ _ _ _ _ Mk).
  - intros e M.
    destruct (move_resource_outcome _ _ _ _ _ _ M)
      as [(E & _)|(t1 & Mk & [(E & _)|(t2 & Rn & [E|[E _]])])];
      congruence.
Qed.

Lemma _move_resource_moves_witness :
  let t' :=
    snd (_move_resource true ["/"; "v"; "a"; "_resources"; "p.png"]
           ["/"; "v"; "_resources"; "p.png"]
           [["/"; "v"; "a"; "n1.md"]; ["/"; "v"; "b"; "n2.md"]] Vaults.vault) in
  lookup ["/"; "v"; "_resources"; "p.png"] t' = Some (File (Binary "PPP"))
  /\ lookup ["/"; "v"; "a"; "_resources"; "p.png"] t' = None
  /\ lookup ["/"; "v"; "_resources"; "q.png"] t' = Some (File (Binary "QQQ")).
Proof.
  intros t'.
  assert (M : _move_resource true ["/"; "v"; "a"; "_resources"; "p.png"]
                ["/"; "v"; "_resources"; "p.png"]
                [["/"; "v"; "a"; "n1.md"]; ["/"; "v"; "b"; "n2.md"]] Vaults.vault
              = (Py.Ok true, t')) by (vm_compute; reflexivity).
  destruct (proj1 (_move_resource_moves _ _ _ _ _) (Binary "PPP") M eq_refl)
    as (At & Gone & Keep).
  - discriminate.
  - intros [E|[E|[]]]; discriminate.
  - split; [exact At|]. split; [exact Gone|].
    apply Keep; try discriminate; [|reflexivity].
    intros [E|[E|[]]]; discriminate.
Defined.

End RelocateFacts.

(** ** The year sort *)

Module SorterFacts.
Import Store StoreFacts WalkFacts TreeFacts Spec.
Import MarkdownParser FileSorter.

Section WithHashlib.
Context {H : Hashlib}.

(** The ways through [_process_file]. *)
Lemma process_file_outcome (execute : bool) (md_file base_path : path)
      (resources_path : option path) (st : SortStats.t) (t t' : node)
      (r : Py.outcome SortStats.t) :
  _process_file execute md_file base_path resources_path st t = (r, t') ->
  (extract_year_from_frontmatter md_file t = None
   /\ r = Py.Ok (SortStats.count_no_date st) /\ t' = t)
  \/ exists year,
       extract_year_from_frontmatter md_file t = Some year
       /\ ((exists_ t (target_of base_path year md_file) = true
            /\ r = Py.Ok (SortStats.count_exists st) /\ t' = t)
           \/ (exists_ t (target_of base_path year md_file) = false
               /\ ((execute = true
                    /\ r = Py.Ok (SortStats.count_error st)
                    /\ note_move_fails md_file base_path year t t')
                   \/ exists t2,
                        note_moved execute md_file base_path year t t2
                        /\ after_note_move
                             execute md_file base_path year resources_path
                             (extract_resource_links md_file t) st t2 r t'))).
Proof.
  unfold _process_file.
  destruct (extract_year_from_frontmatter md_file t) as [year|];
    [|intros [= <- <-]; now left].
  fold (year_dir_of base_path year). fold (target_of base_path year md_file).
  intros P. right. exists year. split; [reflexivity|].
  destruct (exists_ t (target_of base_path year md_file)) eqn:Ex;
    [injection P as <- <-; now left|].
  right. split; [reflexivity|].
  assert (Tail : forall t2,
    (let r0 := (true, SortStats.count_moved st) in
     if negb (fst r0) then Py.ret (snd r0)
     else
       match resources_path,
             match resources_path with
             | Some _ => extract_resource_links md_file t
             | None => []
             end with
       | Some rp, _ :: _ =>
           resource_stats <-
             ResourceManager.move_resources_for_markdown
               execute (if execute then target_of base_path year md_file
                        else md_file)
               match resources_path with
               | Some _ => extract_resource_links md_file t
               | None => []
               end rp (year_dir_of base_path year) ;;
           Py.ret (add_resource_stats (snd r0) resource_stats)
       | _, _ => Py.ret (snd r0)
       end) t2 = (r, t') ->
    after_note_move execute md_file base_path year resources_path
                    (extract_resource_links md_file t) st t2 r t').
  { intros t2. unfold after_note_move. cbv zeta. cbn [fst snd negb].
    destruct resources_path as [rp|]; [|intros [= <- <-]; left; auto].
    destruct (extract_resource_links md_file t) as [|l ls] eqn:El;
      [intros [= <- <-]; left; auto|].
    intros Q. right. exists rp. split; [reflexivity|]. split; [discriminate|].
    unfold Py.bind in Q.
    destruct (ResourceManager.move_resources_for_markdown _ _ _ _ _ t2)
      as [[rs|e] t3]; injection Q as <- <-; auto. }
  unfold Py.bind at 1, _move_markdown_file in P.
  destruct execute.
  - unfold Py.try_except, Py.bind at 1, Py.mkdir, Py.os_op in P.
    destruct (mkdir (year_dir_of base_path year) t) as [t1|] eqn:Mk; cycle 1.
    { cbn in P. injection P as <- <-. left. unfold note_move_fails. auto. }
    unfold Py.bind at 1, Py.rename, Py.os_op in P.
    destruct (Store.rename md_file (target_of base_path year md_file) t1)
      as [t2|] eqn:Rn; cycle 1.
    { cbn in P. injection P as <- <-. left. unfold note_move_fails. auto. }
    right. exists t2. split; [right; split; [reflexivity|]; eauto|].
    apply Tail. exact P.
  - right. exists t. split; [left; auto|]. apply Tail. exact P.
Qed.

Lemma year_means_text (md_file : path) (t : node) (year : nat) :
  extract_year_from_frontmatter md_file t = Some year ->
  exists content, lookup md_file t = Some (File (Utf8 content)).
Proof.
  unfold extract_year_from_frontmatter, Py.read_text.
  destruct (lookup md_file t) as [[[ |b|content]| |]|]; try discriminate.
  eauto.
Qed.

(** X18. [_process_file] on one note. A note without a year, which
    includes every note that cannot be read as text, is counted as
    skipped for its date and nothing is touched; a note whose place in
    the year directory is taken is counted as skipped and nothing is
    overwritten. Run for real without resources, a note with a year and
    a free place is either counted as moved, and then is in the year
    directory with its content and gone from where it was, every other
    file staying where it is, or counted as an error, and then no file
    was moved. *)
Theorem _process_file_moves_note
        (execute : bool) (md_file base_path : path)
        (resources_path : option path) (st : SortStats.t) (t : node) :
  (extract_year_from_frontmatter md_file t = None ->
   _process_file execute md_file base_path resources_path st t
   = (Py.Ok (SortStats.count_no_date st), t))
  /\ (forall e, fst (Py.read_text md_file t) = Py.Raise e ->
                extract_year_from_frontmatter md_file t = None)
  /\ (forall year,
        extract_year_from_frontmatter md_file t = Some year ->
        exists_ t (target_of base_path year md_file) = true ->
        _process_file execute md_file base_path resources_path st t
        = (Py.Ok (SortStats.count_exists st), t))
  /\ (forall year st' t',
        extract_year_from_frontmatter md_file t = Some year ->
        exists_ t (target_of base_path year md_file) = false ->
        _process_file true md_file base_path None st t = (Py.Ok st', t') ->
        (st' = SortStats.count_moved st
         /\ lookup (target_of base_path year md_file) t' = lookup md_file t
         /\ lookup md_file t' = None
         /\ forall q x, q <> md_file -> lookup q t = Some (File x) ->
                        lookup q t' = Some (File x))
        \/ (st' = SortStats.count_error st
            /\ forall q x, lookup q t = Some (File x) ->
                           lookup q t' = Some (File x))).
Proof.
  split; [|split; [|split]].
  - intros Y. unfold _process_file. now rewrite Y.
  - intros e. unfold extract_year_from_frontmatter.
    destruct (Py.read_text md_file t) as [[content|e'] t1]; [discriminate|auto].
  - intros year Y Ex. unfold _process_file. rewrite Y.
    fold (year_dir_of base_path year). fold (target_of base_path year md_file).
    now rewrite Ex.
  - intros year st' t' Y Ex P.
    destruct (year_means_text _ _ _ Y) as [content L].
    destruct (process_file_outcome _ _ _ _ _ _ _ _ P)
      as [(Y' & _)|(y & Y' & [(Ex' & _)|(_ & Out)])]; try congruence.
    assert (y = year) by congruence. subst y.
    destruct Out as [(_ & E & Fail)|(t2 & Mv & After)].
    + right. injection E as <-. split; [reflexivity|].
      destruct Fail as [[_ ->]|[Mk _]]; [auto|].
      intros q x. apply (proj2 (mkdir_spec _ _ _ Mk)).
    + left. destruct Mv as [[E _]|(_ & t1 & Mk & Rn)]; [discriminate|].
      destruct After as [(_ & E & ->)|(rp & E & _)]; [|discriminate].
      injection E as <-. split; [reflexivity|].
      destruct (mkdir_spec _ _ _ Mk) as [_ Keep].
      pose proof (Keep _ _ L) as L1.
      assert (Ne : md_file <> target_of base_path year md_file).
      { intros E. rewrite <- E in Ex. unfold exists_ in Ex. now rewrite L in Ex. }
      destruct (rename_spec _ _ _ _ Rn Ne) as (Rt & Rs & Rf & Rm).
      split; [now rewrite Rt, L1|]. split; [exact Rs|].
      intros q x Nq Lq. pose proof (Keep _ _ Lq) as Lq1.
      apply Rf; [| |exact Lq1].
      * intros B. apply Nq. eapply file_has_nothing_below; eauto.
      * intros [r Eq]. rewrite Eq, lookup_join in Lq1.
        destruct (lookup (target_of base_path year md_file) t1) as [old|] eqn:Lo;
          [|discriminate].
        specialize (Rm _ _ L1 eq_refl).
        destruct old as [o| |]; try discriminate.
        destruct r; [|discriminate]. rewrite List.app_nil_r in Eq. subst q.
        unfold exists_ in Ex. now rewrite Lq in Ex.
Qed.

Lemma add_resource_stats_seen (st : SortStats.t) (rs : ResourceManager.stats) :
  notes_seen (add_resource_stats st rs) = notes_seen st
  /\ SortStats.errors (add_resource_stats st rs)
     = SortStats.errors st + ResourceManager.errors rs.
Proof. split; reflexivity. Qed.

(** One note counts once: as moved, skipped, or as an error. *)
Lemma process_file_counts (execute : bool) (md_file base_path : path)
      (resources_path : option path) (st st' : SortStats.t) (t t' : node) :
  _process_file execute md_file base_path resources_path st t = (Py.Ok st', t') ->
  notes_seen st <= notes_seen st' <= S (notes_seen st)
  /\ SortStats.errors st <= SortStats.errors st'
  /\ S (notes_seen st + SortStats.errors st)
     <= notes_seen st' + SortStats.errors st'
  /\ (execute = false ->
      t' = t /\ notes_seen st' = S (notes_seen st)
      /\ SortStats.errors st' = SortStats.errors st).
Proof.
  intros P.
  destruct (process_file_outcome _ _ _ _ _ _ _ _ P)
    as [(_ & E & ->)|(y & _ & [(_ & E & ->)|(_ & [(X & E & F)|(t2 & Mv & After)])])].
  - injection E as E; subst st'. unfold notes_seen; simpl.
    split; [lia|]. split; [lia|]. split; [lia|]. intros _.
    split; [reflexivity|]. split; [lia | reflexivity].
  - injection E as E; subst st'. unfold notes_seen; simpl.
    split; [lia|]. split; [lia|]. split; [lia|]. intros _.
    split; [reflexivity|]. split; [lia | reflexivity].
  - injection E as E; subst st'. unfold notes_seen; simpl. subst execute.
    split; [lia|]. split; [lia|]. split; [lia|]. discriminate.
  - destruct After as [(_ & E & ->)|(rp & _ & _ & M)].
    + injection E as E; subst st'. unfold notes_seen; simpl.
      split; [lia|]. split; [lia|]. split; [lia|]. intros ->.
      destruct Mv as [[_ ->]|[X _]]; [|discriminate].
      split; [reflexivity|]. split; [lia | reflexivity].
    + destruct (ResourceManager.move_resources_for_markdown _ _ _ _ _ t2)
        as [[rs|e] t3] eqn:Mr; destruct M as [E ->]; [|discriminate].
      injection E as E; subst st'.
      destruct (add_resource_stats_seen (SortStats.count_moved st) rs) as [-> ->].
      unfold notes_seen; simpl.
      split; [lia|]. split; [lia|]. split; [lia|]. intros ->.
      destruct Mv as [[_ ->]|[X _]]; [|discriminate].
      unfold ResourceManager.move_resources_for_markdown in Mr.
      destruct (proj2 (ManagerFacts.move_each_counts _ _ _ _ _ _ _ _ _ Mr)
                      eq_refl) as [Z ->].
      simpl in Z. split; [reflexivity|]. split; lia.
Qed.

Lemma process_file_dry_returns (md_file base_path : path)
      (resources_path : option path) (st : SortStats.t) (t : node) :
  exists st', _process_file false md_file base_path resources_path st t
              = (Py.Ok st', t).
Proof.
  destruct (_process_file false md_file base_path resources_path st t)
    as [[st'|e] t'] eqn:P.
  - exists st'. now destruct (process_file_counts _ _ _ _ _ _ _ _ P)
      as (_ & _ & _ & D); destruct (D eq_refl) as [-> _].
  - exfalso.
    destruct (process_file_outcome _ _ _ _ _ _ _ _ P)
      as [(_ & E & _)|(y & _ & [(_ & E & _)|(_ & [(_ & E & _)|(t2 & Mv & After)])])];
      try discriminate.
    destruct After as [(_ & E & _)|(rp & _ & _ & M)]; [discriminate|].
    destruct Mv as [[_ ->]|[X _]]; [|discriminate].
    unfold ResourceManager.move_resources_for_markdown in M.
    match type of M with
    | context [ResourceManager.move_each false ?a ?b ?c ?d ?s t] =>
        destruct (RunFacts.move_each_dry a b c d s t) as [rs R]; rewrite R in M
    end.
    destruct M; discriminate.
Qed.

Lemma process_files_counts (execute : bool) (md_files : list path)
      (base_path : path) (resources_path : option path) :
  forall st st' t t',
    process_files execute md_files base_path resources_path st t
    = (Py.Ok st', t') ->
    notes_seen st' <= notes_seen st + length md_files
    /\ notes_seen st + SortStats.errors st + length md_files
       <= notes_seen st' + SortStats.errors st'
    /\ (execute = false ->
        t' = t /\ SortStats.errors st' = SortStats.errors st).
Proof.
  induction md_files as [|md rest IH]; intros st st' t t'.
  - simpl. intros [= <- <-]. repeat split; auto; lia.
  - cbn [process_files]. unfold Py.bind at 1.
    destruct (_process_file execute md base_path resources_path st t)
      as [[st1|e] t1] eqn:P; [|discriminate].
    intros R. destruct (IH _ _ _ _ R) as (A & B & C).
    destruct (process_file_counts _ _ _ _ _ _ _ _ P) as (A1 & B1 & C1 & D1).
    simpl. split; [lia|]. split; [lia|]. intros ->.
    destruct (D1 eq_refl) as (-> & _ & E1).
    destruct (C eq_refl) as [-> E2]. split; [reflexivity | congruence].
Qed.

Lemma process_files_dry_returns (md_files : list path) (base_path : path)
      (resources_path : option path) :
  forall st t,
    exists st', process_files false md_files base_path resources_path st t
                = (Py.Ok st', t).
Proof.
  induction md_files as [|md rest IH]; intros st t; [now exists st|].
  cbn [process_files]. unfold Py.bind.
  destruct (process_file_dry_returns md base_path resources_path st t)
    as [st1 ->].
  apply IH.
Qed.

(** The notes [sort_files] works on: the entries of the directory whose
    names end in [.md]. *)
Lemma glob_md (dir : path) (t : node) (md_file : path) :
  In md_file (fst (Glob.glob "*.md" dir t))
  <-> exists es stem,
        lookup dir t = Some (Dir es)
        /\ In (stem +++ ".md") (map fst es)
        /\ md_file = dir ++ [stem +++ ".md"].
Proof.
  unfold Glob.glob. split.
  - destruct (lookup dir t) as [[d|es|]|]; try (intros []).
    cbn [fst]. intros Hin. apply in_map_iff in Hin as (n & <- & Hn).
    unfold Glob.select in Hn.
    change (Fnmatch.is_wildcard_pattern "*.md") with true in Hn. cbv iota in Hn.
    apply filter_In in Hn as [Hn Hm].
    apply ReferenceFacts.md_pattern in Hm as [stem ->].
    exists es, stem. auto.
  - intros (es & stem & -> & Hn & ->). cbn [fst].
    apply in_map_iff. exists (stem +++ ".md"). split; [reflexivity|].
    unfold Glob.select.
    change (Fnmatch.is_wildcard_pattern "*.md") with true. cbv iota.
    apply filter_In. split; [exact Hn|].
    apply ReferenceFacts.md_pattern. now exists stem.
Qed.

(** X19. A dry run of [sort_files] leaves the file system as it is,
    whether it returns or raises; when it reports counters, every note
    of the directory, that is every entry whose name ends in [.md], is
    counted once as moved or skipped, and no error is counted. *)
Theorem sort_files_dry_run (dir : path) (resources_path : option path)
        (t : node) :
  snd (sort_files false dir resources_path t) = t
  /\ (forall st,
        fst (sort_files false dir resources_path t) = Py.Ok (Some st) ->
        SortStats.moved st + SortStats.skipped_no_date st
        + SortStats.skipped_exists st
        = length (fst (Glob.glob "*.md" dir t))
        /\ SortStats.errors st = 0
        /\ forall md_file,
             In md_file (fst (Glob.glob "*.md" dir t))
             <-> exists es stem,
                   lookup dir t = Some (Dir es)
                   /\ In (stem +++ ".md") (map fst es)
                   /\ md_file = dir ++ [stem +++ ".md"]).
Proof.
  unfold sort_files.
  destruct (exists_ t dir); cbn [negb]; [|repeat split; discriminate].
  destruct (is_dir t dir); cbn [negb]; [|repeat split; discriminate].
  set (rp := match resources_path with Some _ => _ | None => None end).
  destruct (Glob.glob "*.md" dir t) as [md_files raised] eqn:G.
  destruct raised; [split; [reflexivity | discriminate]|].
  destruct md_files as [|md rest]; [repeat split; discriminate|].
  unfold Py.bind.
  destruct (process_files_dry_returns (md :: rest) dir rp _initialize_stats t)
    as [st' R].
  rewrite R. cbn [Py.ret fst snd]. split; [reflexivity|].
  intros st [= <-].
  destruct (process_files_counts _ _ _ _ _ _ _ _ R) as (A & B & C).
  destruct (C eq_refl) as [_ E].
  change (notes_seen _initialize_stats) with 0 in *.
  change (SortStats.errors _initialize_stats) with 0 in *.
  unfold notes_seen in *. cbn [fst]. split; [lia|]. split; [exact E|].
  intros md_file. rewrite <- glob_md, G. reflexivity.
Qed.

(** X20. [sort_files] in either mode. It returns without counters, and
    without touching anything, exactly when the path is missing, is no
    directory, or has no entry whose name ends in [.md]. When it
    returns counters, every note is counted at most once as moved or
    skipped, and every note that is not is counted as an error. *)
Theorem sort_files_counts (execute : bool) (dir : path)
        (resources_path : option path) (t t' : node) :
  (sort_files execute dir resources_path t = (Py.Ok None, t') ->
   t' = t
   /\ (exists_ t dir = false \/ is_dir t dir = false
       \/ Glob.glob "*.md" dir t = ([], false)))
  /\ (exists_ t dir = false \/ is_dir t dir = false
      \/ Glob.glob "*.md" dir t = ([], false) ->
      sort_files execute dir resources_path t = (Py.Ok None, t))
  /\ (forall st,
        sort_files execute dir resources_path t = (Py.Ok (Some st), t') ->
        let notes := length (fst (Glob.glob "*.md" dir t)) in
        0 < notes
        /\ notes_seen st <= notes
        /\ notes <= notes_seen st + SortStats.errors st).
Proof.
  unfold sort_files.
  destruct (exists_ t dir); cbn [negb]; cycle 1.
  { split; [intros [= <-]; auto|]. split; [reflexivity | discriminate]. }
  destruct (is_dir t dir); cbn [negb]; cycle 1.
  { split; [intros [= <-]; auto|]. split; [reflexivity | discriminate]. }
  set (rp := match resources_path with Some _ => _ | None => None end).
  destruct (Glob.glob "*.md" dir t) as [md_files raised] eqn:G.
  destruct raised.
  { split; [discriminate|]. split; [|discriminate].
    intros [E|[E|E]]; discriminate. }
  destruct md_files as [|md rest].
  { split; [intros [= <-]; auto|]. split; [reflexivity | discriminate]. }
  unfold Py.bind.
  destruct (process_files execute (md :: rest) dir rp _initialize_stats t)
    as [[st'|e] t1] eqn:R; cbn [Py.ret].
  - split; [discriminate|]. split; [intros [E|[E|E]]; discriminate|].
    intros st [= <- <-]. cbv zeta. cbn [fst].
    destruct (process_files_counts _ _ _ _ _ _ _ _ R) as (A & B & _).
    change (notes_seen _initialize_stats) with 0 in *.
    change (SortStats.errors _initialize_stats) with 0 in *.
    simpl length in *. repeat split; lia.
  - split; [discriminate|]. split; [intros [E|[E|E]]; discriminate|].
    discriminate.
Qed.

End WithHashlib.
End SorterFacts.

(** ** The script and the package *)

Module ScriptFacts.
Import Store Spec.

Section WithHashlib.
Context {H : Hashlib}.

Lemma digest_truthy (b : string) : SortMdByYear.truthy (hexdigest b) = true.
Proof.
  unfold SortMdByYear.truthy.
  destruct (String.eqb (hexdigest b) "") eqn:E; [|reflexivity].
  apply String.eqb_eq in E. apply (f_equal String.length) in E.
  rewrite hexdigest_length in E. discriminate.
Qed.

(** The function of the script and the method of the package move a
    resource alike. *)
Lemma script_move_same (source_resource target_resource md_file : path)
      (resource_name : string) (execute : bool) (t : node) :
  SortMdByYear.move_resource_file
    source_resource target_resource md_file resource_name execute t
  = ResourceManager.move_resource_file
      execute source_resource target_resource md_file resource_name t.
Proof.
  unfold SortMdByYear.move_resource_file, ResourceManager.move_resource_file.
  destruct (exists_ t source_resource); [|reflexivity]. cbn [negb].
  destruct (exists_ t target_resource); [|reflexivity].
  unfold FileHasher.files_are_identical, FileHasher.compute_hash.
  destruct (read_bytes t source_resource) as [bs|],
           (read_bytes t target_resource) as [bt|];
    rewrite ?digest_truthy; reflexivity.
Qed.

Lemma count_resource_add (st : SortStats.t) (rs : ResourceManager.stats)
      (r : ResourceManager.result) :
  SortScript.count_resource (FileSorter.add_resource_stats st rs) r
  = FileSorter.add_resource_stats st (ResourceManager.count rs r).
Proof.
  destruct r as [[success new] status].
  unfold SortScript.count_resource, ResourceManager.count,
    FileSorter.add_resource_stats, SortStats.count_error.
  destruct success; [|simpl; f_equal; lia].
  destruct (String.eqb status "moved"); [simpl; f_equal; lia|].
  destruct (String.eqb status "renamed"); [simpl; f_equal; lia|].
  destruct (String.eqb status "missing"); [simpl; f_equal; lia|].
  reflexivity.
Qed.

Lemma add_no_resources (st : SortStats.t) :
  FileSorter.add_resource_stats
    st {| ResourceManager.moved := 0; ResourceManager.renamed := 0;
          ResourceManager.missing := 0; ResourceManager.errors := 0 |}
  = st.
Proof.
  destruct st. unfold FileSorter.add_resource_stats. simpl.
  f_equal; lia.
Qed.

(** The inner loop of the script counts into the seven counters what
    [move_resources_for_markdown] counts into its four. *)
Lemma move_links_same (execute : bool) (md_file : path)
      (resource_links : list string) (resources_path year_dir : path)
      (st : SortStats.t) :
  forall rs t,
    SortScript.move_links execute md_file resource_links resources_path
      (PurePath.joinpath year_dir "_resources")
      (FileSorter.add_resource_stats st rs) t
    = match ResourceManager.move_each execute md_file resource_links
              resources_path year_dir rs t with
      | (Py.Ok rs', t') => (Py.Ok (FileSorter.add_resource_stats st rs'), t')
      | (Py.Raise e, t') => (Py.Raise e, t')
      end.
Proof.
  induction resource_links as [|link links IH]; intros rs t; [reflexivity|].
  cbn [SortScript.move_links ResourceManager.move_each]. unfold Py.bind.
  rewrite script_move_same.
  destruct (ResourceManager.move_resource_file _ _ _ _ _ t) as [[r|e] t1];
    [|reflexivity].
  rewrite count_resource_add. apply IH.
Qed.

(** One round of the loop of the script is [_process_file]. *)
Lemma sort_each_step (execute : bool) (md : path) (rest : list path)
      (dir : path) (resources_path : option path) (st : SortStats.t) (t : node) :
  SortScript.sort_each execute (md :: rest) dir resources_path st t
  = match FileSorter._process_file execute md dir resources_path st t with
    | (Py.Ok st1, t1) =>
        SortScript.sort_each execute rest dir resources_path st1 t1
    | (Py.Raise e, t1) => (Py.Raise e, t1)
    end.
Proof.
  cbn [SortScript.sort_each]. unfold FileSorter._process_file.
  destruct (MarkdownParser.extract_year_from_frontmatter md t) as [year|];
    [|reflexivity].
  destruct (exists_ t _); [reflexivity|].
  unfold FileSorter._move_markdown_file, Py.bind, Py.try_except, Py.mkdir,
    Py.rename, Py.os_op, ResourceManager.move_resources_for_markdown.
  destruct execute.
  - destruct (mkdir _ t) as [t1|]; [|reflexivity].
    destruct (Store.rename md _ t1) as [t2|]; [|reflexivity].
    cbn [Py.ret fst snd negb].
    destruct resources_path as [rp|]; [|reflexivity].
    destruct (MarkdownParser.extract_resource_links md t) as [|l ls];
      [reflexivity|].
    rewrite <- (add_no_resources (SortStats.count_moved st)) at 1.
    rewrite move_links_same.
    now destruct (ResourceManager.move_each _ _ _ _ _ _ t2) as [[rs|e] t3].
  - cbn [Py.ret fst snd negb].
    destruct resources_path as [rp|]; [|reflexivity].
    destruct (MarkdownParser.extract_resource_links md t) as [|l ls];
      [reflexivity|].
    rewrite <- (add_no_resources (SortStats.count_moved st)) at 1.
    rewrite move_links_same.
    now destruct (ResourceManager.move_each _ _ _ _ _ _ t) as [[rs|e] t3].
Qed.

Lemma sort_each_same (execute : bool) (md_files : list path) (dir : path)
      (resources_path : option path) :
  forall st t,
    SortScript.sort_each execute md_files dir resources_path st t
    = FileSorter.process_files execute md_files dir resources_path st t.
Proof.
  induction md_files as [|md rest IH]; intros st t; [reflexivity|].
  rewrite sort_each_step. cbn [FileSorter.process_files]. unfold Py.bind.
  destruct (FileSorter._process_file execute md dir resources_path st t)
    as [[st1|e] t1]; [apply IH | reflexivity].
Qed.

(** X21. The script and the package do the same: [sort_markdown_files]
    of [sort_md_by_year.py] and [FileSorter.sort_files] return the same
    counters, raise alike and leave the same file system, and so do the
    two [move_resource_file]; the test of the script for empty digests
    never applies. *)
Theorem script_and_package_agree :
  (forall dir resources_path execute t,
      SortScript.sort_markdown_files dir resources_path execute t
      = FileSorter.sort_files execute dir resources_path t)
  /\ (forall source_resource target_resource md_file resource_name execute t,
        SortMdByYear.move_resource_file
          source_resource target_resource md_file resource_name execute t
        = ResourceManager.move_resource_file
            execute source_resource target_resource md_file resource_name t)
  /\ (forall md_file old_name new_name t,
        SortMdByYear.update_resource_link_in_markdown
          md_file old_name new_name true t
        = MarkdownParser.update_resource_link md_file old_name new_name t)
  /\ (forall b, SortMdByYear.truthy (hexdigest b) = true).
Proof.
  split; [|split; [exact script_move_same|split; [|exact digest_truthy]]].
  - intros dir resources_path execute t.
    unfold SortScript.sort_markdown_files, FileSorter.sort_files.
    destruct (exists_ t dir); [|reflexivity]. cbn [negb].
    destruct (is_dir t dir); [|reflexivity]. cbn [negb].
    destruct (Glob.glob "*.md" dir t) as [md_files raised].
    destruct raised; [reflexivity|].
    destruct md_files as [|md rest]; [reflexivity|].
    unfold Py.bind. now rewrite sort_each_same.
  - intros md_file old_name new_name t. reflexivity.
Qed.

End WithHashlib.
End ScriptFacts.

(** ** Links the optimizer rewrites *)

Module RewriteFacts.
Import Store WalkFacts TreeFacts StrFacts NoteFacts ResourceOptimizer Spec.

Lemma ending_split (display : option string) :
  ending display = short_ending display +++ closing display.
Proof.
  destruct display as [d|]; simpl; [|reflexivity].
  now rewrite append_assoc.
Qed.

Lemma link_end_found (display : option string) (post : string) :
  plain_display display ->
  link_end (short_ending display +++ closing display +++ post)
  = Some (short_ending display).
Proof.
  destruct display as [d|]; simpl; [|reflexivity].
  intros [Hne Hd]. rewrite append_assoc.
  unfold link_end.
  pose proof (span_stop MarkdownParser.not_bracket d "]" (String "]" post)
                        Hd eq_refl) as Sp.
  change (d +++ String "]" (String "]" post))
    with (d +++ "]" +++ String "]" post) in Sp.
  rewrite Sp. apply String.eqb_neq in Hne. now rewrite Hne.
Qed.

Lemma name_and_end_found (resource_name : string) (display : option string)
      (post : string) :
  plain_display display ->
  name_and_end resource_name
    (resource_name +++ short_ending display +++ closing display +++ post)
  = Some (String.length resource_name + String.length (short_ending display),
          short_ending display).
Proof.
  intros Hd. unfold name_and_end.
  now rewrite strip_prefix_append, (link_end_found _ _ Hd).
Qed.

Lemma after_some_dir_found (resource_name folder rest : string) (n : nat)
      (e : string) :
  Str.mem "/" folder = false -> Str.mem Str.nl folder = false ->
  name_and_end resource_name rest = Some (n, e) ->
  after_some_dir resource_name (folder +++ String "/" rest)
  = Some (String.length folder + S n, e).
Proof.
  intros Hs Hn Hr. induction folder as [|c folder IH].
  - simpl. now rewrite Hr.
  - cbn [Str.mem] in Hs, Hn.
    apply orb_false_elim in Hs as [Hs1 Hs2], Hn as [Hn1 Hn2].
    change (String c folder +++ String "/" rest)
      with (String c (folder +++ String "/" rest)).
    cbn [after_some_dir].
    rewrite Ascii.eqb_sym in Hs1. rewrite Ascii.eqb_sym in Hn1.
    now rewrite Hs1, Hn1, (IH Hs2 Hn2).
Qed.

Lemma link_anywhere_needs_mark (resource_name : string) (c : ascii) (r : string) :
  Ascii.eqb "!" c = false -> link_anywhere resource_name (String c r) = None.
Proof.
  intros Hc. unfold link_anywhere.
  change ("![[") with (String "!" "[[").
  now rewrite strip_prefix_cons, Hc.
Qed.

Lemma sub_without_mark (resource_name : string) (items : list Re.item)
      (a rest : string) :
  Str.forallb no_mark a = true ->
  Re.sub_from (link_anywhere resource_name) items 0 (a +++ rest)
  = a +++ Re.sub_from (link_anywhere resource_name) items 0 rest.
Proof.
  induction a as [|c a IH]; [reflexivity|]. cbn [Str.forallb].
  intros Ha. apply andb_prop in Ha as [Hc Ha].
  apply negb_true_iff in Hc.
  change (String c a +++ rest) with (String c (a +++ rest)).
  cbn [Re.sub_from].
  rewrite (link_anywhere_needs_mark _ _ _ Hc), (IH Ha). reflexivity.
Qed.

(** The pattern of [_update_markdown_link] at a link: it takes
    everything from the two brackets to the end of the link. *)
Lemma link_anywhere_found (resource_name folder : string)
      (display : option string) (post : string) :
  Str.mem "/" folder = false -> Str.mem Str.nl folder = false ->
  plain_display display ->
  let taken := "[[" +++ folder +++ "/" +++ resource_name +++ short_ending display in
  link_anywhere resource_name
    (String "!" (taken +++ closing display +++ post))
  = Some ([String "!" taken; "![["; short_ending display],
          S (String.length taken)).
Proof.
  intros Hs Hn Hd taken. unfold link_anywhere.
  assert (E : String "!" (taken +++ closing display +++ post)
              = "![[" +++ folder +++ String "/"
                  (resource_name +++ short_ending display +++ closing display
                   +++ post)).
  { unfold taken. simpl. repeat (rewrite append_assoc; simpl). reflexivity. }
  rewrite E at 1. rewrite strip_prefix_append.
  rewrite (after_some_dir_found _ _ _ _ _ Hs Hn (name_and_end_found _ _ post Hd)).
  assert (L : 3 + (String.length folder
                   + S (String.length resource_name
                        + String.length (short_ending display)))
              = S (String.length taken)).
  { unfold taken. rewrite !length_append. simpl. lia. }
  rewrite L. do 3 f_equal.
  change (Str.take (S (String.length taken))
                   (String "!" (taken +++ closing display +++ post)))
    with (String "!" (Str.take (String.length taken)
                               (taken +++ closing display +++ post))).
  now rewrite take_append.
Qed.

(** What [re.sub] makes of a note that holds one link to the resource. *)
Lemma sub_one_link (resource_name folder text pre post : string)
      (display : option string) :
  Str.mem "/" folder = false -> Str.mem Str.nl folder = false ->
  plain_display display ->
  Str.forallb no_mark pre = true -> Str.forallb no_mark post = true ->
  template_safe text ->
  Re.sub (link_anywhere resource_name) 2 ("\1" +++ text +++ "\2")
         (pre +++ "![[" +++ folder +++ "/" +++ resource_name
          +++ ending display +++ post)
  = Some (pre +++ "![[" +++ text +++ ending display +++ post).
Proof.
  intros Hs Hn Hd Hpre Hpost Ht. unfold Re.sub.
  rewrite (template_of_safe_name _ Ht). f_equal.
  rewrite (sub_without_mark _ _ _ _ Hpre). f_equal.
  rewrite !ending_split.
  pose proof (link_anywhere_found resource_name folder display post Hs Hn Hd) as F.
  cbv zeta in F.
  remember ("[[" +++ folder +++ "/" +++ resource_name +++ short_ending display)
    as taken eqn:Et.
  assert (E : "![[" +++ folder +++ "/" +++ resource_name
              +++ (short_ending display +++ closing display) +++ post
              = String "!" (taken +++ closing display +++ post)).
  { subst taken. simpl. repeat (rewrite append_assoc; simpl). reflexivity. }
  rewrite E. cbn [Re.sub_from]. rewrite F.
  replace (S (String.length taken) - 1) with (String.length taken) by lia.
  rewrite sub_skip.
  assert (Hc : Str.forallb no_mark (closing display +++ post) = true).
  { rewrite forallb_append, Hpost. now destruct display. }
  rewrite <- (append_nil_r (closing display +++ post)) at 1.
  rewrite (sub_without_mark _ _ _ _ Hc). cbn [Re.sub_from].
  rewrite append_nil_r.
  cbn [Re.expand nth]. rewrite expand_literals. cbn [Re.expand nth].
  rewrite append_nil_r. simpl. now rewrite !append_assoc.
Qed.

Lemma link_text_safe (md_file : path) (resource_name : string)
      (new_resource_path : path) :
  (forall c rest,
      link_text md_file resource_name new_resource_path = String c rest ->
      Str.is_digit c = false) ->
  template_safe (link_text md_file resource_name new_resource_path).
Proof.
  intros Hd. split; [apply RelocateFacts.replace_no_backslash|].
  destruct (link_text md_file resource_name new_resource_path) as [|c rest] eqn:E;
    [exact I | eapply Hd; reflexivity].
Qed.

(** X22. [_update_markdown_link] on a note that holds one embedded link
    to the resource in a folder, with or without display text, in text
    without exclamation mark. When it answers [True], the folder and
    the name are replaced with the path of the new location relative
    to the directory of the note, or with [_resources/name] where
    there is none, the text around the link and the display text stay,
    and every other file is as it was. The path written must not start
    with a digit, which the replacement template would read as part of
    a group number. *)
Theorem _update_markdown_link_rewrites
        (md_file : path) (resource_name : string) (new_resource_path : path)
        (t t' : node) (folder pre post : string) (display : option string) :
  Py.read_text md_file t
  = (Py.Ok (pre +++ "![[" +++ folder +++ "/" +++ resource_name
            +++ ending display +++ post), t) ->
  Str.mem "/" folder = false -> Str.mem Str.nl folder = false ->
  plain_display display ->
  Str.forallb no_mark pre = true -> Str.forallb no_mark post = true ->
  (forall c rest,
      link_text md_file resource_name new_resource_path = String c rest ->
      Str.is_digit c = false) ->
  _update_markdown_link md_file resource_name new_resource_path t
  = (Py.Ok true, t') ->
  Py.read_text md_file t'
  = (Py.Ok (Str.universal_newlines
              (pre +++ "![["
               +++ link_text md_file resource_name new_resource_path
               +++ ending display +++ post)), t')
  /\ forall q x, q <> md_file -> lookup q t = Some (File x) ->
                 lookup q t' = Some (File x).
Proof.
  intros R Hs Hn Hd Hpre Hpost Hdigit U.
  pose proof (sub_one_link resource_name folder _ pre post display
                Hs Hn Hd Hpre Hpost (link_text_safe _ _ _ Hdigit)) as S.
  unfold _update_markdown_link, Py.try_except, Py.bind in U.
  rewrite R in U. fold (link_text md_file resource_name new_resource_path) in U.
  rewrite S in U. unfold Py.write_text, Py.os_op in U.
  destruct (write md_file _ t) as [t1|] eqn:W; simpl in U; [|discriminate].
  injection U as <-.
  destruct (write_spec _ _ _ _ W) as [Back Keep].
  split; [now apply read_text_of | exact Keep].
Qed.

Lemma _update_markdown_link_rewrites_witness :
  Py.read_text ["/"; "v"; "b"; "n2.md"]
    (snd (_update_markdown_link ["/"; "v"; "b"; "n2.md"] "p.png"
            ["/"; "v"; "_resources"; "p.png"] Vaults.vault))
  = (Py.Ok "![[_resources/p.png]]",
     snd (_update_markdown_link ["/"; "v"; "b"; "n2.md"] "p.png"
            ["/"; "v"; "_resources"; "p.png"] Vaults.vault)).
Proof.
  refine (proj1 (_update_markdown_link_rewrites
                   ["/"; "v"; "b"; "n2.md"] "p.png"
                   ["/"; "v"; "_resources"; "p.png"]
                   Vaults.vault _ "_resources" "" "" None
                   eq_refl eq_refl eq_refl I eq_refl eq_refl _ eq_refl)).
  intros c rest [= <- _]. reflexivity.
Defined.

End RewriteFacts.
